(** * MotionBlur: the present interceptor and its render engine

    A shallow embedding of the EGL swap hook of the MotionBlur module
    ([src/main.cpp] and the simple-blend variant of the same engine) and
    the properties of its frame loop: the ping-pong history index, the
    size check and re-initialisation, the internal resolution, and the
    sharpening step of the output shader.

    The OpenGL ES driver, EGL and the host's original present function are
    outside the program. They are modelled by a log of the calls the
    program makes, in the order it makes them, and by an environment that
    answers the calls that return a value. *)

From Stdlib Require Import ZArith Lia List Bool String.
From Stdlib Require Import Floats.SpecFloat.
From Stdlib Require Import QArith Qabs.
Close Scope Q_scope.
From Stdlib Require Import Reals Lra.
Import ListNotations.
Local Open Scope Z_scope.

(** ** Single-precision arithmetic of the resolution scaling

    [iW=(int)(w*SCALE)] converts the [int] to [float], multiplies by the
    [float] constant and truncates. The three steps are taken from the
    IEEE 754 specification of the Standard Library at binary32. *)
Module Binary32.
Definition prec : Z := 24.
Definition emax : Z := 128.
Definition float := spec_float.

(** int -> float, round to nearest even. *)
Definition of_int (n : Z) : float := binary_normalize prec emax n 0 false.

Definition mul (x y : float) : float := SFmul prec emax x y.

(** float -> int truncates toward zero. The operand in this program is
    [w*0.5f] for a 32-bit [w], which is finite and within the range of
    [int]; the non-finite cases are mapped to 0. *)
Definition to_int (x : float) : Z :=
  match x with
  | S754_finite s m e => cond_Zopp s (Z.shiftl (Zpos m) e)
  | _ => 0
  end.
End Binary32.

(** [static const float SCALE = 0.5f;]  i.e. 2^23 * 2^-24. *)
Definition SCALE : Binary32.float := S754_finite false 8388608 (-24).

(** [(int)(w*SCALE)] *)
Definition scaled (w : Z) : Z :=
  Binary32.to_int (Binary32.mul (Binary32.of_int w) SCALE).

(** ** The calls the program makes *)
Module GL.
Definition GLuint := Z.
Definition GLint := Z.
Definition EGLint := Z.
Definition EGLBoolean := Z.
(** [EGLDisplay] and [EGLSurface] are opaque handles. *)
Definition EGLDisplay := Z.
Definition EGLSurface := Z.
(** The address held by the saved function pointer. *)
Definition FnPtr := Z.

Definition EGL_FALSE : EGLBoolean := 0.

Inductive ShaderType := GL_VERTEX_SHADER | GL_FRAGMENT_SHADER.
Inductive BufferTarget := GL_ARRAY_BUFFER | GL_ELEMENT_ARRAY_BUFFER.
Inductive FramebufferTarget :=
  GL_FRAMEBUFFER | GL_READ_FRAMEBUFFER | GL_DRAW_FRAMEBUFFER.
Inductive Capability := GL_SCISSOR_TEST | GL_DEPTH_TEST | GL_BLEND.
Inductive TextureUnit := GL_TEXTURE0 | GL_TEXTURE1.
Inductive TexParameter :=
  GL_TEXTURE_MIN_FILTER | GL_TEXTURE_MAG_FILTER
| GL_TEXTURE_WRAP_S | GL_TEXTURE_WRAP_T.
Inductive TexParameterValue := GL_LINEAR | GL_CLAMP_TO_EDGE.
Inductive SurfaceAttribute := EGL_WIDTH | EGL_HEIGHT.

(** One constructor per entry point the sources use, with the arguments
    that vary. Fixed arguments (GL_TEXTURE_2D, GL_RGBA, GL_TRIANGLES,
    GL_COLOR_BUFFER_BIT, ...) are left out. A shader source is named
    by the C++ constant that holds it. *)
Inductive Event :=
| glDeleteTextures (names : list GLuint)
| glDeleteFramebuffers (names : list GLuint)
| glDeleteVertexArrays (names : list GLuint)
| glCreateShader (t : ShaderType)
| glShaderSource (x : GLuint) (src : string)
| glCompileShader (x : GLuint)
| glCreateProgram
| glAttachShader (p s : GLuint)
| glLinkProgram (p : GLuint)
| glUseProgram (p : GLuint)
| glGetUniformLocation (p : GLuint) (name : string)
| glUniform1i (loc : GLint) (v : Z)
| glUniform1f (loc : GLint) (v : Binary32.float)
| glGenVertexArrays
| glBindVertexArray (a : GLuint)
| glGenBuffers
| glBindBuffer (t : BufferTarget) (b : GLuint)
| glBufferData (t : BufferTarget) (size : Z) (data : list Z)
| glEnableVertexAttribArray (index : Z)
| glVertexAttribPointer (index size stride offset : Z)
| glGenTextures
| glBindTexture (tx : GLuint)
| glTexImage2D (width height : Z)
| glTexParameteri (p : TexParameter) (v : TexParameterValue)
| glGenFramebuffers
| glBindFramebuffer (t : FramebufferTarget) (fb : GLuint)
| glFramebufferTexture2D (tx : GLuint)
| glClearColor (r g b a : Z)
| glClear
| glDisable (c : Capability)
| glGetIntegerv_FRAMEBUFFER_BINDING
| glBlitFramebuffer (sx0 sy0 sx1 sy1 dx0 dy0 dx1 dy1 : Z)
| glViewport (x y w h : Z)
| glActiveTexture (u : TextureUnit)
| glDrawElements (count : Z)
| eglQuerySurface (d : EGLDisplay) (s : EGLSurface) (a : SurfaceAttribute)
| call_original (f : FnPtr) (d : EGLDisplay) (s : EGLSurface).

(** What the world outside answers. An answer is indexed by the number
    of calls the process has made before the one being answered; the
    program is deterministic, so its calls up to that point are a function
    of the earlier answers and every behaviour of the outside is some
    such family of answers.

    The three status fields are what the driver would report through
    [glCheckFramebufferStatus], [glGetProgramiv(GL_LINK_STATUS)] and
    [glGetShaderiv(GL_COMPILE_STATUS)]. *)
Record Env := {
  gl_name : nat -> GLuint;
  gl_location : nat -> GLint;
  gl_integer : nat -> GLint;
  egl_value : nat -> EGLint;
  present_result : nat -> EGLBoolean;
  framebuffer_complete : GLuint -> bool;
  program_linked : GLuint -> bool;
  shader_compiled : GLuint -> bool
}.


(** A fixed-size array of two object names, indexed by an [int]. An index
    outside 0..1 is undefined behaviour in C++. *)
Definition arr2 := (GLuint * GLuint)%type.

Definition arr_get (a : arr2) (i : Z) : option GLuint :=
  if i =? 0 then Some (fst a)
  else if i =? 1 then Some (snd a)
  else None.

(** Classification of calls. *)
Definition is_release (e : Event) : bool :=
  match e with
  | glDeleteTextures _ | glDeleteFramebuffers _ | glDeleteVertexArrays _ => true
  | _ => false
  end.

Definition is_alloc (e : Event) : bool :=
  match e with
  | glCreateShader _ | glCreateProgram | glGenVertexArrays | glGenBuffers
  | glGenTextures | glGenFramebuffers | glTexImage2D _ _
  | glBufferData _ _ _ => true
  | _ => false
  end.

Definition is_gen_texture (e : Event) : bool :=
  match e with glGenTextures => true | _ => false end.

Definition is_gen_framebuffer (e : Event) : bool :=
  match e with glGenFramebuffers => true | _ => false end.

Definition is_tex_image (w h : Z) (e : Event) : bool :=
  match e with
  | glTexImage2D w' h' => (w' =? w) && (h' =? h)
  | _ => false
  end.

Definition is_draw (e : Event) : bool :=
  match e with glDrawElements _ => true | _ => false end.

Definition count (p : Event -> bool) (l : list Event) : nat :=
  List.length (filter p l).
End GL.
Import GL.

(** ** Program state and effects

    The globals of a translation unit and the log of calls, threaded
    through a state monad. [None] is undefined behaviour (an array index
    out of range, signed overflow, a call through a null pointer). *)
Module Exec.
Section WithGlobals.
Context {G : Type}.

Record World := { globals : G; log : list Event }.

Definition M (A : Type) := World -> option (A * World).

Definition ret {A} (a : A) : M A := fun W => Some (a, W).

Definition bind {A B} (m : M A) (k : A -> M B) : M B :=
  fun W => match m W with
           | Some (a, W') => k a W'
           | None => None
           end.

Definition undefined {A} : M A := fun _ => None.

Definition get : M G := fun W => Some (globals W, W).

Definition modify (f : G -> G) : M unit :=
  fun W => Some (tt, {| globals := f (globals W); log := log W |}).

(** A call whose result, if any, the program ignores. *)
Definition call (e : Event) : M unit :=
  fun W => Some (tt, {| globals := globals W; log := e :: log W |}).

(** A call answered by the environment. *)
Definition ask (answer : nat -> Z) (e : Event) : M Z :=
  fun W => Some (answer (List.length (log W)),
                 {| globals := globals W; log := e :: log W |}).

Definition lift {A} (o : option A) : M A :=
  match o with Some a => ret a | None => undefined end.

(** The calls a run has added to the log, in program order. *)
Definition emitted (l : list Event) (W : World) : World :=
  {| globals := globals W; log := rev l ++ log W |}.
End WithGlobals.
Arguments World : clear implicits.
Arguments M : clear implicits.
End Exec.
Import Exec.

Declare Scope exec_scope.
Delimit Scope exec_scope with exec.
Notation "x <- m ;; k" := (bind m (fun x => k))
  (at level 61, m at next level, right associativity) : exec_scope.
Notation "m ;; k" := (bind m (fun _ => k))
  (at level 61, right associativity) : exec_scope.

(** [int] arithmetic: signed overflow is undefined. *)
Definition INT_MIN : Z := - 2 ^ 31.
Definition INT_MAX : Z := 2 ^ 31 - 1.

Definition int_sub (a b : Z) : option Z :=
  let r := a - b in
  if (INT_MIN <=? r) && (r <=? INT_MAX) then Some r else None.

(** ** [src/main.cpp]: the velocity-adaptive engine *)
Module Main.
Local Open Scope exec_scope.

(** [static GLuint rawTex=0, rawFBO=0, histTex[2]={0,0}, histFBO[2]={0,0}, vao=0;]
    [static GLuint progBlur=0, progDraw=0;]
    [static int ping=0, iW=0, iH=0, sW=0, sH=0;]
    and the function pointer [orig], initially null. *)
Record Globals := {
  rawTex : GLuint;
  rawFBO : GLuint;
  histTex : arr2;
  histFBO : arr2;
  vao : GLuint;
  progBlur : GLuint;
  progDraw : GLuint;
  ping : Z;
  iW : Z;
  iH : Z;
  sW : Z;
  sH : Z;
  orig : option FnPtr
}.

Definition initial : Globals :=
  {| rawTex := 0; rawFBO := 0; histTex := (0, 0); histFBO := (0, 0);
     vao := 0; progBlur := 0; progDraw := 0;
     ping := 0; iW := 0; iH := 0; sW := 0; sH := 0; orig := None |}.

Definition set_rawTex (v : GLuint) (g : Globals) : Globals :=
  {| rawTex := v;
     rawFBO := rawFBO g;
     histTex := histTex g;
     histFBO := histFBO g;
     vao := vao g;
     progBlur := progBlur g;
     progDraw := progDraw g;
     ping := ping g;
     iW := iW g;
     iH := iH g;
     sW := sW g;
     sH := sH g;
     orig := orig g |}.

Definition set_rawFBO (v : GLuint) (g : Globals) : Globals :=
  {| rawTex := rawTex g;
     rawFBO := v;
     histTex := histTex g;
     histFBO := histFBO g;
     vao := vao g;
     progBlur := progBlur g;
     progDraw := progDraw g;
     ping := ping g;
     iW := iW g;
     iH := iH g;
     sW := sW g;
     sH := sH g;
     orig := orig g |}.

Definition set_histTex (v : arr2) (g : Globals) : Globals :=
  {| rawTex := rawTex g;
     rawFBO := rawFBO g;
     histTex := v;
     histFBO := histFBO g;
     vao := vao g;
     progBlur := progBlur g;
     progDraw := progDraw g;
     ping := ping g;
     iW := iW g;
     iH := iH g;
     sW := sW g;
     sH := sH g;
     orig := orig g |}.

Definition set_histFBO (v : arr2) (g : Globals) : Globals :=
  {| rawTex := rawTex g;
     rawFBO := rawFBO g;
     histTex := histTex g;
     histFBO := v;
     vao := vao g;
     progBlur := progBlur g;
     progDraw := progDraw g;
     ping := ping g;
     iW := iW g;
     iH := iH g;
     sW := sW g;
     sH := sH g;
     orig := orig g |}.

Definition set_vao (v : GLuint) (g : Globals) : Globals :=
  {| rawTex := rawTex g;
     rawFBO := rawFBO g;
     histTex := histTex g;
     histFBO := histFBO g;
     vao := v;
     progBlur := progBlur g;
     progDraw := progDraw g;
     ping := ping g;
     iW := iW g;
     iH := iH g;
     sW := sW g;
     sH := sH g;
     orig := orig g |}.

Definition set_progBlur (v : GLuint) (g : Globals) : Globals :=
  {| rawTex := rawTex g;
     rawFBO := rawFBO g;
     histTex := histTex g;
     histFBO := histFBO g;
     vao := vao g;
     progBlur := v;
     progDraw := progDraw g;
     ping := ping g;
     iW := iW g;
     iH := iH g;
     sW := sW g;
     sH := sH g;
     orig := orig g |}.

Definition set_progDraw (v : GLuint) (g : Globals) : Globals :=
  {| rawTex := rawTex g;
     rawFBO := rawFBO g;
     histTex := histTex g;
     histFBO := histFBO g;
     vao := vao g;
     progBlur := progBlur g;
     progDraw := v;
     ping := ping g;
     iW := iW g;
     iH := iH g;
     sW := sW g;
     sH := sH g;
     orig := orig g |}.

Definition set_ping (v : Z) (g : Globals) : Globals :=
  {| rawTex := rawTex g;
     rawFBO := rawFBO g;
     histTex := histTex g;
     histFBO := histFBO g;
     vao := vao g;
     progBlur := progBlur g;
     progDraw := progDraw g;
     ping := v;
     iW := iW g;
     iH := iH g;
     sW := sW g;
     sH := sH g;
     orig := orig g |}.

Definition set_iW (v : Z) (g : Globals) : Globals :=
  {| rawTex := rawTex g;
     rawFBO := rawFBO g;
     histTex := histTex g;
     histFBO := histFBO g;
     vao := vao g;
     progBlur := progBlur g;
     progDraw := progDraw g;
     ping := ping g;
     iW := v;
     iH := iH g;
     sW := sW g;
     sH := sH g;
     orig := orig g |}.

Definition set_iH (v : Z) (g : Globals) : Globals :=
  {| rawTex := rawTex g;
     rawFBO := rawFBO g;
     histTex := histTex g;
     histFBO := histFBO g;
     vao := vao g;
     progBlur := progBlur g;
     progDraw := progDraw g;
     ping := ping g;
     iW := iW g;
     iH := v;
     sW := sW g;
     sH := sH g;
     orig := orig g |}.

Definition set_sW (v : Z) (g : Globals) : Globals :=
  {| rawTex := rawTex g;
     rawFBO := rawFBO g;
     histTex := histTex g;
     histFBO := histFBO g;
     vao := vao g;
     progBlur := progBlur g;
     progDraw := progDraw g;
     ping := ping g;
     iW := iW g;
     iH := iH g;
     sW := v;
     sH := sH g;
     orig := orig g |}.

Definition set_sH (v : Z) (g : Globals) : Globals :=
  {| rawTex := rawTex g;
     rawFBO := rawFBO g;
     histTex := histTex g;
     histFBO := histFBO g;
     vao := vao g;
     progBlur := progBlur g;
     progDraw := progDraw g;
     ping := ping g;
     iW := iW g;
     iH := iH g;
     sW := sW g;
     sH := v;
     orig := orig g |}.

Definition set_orig (v : option FnPtr) (g : Globals) : Globals :=
  {| rawTex := rawTex g;
     rawFBO := rawFBO g;
     histTex := histTex g;
     histFBO := histFBO g;
     vao := vao g;
     progBlur := progBlur g;
     progDraw := progDraw g;
     ping := ping g;
     iW := iW g;
     iH := iH g;
     sW := sW g;
     sH := sH g;
     orig := v |}.

(** Writes to [histTex[0]], [histTex[1]], [histFBO[0]], [histFBO[1]]. *)
Definition set_histTex0 (v : GLuint) (g : Globals) : Globals :=
  set_histTex (v, snd (histTex g)) g.
Definition set_histTex1 (v : GLuint) (g : Globals) : Globals :=
  set_histTex (fst (histTex g), v) g.
Definition set_histFBO0 (v : GLuint) (g : Globals) : Globals :=
  set_histFBO (v, snd (histFBO g)) g.
Definition set_histFBO1 (v : GLuint) (g : Globals) : Globals :=
  set_histFBO (fst (histFBO g), v) g.

Definition World := Exec.World Globals.
Definition M := Exec.M Globals.

Section WithEnv.
Variable env : Env.

(** The lambda [c] of [initGL]: create, source and compile a shader. *)
Definition initGL_c (t : ShaderType) (s : string) : M GLuint :=
  x <- ask (gl_name env) (glCreateShader t) ;;
  call (glShaderSource x s) ;;
  call (glCompileShader x) ;;
  ret x.

(** The lambda [t] of [initGL]: a texture of the internal resolution
    and a framebuffer with it as colour attachment. The two names are
    written through the references [tx] and [fb]. *)
Definition initGL_t (tx fb : GLuint -> Globals -> Globals) : M unit :=
  x <- ask (gl_name env) glGenTextures ;;
  modify (tx x) ;;
  call (glBindTexture x) ;;
  g <- get ;;
  call (glTexImage2D (iW g) (iH g)) ;;
  call (glTexParameteri GL_TEXTURE_MIN_FILTER GL_LINEAR) ;;
  call (glTexParameteri GL_TEXTURE_MAG_FILTER GL_LINEAR) ;;
  call (glTexParameteri GL_TEXTURE_WRAP_S GL_CLAMP_TO_EDGE) ;;
  call (glTexParameteri GL_TEXTURE_WRAP_T GL_CLAMP_TO_EDGE) ;;
  f <- ask (gl_name env) glGenFramebuffers ;;
  modify (fb f) ;;
  call (glBindFramebuffer GL_FRAMEBUFFER f) ;;
  call (glFramebufferTexture2D x).

Definition initGL (w h : Z) : M unit :=
  (* Resource cleanup *)
  g <- get ;;
  (if negb (rawTex g =? 0) then
     call (glDeleteTextures [rawTex g]) ;;
     call (glDeleteFramebuffers [rawFBO g]) ;;
     call (glDeleteTextures [fst (histTex g); snd (histTex g)]) ;;
     call (glDeleteFramebuffers [fst (histFBO g); snd (histFBO g)]) ;;
     call (glDeleteVertexArrays [vao g])
   else ret tt) ;;
  (* Internal Resolution *)
  modify (set_iW (scaled w)) ;;
  modify (set_iH (scaled h)) ;;
  (* Shader Compilation *)
  vs <- initGL_c GL_VERTEX_SHADER "vert" ;;
  fs1 <- initGL_c GL_FRAGMENT_SHADER "frag_blur" ;;
  fs2 <- initGL_c GL_FRAGMENT_SHADER "frag_draw" ;;
  pb <- ask (gl_name env) glCreateProgram ;;
  modify (set_progBlur pb) ;;
  call (glAttachShader pb vs) ;;
  call (glAttachShader pb fs1) ;;
  call (glLinkProgram pb) ;;
  call (glUseProgram pb) ;;
  lc <- ask (gl_location env) (glGetUniformLocation pb "c") ;;
  call (glUniform1i lc 0) ;;
  lh <- ask (gl_location env) (glGetUniformLocation pb "h") ;;
  call (glUniform1i lh 1) ;;
  pd <- ask (gl_name env) glCreateProgram ;;
  modify (set_progDraw pd) ;;
  call (glAttachShader pd vs) ;;
  call (glAttachShader pd fs2) ;;
  call (glLinkProgram pd) ;;
  (* Geometry Setup *)
  a <- ask (gl_name env) glGenVertexArrays ;;
  modify (set_vao a) ;;
  call (glBindVertexArray a) ;;
  vb <- ask (gl_name env) glGenBuffers ;;
  call (glBindBuffer GL_ARRAY_BUFFER vb) ;;
  call (glBufferData GL_ARRAY_BUFFER 64
          [-1;1;0;1; -1;-1;0;0; 1;-1;1;0; 1;1;1;1]) ;;
  ib <- ask (gl_name env) glGenBuffers ;;
  call (glBindBuffer GL_ELEMENT_ARRAY_BUFFER ib) ;;
  call (glBufferData GL_ELEMENT_ARRAY_BUFFER 12 [0;1;2; 0;2;3]) ;;
  call (glEnableVertexAttribArray 0) ;;
  call (glVertexAttribPointer 0 2 16 0) ;;
  call (glEnableVertexAttribArray 1) ;;
  call (glVertexAttribPointer 1 2 16 8) ;;
  (* Texture Setup *)
  initGL_t set_rawTex set_rawFBO ;;
  initGL_t set_histTex0 set_histFBO0 ;;
  initGL_t set_histTex1 set_histFBO1 ;;
  (* Clear Buffers *)
  g <- get ;;
  call (glBindFramebuffer GL_FRAMEBUFFER (fst (histFBO g))) ;;
  call (glClearColor 0 0 0 1) ;;
  call glClear ;;
  call (glBindFramebuffer GL_FRAMEBUFFER (snd (histFBO g))) ;;
  call (glClearColor 0 0 0 1) ;;
  call glClear ;;
  modify (set_sW w) ;;
  modify (set_sH h).

(** [if(w!=sW || h!=sH || !rawTex)] *)
Definition size_changed (g : Globals) (w h : Z) : bool :=
  negb (w =? sW g) || negb (h =? sH g) || (rawTex g =? 0).

Definition render (w h : Z) : M unit :=
  g <- get ;;
  (if size_changed g w h then initGL w h else ret tt) ;;
  call (glDisable GL_SCISSOR_TEST) ;;
  call (glDisable GL_DEPTH_TEST) ;;
  call (glDisable GL_BLEND) ;;
  (* 1. FAST COPY (Downscale) *)
  g <- get ;;
  call (glBindFramebuffer GL_READ_FRAMEBUFFER 0) ;;
  call (glBindFramebuffer GL_DRAW_FRAMEBUFFER (rawFBO g)) ;;
  call (glBlitFramebuffer 0 0 w h 0 0 (iW g) (iH g)) ;;
  (* 2. BLUR PASS *)
  let cur := ping g in
  pre <- lift (int_sub 1 (ping g)) ;;
  fb <- lift (arr_get (histFBO g) cur) ;;
  call (glBindFramebuffer GL_FRAMEBUFFER fb) ;;
  call (glViewport 0 0 (iW g) (iH g)) ;;
  call (glBindVertexArray (vao g)) ;;
  call (glUseProgram (progBlur g)) ;;
  call (glActiveTexture GL_TEXTURE0) ;;
  call (glBindTexture (rawTex g)) ;;
  call (glActiveTexture GL_TEXTURE1) ;;
  tp <- lift (arr_get (histTex g) pre) ;;
  call (glBindTexture tp) ;;
  call (glDrawElements 6) ;;
  (* 3. DRAW PASS (Upscale + Sharpen) *)
  call (glBindFramebuffer GL_FRAMEBUFFER 0) ;;
  call (glViewport 0 0 w h) ;;
  call (glUseProgram (progDraw g)) ;;
  call (glActiveTexture GL_TEXTURE0) ;;
  tc <- lift (arr_get (histTex g) cur) ;;
  call (glBindTexture tc) ;;
  call (glDrawElements 6) ;;
  modify (set_ping pre).

(** [EGLBoolean hook(EGLDisplay d, EGLSurface s)]. The value of [w]
    and [h] after each query is what the environment left in them. A
    call through [orig] while it is null is undefined. *)
Definition hook (d : EGLDisplay) (s : EGLSurface) : M EGLBoolean :=
  w <- ask (egl_value env) (eglQuerySurface d s EGL_WIDTH) ;;
  h <- ask (egl_value env) (eglQuerySurface d s EGL_HEIGHT) ;;
  (if 100 <? w then render w h else ret tt) ;;
  g <- get ;;
  match orig g with
  | Some f => ask (present_result env) (call_original f d s)
  | None => undefined
  end.

(** [n] consecutive frames at one size. *)
Fixpoint frames (w h : Z) (n : nat) : M unit :=
  match n with
  | O => ret tt
  | S n' => frames w h n' ;; render w h
  end.
End WithEnv.

(** The state when the first frame arrives: the initial globals, [orig]
    as the installation left it, and whatever was logged before. *)
Definition start (o : option FnPtr) (l : list Event) : World :=
  {| globals := set_orig o initial; log := l |}.

(** [ping] is one of the two slots. *)
Definition ping_ok (g : Globals) : Prop := ping g = 0 \/ ping g = 1.

(** Total selection from a two-element array, for slots known to be 0 or 1. *)
Definition slot (a : arr2) (i : Z) : GLuint :=
  if i =? 0 then fst a else snd a.

(** The release of the size-dependent objects, in program order. *)
Definition release_calls (g : Globals) : list Event :=
  [ glDeleteTextures [rawTex g];
    glDeleteFramebuffers [rawFBO g];
    glDeleteTextures [fst (histTex g); snd (histTex g)];
    glDeleteFramebuffers [fst (histFBO g); snd (histFBO g)];
    glDeleteVertexArrays [vao g] ].

(** The calls of one frame after the size check, in program order, when
    the blur pass writes slot [cur] and reads slot [pre]. *)
Definition copy_calls (w h : Z) (g : Globals) : list Event :=
  [ glDisable GL_SCISSOR_TEST; glDisable GL_DEPTH_TEST; glDisable GL_BLEND;
    glBindFramebuffer GL_READ_FRAMEBUFFER 0;
    glBindFramebuffer GL_DRAW_FRAMEBUFFER (rawFBO g);
    glBlitFramebuffer 0 0 w h 0 0 (iW g) (iH g) ].

Definition blur_calls (g : Globals) (cur pre : Z) : list Event :=
  [ glBindFramebuffer GL_FRAMEBUFFER (slot (histFBO g) cur);
    glViewport 0 0 (iW g) (iH g);
    glBindVertexArray (vao g);
    glUseProgram (progBlur g);
    glActiveTexture GL_TEXTURE0; glBindTexture (rawTex g);
    glActiveTexture GL_TEXTURE1; glBindTexture (slot (histTex g) pre);
    glDrawElements 6 ].

Definition draw_calls (w h : Z) (g : Globals) (cur : Z) : list Event :=
  [ glBindFramebuffer GL_FRAMEBUFFER 0;
    glViewport 0 0 w h;
    glUseProgram (progDraw g);
    glActiveTexture GL_TEXTURE0; glBindTexture (slot (histTex g) cur);
    glDrawElements 6 ].

Definition frame_calls (w h : Z) (g : Globals) (cur pre : Z) : list Event :=
  copy_calls w h g ++ blur_calls g cur pre ++ draw_calls w h g cur.

(** What [initGL] leaves behind: the release of the old objects when
    there are any, then the [setup] calls; the sizes; and [ping] and
    [orig] untouched. *)
Definition initialised (w h : Z) (W Wi : World) (setup : list Event) : Prop :=
  log Wi = setup
           ++ (if rawTex (globals W) =? 0 then []
               else rev (release_calls (globals W)))
           ++ log W /\
  ping (globals Wi) = ping (globals W) /\
  orig (globals Wi) = orig (globals W) /\
  sW (globals Wi) = w /\ sH (globals Wi) = h /\
  iW (globals Wi) = scaled w /\ iH (globals Wi) = scaled h /\
  count is_release setup = 0%nat /\
  count is_gen_texture setup = 3%nat /\
  count is_gen_framebuffer setup = 3%nat /\
  count (is_tex_image (scaled w) (scaled h)) setup = 3%nat /\
  count is_alloc setup = 19%nat /\
  count is_draw setup = 0%nat.

(** The state after the size check of [render]. *)
Definition checked (env : Env) (w h : Z) (W Wc : World) : Prop :=
  if size_changed (globals W) w h
  then initGL env w h W = Some (tt, Wc)
  else Wc = W.

(** States the interceptor can be in: installed, then any number of
    presents. *)
Inductive reachable (env : Env) : World -> Prop :=
| reach_start : forall f l, reachable env (start (Some f) l)
| reach_hook : forall W d s r W',
    reachable env W -> hook env d s W = Some (r, W') -> reachable env W'.
End Main.

(** ** The simple-blend variant of the engine

    The oldest of the four variants in the repository: a fixed blend
    factor, a pass-through output shader and a first-frame flag. *)
Module SimpleBlend.
Local Open Scope exec_scope.

(** [static const float BLUR_STRENGTH = 0.60f;]  the binary32 nearest to
    0.6 is 10066330 * 2^-24. *)
Definition BLUR_STRENGTH : Binary32.float := S754_finite false 10066330 (-24).

(** The globals of section 3 of the file and [orig_swap]. *)
Record Globals := {
  rawTexture : GLuint;
  rawFBO : GLuint;
  historyTextures : arr2;
  historyFBOs : arr2;
  vao : GLuint;
  vbo : GLuint;
  ibo : GLuint;
  blendProgram : GLuint;
  drawProgram : GLuint;
  locCurrent : GLint;
  locHistory : GLint;
  locFactor : GLint;
  locTexture : GLint;
  pingPongIndex : Z;
  isFirstFrame : bool;
  savedWidth : Z;
  savedHeight : Z;
  internalW : Z;
  internalH : Z;
  orig_swap : option FnPtr
}.

Definition initial : Globals :=
  {| rawTexture := 0; rawFBO := 0;
     historyTextures := (0, 0); historyFBOs := (0, 0);
     vao := 0; vbo := 0; ibo := 0;
     blendProgram := 0; drawProgram := 0;
     locCurrent := -1; locHistory := -1; locFactor := -1; locTexture := -1;
     pingPongIndex := 0; isFirstFrame := true;
     savedWidth := 0; savedHeight := 0; internalW := 0; internalH := 0;
     orig_swap := None |}.

Definition set_rawTexture (v : GLuint) (g : Globals) : Globals :=
  {| rawTexture := v;
     rawFBO := rawFBO g;
     historyTextures := historyTextures g;
     historyFBOs := historyFBOs g;
     vao := vao g;
     vbo := vbo g;
     ibo := ibo g;
     blendProgram := blendProgram g;
     drawProgram := drawProgram g;
     locCurrent := locCurrent g;
     locHistory := locHistory g;
     locFactor := locFactor g;
     locTexture := locTexture g;
     pingPongIndex := pingPongIndex g;
     isFirstFrame := isFirstFrame g;
     savedWidth := savedWidth g;
     savedHeight := savedHeight g;
     internalW := internalW g;
     internalH := internalH g;
     orig_swap := orig_swap g |}.

Definition set_rawFBO (v : GLuint) (g : Globals) : Globals :=
  {| rawTexture := rawTexture g;
     rawFBO := v;
     historyTextures := historyTextures g;
     historyFBOs := historyFBOs g;
     vao := vao g;
     vbo := vbo g;
     ibo := ibo g;
     blendProgram := blendProgram g;
     drawProgram := drawProgram g;
     locCurrent := locCurrent g;
     locHistory := locHistory g;
     locFactor := locFactor g;
     locTexture := locTexture g;
     pingPongIndex := pingPongIndex g;
     isFirstFrame := isFirstFrame g;
     savedWidth := savedWidth g;
     savedHeight := savedHeight g;
     internalW := internalW g;
     internalH := internalH g;
     orig_swap := orig_swap g |}.

Definition set_historyTextures (v : arr2) (g : Globals) : Globals :=
  {| rawTexture := rawTexture g;
     rawFBO := rawFBO g;
     historyTextures := v;
     historyFBOs := historyFBOs g;
     vao := vao g;
     vbo := vbo g;
     ibo := ibo g;
     blendProgram := blendProgram g;
     drawProgram := drawProgram g;
     locCurrent := locCurrent g;
     locHistory := locHistory g;
     locFactor := locFactor g;
     locTexture := locTexture g;
     pingPongIndex := pingPongIndex g;
     isFirstFrame := isFirstFrame g;
     savedWidth := savedWidth g;
     savedHeight := savedHeight g;
     internalW := internalW g;
     internalH := internalH g;
     orig_swap := orig_swap g |}.

Definition set_historyFBOs (v : arr2) (g : Globals) : Globals :=
  {| rawTexture := rawTexture g;
     rawFBO := rawFBO g;
     historyTextures := historyTextures g;
     historyFBOs := v;
     vao := vao g;
     vbo := vbo g;
     ibo := ibo g;
     blendProgram := blendProgram g;
     drawProgram := drawProgram g;
     locCurrent := locCurrent g;
     locHistory := locHistory g;
     locFactor := locFactor g;
     locTexture := locTexture g;
     pingPongIndex := pingPongIndex g;
     isFirstFrame := isFirstFrame g;
     savedWidth := savedWidth g;
     savedHeight := savedHeight g;
     internalW := internalW g;
     internalH := internalH g;
     orig_swap := orig_swap g |}.

Definition set_vao (v : GLuint) (g : Globals) : Globals :=
  {| rawTexture := rawTexture g;
     rawFBO := rawFBO g;
     historyTextures := historyTextures g;
     historyFBOs := historyFBOs g;
     vao := v;
     vbo := vbo g;
     ibo := ibo g;
     blendProgram := blendProgram g;
     drawProgram := drawProgram g;
     locCurrent := locCurrent g;
     locHistory := locHistory g;
     locFactor := locFactor g;
     locTexture := locTexture g;
     pingPongIndex := pingPongIndex g;
     isFirstFrame := isFirstFrame g;
     savedWidth := savedWidth g;
     savedHeight := savedHeight g;
     internalW := internalW g;
     internalH := internalH g;
     orig_swap := orig_swap g |}.

Definition set_vbo (v : GLuint) (g : Globals) : Globals :=
  {| rawTexture := rawTexture g;
     rawFBO := rawFBO g;
     historyTextures := historyTextures g;
     historyFBOs := historyFBOs g;
     vao := vao g;
     vbo := v;
     ibo := ibo g;
     blendProgram := blendProgram g;
     drawProgram := drawProgram g;
     locCurrent := locCurrent g;
     locHistory := locHistory g;
     locFactor := locFactor g;
     locTexture := locTexture g;
     pingPongIndex := pingPongIndex g;
     isFirstFrame := isFirstFrame g;
     savedWidth := savedWidth g;
     savedHeight := savedHeight g;
     internalW := internalW g;
     internalH := internalH g;
     orig_swap := orig_swap g |}.

Definition set_ibo (v : GLuint) (g : Globals) : Globals :=
  {| rawTexture := rawTexture g;
     rawFBO := rawFBO g;
     historyTextures := historyTextures g;
     historyFBOs := historyFBOs g;
     vao := vao g;
     vbo := vbo g;
     ibo := v;
     blendProgram := blendProgram g;
     drawProgram := drawProgram g;
     locCurrent := locCurrent g;
     locHistory := locHistory g;
     locFactor := locFactor g;
     locTexture := locTexture g;
     pingPongIndex := pingPongIndex g;
     isFirstFrame := isFirstFrame g;
     savedWidth := savedWidth g;
     savedHeight := savedHeight g;
     internalW := internalW g;
     internalH := internalH g;
     orig_swap := orig_swap g |}.

Definition set_blendProgram (v : GLuint) (g : Globals) : Globals :=
  {| rawTexture := rawTexture g;
     rawFBO := rawFBO g;
     historyTextures := historyTextures g;
     historyFBOs := historyFBOs g;
     vao := vao g;
     vbo := vbo g;
     ibo := ibo g;
     blendProgram := v;
     drawProgram := drawProgram g;
     locCurrent := locCurrent g;
     locHistory := locHistory g;
     locFactor := locFactor g;
     locTexture := locTexture g;
     pingPongIndex := pingPongIndex g;
     isFirstFrame := isFirstFrame g;
     savedWidth := savedWidth g;
     savedHeight := savedHeight g;
     internalW := internalW g;
     internalH := internalH g;
     orig_swap := orig_swap g |}.

Definition set_drawProgram (v : GLuint) (g : Globals) : Globals :=
  {| rawTexture := rawTexture g;
     rawFBO := rawFBO g;
     historyTextures := historyTextures g;
     historyFBOs := historyFBOs g;
     vao := vao g;
     vbo := vbo g;
     ibo := ibo g;
     blendProgram := blendProgram g;
     drawProgram := v;
     locCurrent := locCurrent g;
     locHistory := locHistory g;
     locFactor := locFactor g;
     locTexture := locTexture g;
     pingPongIndex := pingPongIndex g;
     isFirstFrame := isFirstFrame g;
     savedWidth := savedWidth g;
     savedHeight := savedHeight g;
     internalW := internalW g;
     internalH := internalH g;
     orig_swap := orig_swap g |}.

Definition set_locCurrent (v : GLint) (g : Globals) : Globals :=
  {| rawTexture := rawTexture g;
     rawFBO := rawFBO g;
     historyTextures := historyTextures g;
     historyFBOs := historyFBOs g;
     vao := vao g;
     vbo := vbo g;
     ibo := ibo g;
     blendProgram := blendProgram g;
     drawProgram := drawProgram g;
     locCurrent := v;
     locHistory := locHistory g;
     locFactor := locFactor g;
     locTexture := locTexture g;
     pingPongIndex := pingPongIndex g;
     isFirstFrame := isFirstFrame g;
     savedWidth := savedWidth g;
     savedHeight := savedHeight g;
     internalW := internalW g;
     internalH := internalH g;
     orig_swap := orig_swap g |}.

Definition set_locHistory (v : GLint) (g : Globals) : Globals :=
  {| rawTexture := rawTexture g;
     rawFBO := rawFBO g;
     historyTextures := historyTextures g;
     historyFBOs := historyFBOs g;
     vao := vao g;
     vbo := vbo g;
     ibo := ibo g;
     blendProgram := blendProgram g;
     drawProgram := drawProgram g;
     locCurrent := locCurrent g;
     locHistory := v;
     locFactor := locFactor g;
     locTexture := locTexture g;
     pingPongIndex := pingPongIndex g;
     isFirstFrame := isFirstFrame g;
     savedWidth := savedWidth g;
     savedHeight := savedHeight g;
     internalW := internalW g;
     internalH := internalH g;
     orig_swap := orig_swap g |}.

Definition set_locFactor (v : GLint) (g : Globals) : Globals :=
  {| rawTexture := rawTexture g;
     rawFBO := rawFBO g;
     historyTextures := historyTextures g;
     historyFBOs := historyFBOs g;
     vao := vao g;
     vbo := vbo g;
     ibo := ibo g;
     blendProgram := blendProgram g;
     drawProgram := drawProgram g;
     locCurrent := locCurrent g;
     locHistory := locHistory g;
     locFactor := v;
     locTexture := locTexture g;
     pingPongIndex := pingPongIndex g;
     isFirstFrame := isFirstFrame g;
     savedWidth := savedWidth g;
     savedHeight := savedHeight g;
     internalW := internalW g;
     internalH := internalH g;
     orig_swap := orig_swap g |}.

Definition set_locTexture (v : GLint) (g : Globals) : Globals :=
  {| rawTexture := rawTexture g;
     rawFBO := rawFBO g;
     historyTextures := historyTextures g;
     historyFBOs := historyFBOs g;
     vao := vao g;
     vbo := vbo g;
     ibo := ibo g;
     blendProgram := blendProgram g;
     drawProgram := drawProgram g;
     locCurrent := locCurrent g;
     locHistory := locHistory g;
     locFactor := locFactor g;
     locTexture := v;
     pingPongIndex := pingPongIndex g;
     isFirstFrame := isFirstFrame g;
     savedWidth := savedWidth g;
     savedHeight := savedHeight g;
     internalW := internalW g;
     internalH := internalH g;
     orig_swap := orig_swap g |}.

Definition set_pingPongIndex (v : Z) (g : Globals) : Globals :=
  {| rawTexture := rawTexture g;
     rawFBO := rawFBO g;
     historyTextures := historyTextures g;
     historyFBOs := historyFBOs g;
     vao := vao g;
     vbo := vbo g;
     ibo := ibo g;
     blendProgram := blendProgram g;
     drawProgram := drawProgram g;
     locCurrent := locCurrent g;
     locHistory := locHistory g;
     locFactor := locFactor g;
     locTexture := locTexture g;
     pingPongIndex := v;
     isFirstFrame := isFirstFrame g;
     savedWidth := savedWidth g;
     savedHeight := savedHeight g;
     internalW := internalW g;
     internalH := internalH g;
     orig_swap := orig_swap g |}.

Definition set_isFirstFrame (v : bool) (g : Globals) : Globals :=
  {| rawTexture := rawTexture g;
     rawFBO := rawFBO g;
     historyTextures := historyTextures g;
     historyFBOs := historyFBOs g;
     vao := vao g;
     vbo := vbo g;
     ibo := ibo g;
     blendProgram := blendProgram g;
     drawProgram := drawProgram g;
     locCurrent := locCurrent g;
     locHistory := locHistory g;
     locFactor := locFactor g;
     locTexture := locTexture g;
     pingPongIndex := pingPongIndex g;
     isFirstFrame := v;
     savedWidth := savedWidth g;
     savedHeight := savedHeight g;
     internalW := internalW g;
     internalH := internalH g;
     orig_swap := orig_swap g |}.

Definition set_savedWidth (v : Z) (g : Globals) : Globals :=
  {| rawTexture := rawTexture g;
     rawFBO := rawFBO g;
     historyTextures := historyTextures g;
     historyFBOs := historyFBOs g;
     vao := vao g;
     vbo := vbo g;
     ibo := ibo g;
     blendProgram := blendProgram g;
     drawProgram := drawProgram g;
     locCurrent := locCurrent g;
     locHistory := locHistory g;
     locFactor := locFactor g;
     locTexture := locTexture g;
     pingPongIndex := pingPongIndex g;
     isFirstFrame := isFirstFrame g;
     savedWidth := v;
     savedHeight := savedHeight g;
     internalW := internalW g;
     internalH := internalH g;
     orig_swap := orig_swap g |}.

Definition set_savedHeight (v : Z) (g : Globals) : Globals :=
  {| rawTexture := rawTexture g;
     rawFBO := rawFBO g;
     historyTextures := historyTextures g;
     historyFBOs := historyFBOs g;
     vao := vao g;
     vbo := vbo g;
     ibo := ibo g;
     blendProgram := blendProgram g;
     drawProgram := drawProgram g;
     locCurrent := locCurrent g;
     locHistory := locHistory g;
     locFactor := locFactor g;
     locTexture := locTexture g;
     pingPongIndex := pingPongIndex g;
     isFirstFrame := isFirstFrame g;
     savedWidth := savedWidth g;
     savedHeight := v;
     internalW := internalW g;
     internalH := internalH g;
     orig_swap := orig_swap g |}.

Definition set_internalW (v : Z) (g : Globals) : Globals :=
  {| rawTexture := rawTexture g;
     rawFBO := rawFBO g;
     historyTextures := historyTextures g;
     historyFBOs := historyFBOs g;
     vao := vao g;
     vbo := vbo g;
     ibo := ibo g;
     blendProgram := blendProgram g;
     drawProgram := drawProgram g;
     locCurrent := locCurrent g;
     locHistory := locHistory g;
     locFactor := locFactor g;
     locTexture := locTexture g;
     pingPongIndex := pingPongIndex g;
     isFirstFrame := isFirstFrame g;
     savedWidth := savedWidth g;
     savedHeight := savedHeight g;
     internalW := v;
     internalH := internalH g;
     orig_swap := orig_swap g |}.

Definition set_internalH (v : Z) (g : Globals) : Globals :=
  {| rawTexture := rawTexture g;
     rawFBO := rawFBO g;
     historyTextures := historyTextures g;
     historyFBOs := historyFBOs g;
     vao := vao g;
     vbo := vbo g;
     ibo := ibo g;
     blendProgram := blendProgram g;
     drawProgram := drawProgram g;
     locCurrent := locCurrent g;
     locHistory := locHistory g;
     locFactor := locFactor g;
     locTexture := locTexture g;
     pingPongIndex := pingPongIndex g;
     isFirstFrame := isFirstFrame g;
     savedWidth := savedWidth g;
     savedHeight := savedHeight g;
     internalW := internalW g;
     internalH := v;
     orig_swap := orig_swap g |}.

Definition set_orig_swap (v : option FnPtr) (g : Globals) : Globals :=
  {| rawTexture := rawTexture g;
     rawFBO := rawFBO g;
     historyTextures := historyTextures g;
     historyFBOs := historyFBOs g;
     vao := vao g;
     vbo := vbo g;
     ibo := ibo g;
     blendProgram := blendProgram g;
     drawProgram := drawProgram g;
     locCurrent := locCurrent g;
     locHistory := locHistory g;
     locFactor := locFactor g;
     locTexture := locTexture g;
     pingPongIndex := pingPongIndex g;
     isFirstFrame := isFirstFrame g;
     savedWidth := savedWidth g;
     savedHeight := savedHeight g;
     internalW := internalW g;
     internalH := internalH g;
     orig_swap := v |}.

(** Writes to [historyTextures[i]] and [historyFBOs[i]] for a loop index
    [i]; an index outside 0..1 would be out of bounds. *)
Definition set_historyTextures_at (i : Z) (v : GLuint) (g : Globals)
  : option Globals :=
  if i =? 0 then Some (set_historyTextures (v, snd (historyTextures g)) g)
  else if i =? 1 then Some (set_historyTextures (fst (historyTextures g), v) g)
  else None.

Definition set_historyFBOs_at (i : Z) (v : GLuint) (g : Globals)
  : option Globals :=
  if i =? 0 then Some (set_historyFBOs (v, snd (historyFBOs g)) g)
  else if i =? 1 then Some (set_historyFBOs (fst (historyFBOs g), v) g)
  else None.

Definition World := Exec.World Globals.
Definition M := Exec.M Globals.

(** A store through a reference that may be out of bounds. *)
Definition store (f : Globals -> option Globals) : M unit :=
  fun W => match f (globals W) with
           | Some g => Some (tt, {| globals := g; log := log W |})
           | None => None
           end.

Section WithEnv.
Variable env : Env.

(** The lambda [compile] of [initResources]. *)
Definition initResources_compile (type : ShaderType) (src : string)
  : M GLuint :=
  s <- ask (gl_name env) (glCreateShader type) ;;
  call (glShaderSource s src) ;;
  call (glCompileShader s) ;;
  ret s.

(** The lambda [setupTex] of [initResources]. *)
Definition initResources_setupTex
    (tex fbo : GLuint -> Globals -> option Globals) : M unit :=
  x <- ask (gl_name env) glGenTextures ;;
  store (tex x) ;;
  call (glBindTexture x) ;;
  g <- get ;;
  call (glTexImage2D (internalW g) (internalH g)) ;;
  call (glTexParameteri GL_TEXTURE_MIN_FILTER GL_LINEAR) ;;
  call (glTexParameteri GL_TEXTURE_MAG_FILTER GL_LINEAR) ;;
  call (glTexParameteri GL_TEXTURE_WRAP_S GL_CLAMP_TO_EDGE) ;;
  call (glTexParameteri GL_TEXTURE_WRAP_T GL_CLAMP_TO_EDGE) ;;
  f <- ask (gl_name env) glGenFramebuffers ;;
  store (fbo f) ;;
  call (glBindFramebuffer GL_FRAMEBUFFER f) ;;
  call (glFramebufferTexture2D x).

(** [for(int i=0; i<2; i++) { setupTex(...); glClearColor(0,0,0,0); glClear(...); }]
    The loop runs while [i < 2]; [fuel] bounds the unrolling, and
    [initResources] gives it one more than the two iterations take, so
    the loop ends by its own test. *)
Fixpoint history_loop (fuel : nat) (i : Z) : M unit :=
  match fuel with
  | O => ret tt
  | S fuel' =>
      if i <? 2 then
        initResources_setupTex (set_historyTextures_at i)
                               (set_historyFBOs_at i) ;;
        call (glClearColor 0 0 0 0) ;;
        call glClear ;;
        history_loop fuel' (i + 1)
      else ret tt
  end.

Definition initResources (width height : Z) : M unit :=
  g <- get ;;
  (if negb (rawTexture g =? 0) then
     call (glDeleteTextures [rawTexture g]) ;;
     call (glDeleteFramebuffers [rawFBO g]) ;;
     call (glDeleteTextures [fst (historyTextures g); snd (historyTextures g)]) ;;
     call (glDeleteFramebuffers [fst (historyFBOs g); snd (historyFBOs g)]) ;;
     call (glDeleteVertexArrays [vao g])
   else ret tt) ;;
  (* CALCULATE SCALED RESOLUTION *)
  modify (set_internalW (scaled width)) ;;
  modify (set_internalH (scaled height)) ;;
  vs <- initResources_compile GL_VERTEX_SHADER "vertexShaderSource" ;;
  fsBlend <- initResources_compile GL_FRAGMENT_SHADER "smartFragmentShaderSource" ;;
  fsDraw <- initResources_compile GL_FRAGMENT_SHADER "drawFragmentShaderSource" ;;
  bp <- ask (gl_name env) glCreateProgram ;;
  modify (set_blendProgram bp) ;;
  call (glAttachShader bp vs) ;;
  call (glAttachShader bp fsBlend) ;;
  call (glLinkProgram bp) ;;
  lc <- ask (gl_location env) (glGetUniformLocation bp "uCurrentFrame") ;;
  modify (set_locCurrent lc) ;;
  lh <- ask (gl_location env) (glGetUniformLocation bp "uHistoryFrame") ;;
  modify (set_locHistory lh) ;;
  lf <- ask (gl_location env) (glGetUniformLocation bp "uBlendFactor") ;;
  modify (set_locFactor lf) ;;
  dp <- ask (gl_name env) glCreateProgram ;;
  modify (set_drawProgram dp) ;;
  call (glAttachShader dp vs) ;;
  call (glAttachShader dp fsDraw) ;;
  call (glLinkProgram dp) ;;
  lt <- ask (gl_location env) (glGetUniformLocation dp "uTexture") ;;
  modify (set_locTexture lt) ;;
  (* Standard Geometry (Full Screen Quad) *)
  a <- ask (gl_name env) glGenVertexArrays ;;
  modify (set_vao a) ;;
  call (glBindVertexArray a) ;;
  vb <- ask (gl_name env) glGenBuffers ;;
  modify (set_vbo vb) ;;
  call (glBindBuffer GL_ARRAY_BUFFER vb) ;;
  call (glBufferData GL_ARRAY_BUFFER 64
          [-1;1;0;1; -1;-1;0;0; 1;-1;1;0; 1;1;1;1]) ;;
  ib <- ask (gl_name env) glGenBuffers ;;
  modify (set_ibo ib) ;;
  call (glBindBuffer GL_ELEMENT_ARRAY_BUFFER ib) ;;
  call (glBufferData GL_ELEMENT_ARRAY_BUFFER 12 [0;1;2; 0;2;3]) ;;
  call (glEnableVertexAttribArray 0) ;;
  call (glVertexAttribPointer 0 2 16 0) ;;
  call (glEnableVertexAttribArray 1) ;;
  call (glVertexAttribPointer 1 2 16 8) ;;
  call (glBindVertexArray 0) ;;
  (* TEXTURE SETUP (Scaled Down) *)
  initResources_setupTex (fun v g => Some (set_rawTexture v g))
                         (fun v g => Some (set_rawFBO v g)) ;;
  history_loop 3 0 ;;
  modify (set_savedWidth width) ;;
  modify (set_savedHeight height) ;;
  modify (set_isFirstFrame true).

(** [width != savedWidth || height != savedHeight || rawTexture == 0] *)
Definition size_changed (g : Globals) (width height : Z) : bool :=
  negb (width =? savedWidth g) || negb (height =? savedHeight g)
  || (rawTexture g =? 0).

Definition render_effect (width height : Z) : M unit :=
  g <- get ;;
  (if size_changed g width height then initResources width height
   else ret tt) ;;
  _ <- ask (gl_integer env) glGetIntegerv_FRAMEBUFFER_BINDING ;;
  call (glDisable GL_SCISSOR_TEST) ;;
  call (glDisable GL_DEPTH_TEST) ;;
  call (glDisable GL_BLEND) ;;
  (* 1. DOWNSCALE & COPY (Fast Blit) *)
  g <- get ;;
  call (glBindFramebuffer GL_READ_FRAMEBUFFER 0) ;;
  call (glBindFramebuffer GL_DRAW_FRAMEBUFFER (rawFBO g)) ;;
  call (glBlitFramebuffer 0 0 width height 0 0 (internalW g) (internalH g)) ;;
  (* 2. APPLY BLUR (At Low Res) *)
  let curr := pingPongIndex g in
  prev <- lift (int_sub 1 (pingPongIndex g)) ;;
  call (glBindVertexArray (vao g)) ;;
  call (glViewport 0 0 (internalW g) (internalH g)) ;;
  (if isFirstFrame g then
     fb <- lift (arr_get (historyFBOs g) curr) ;;
     call (glBindFramebuffer GL_FRAMEBUFFER fb) ;;
     call (glUseProgram (drawProgram g)) ;;
     call (glActiveTexture GL_TEXTURE0) ;;
     call (glBindTexture (rawTexture g)) ;;
     call (glUniform1i (locTexture g) 0) ;;
     call (glDrawElements 6) ;;
     modify (set_isFirstFrame false)
   else
     fb <- lift (arr_get (historyFBOs g) curr) ;;
     call (glBindFramebuffer GL_FRAMEBUFFER fb) ;;
     call (glUseProgram (blendProgram g)) ;;
     call (glActiveTexture GL_TEXTURE0) ;;
     call (glBindTexture (rawTexture g)) ;;
     call (glUniform1i (locCurrent g) 0) ;;
     call (glActiveTexture GL_TEXTURE1) ;;
     tp <- lift (arr_get (historyTextures g) prev) ;;
     call (glBindTexture tp) ;;
     call (glUniform1i (locHistory g) 1) ;;
     call (glUniform1f (locFactor g) BLUR_STRENGTH) ;;
     call (glDrawElements 6)) ;;
  (* 3. UPSCALE & DRAW TO SCREEN *)
  call (glBindFramebuffer GL_FRAMEBUFFER 0) ;;
  call (glViewport 0 0 width height) ;;
  call (glUseProgram (drawProgram g)) ;;
  call (glActiveTexture GL_TEXTURE0) ;;
  tc <- lift (arr_get (historyTextures g) curr) ;;
  call (glBindTexture tc) ;;
  call (glUniform1i (locTexture g) 0) ;;
  call (glDrawElements 6) ;;
  call (glBindVertexArray 0) ;;
  modify (set_pingPongIndex prev).

(** [static EGLBoolean hook_swap(EGLDisplay dpy, EGLSurface surf)] *)
Definition hook_swap (dpy : EGLDisplay) (surf : EGLSurface) : M EGLBoolean :=
  g <- get ;;
  match orig_swap g with
  | Some f =>
      w <- ask (egl_value env) (eglQuerySurface dpy surf EGL_WIDTH) ;;
      h <- ask (egl_value env) (eglQuerySurface dpy surf EGL_HEIGHT) ;;
      (if 100 <? w then render_effect w h else ret tt) ;;
      ask (present_result env) (call_original f dpy surf)
  | None => ret EGL_FALSE
  end.

(** [n] consecutive frames at one size. *)
Fixpoint frames (w h : Z) (n : nat) : M unit :=
  match n with
  | O => ret tt
  | S n' => frames w h n' ;; render_effect w h
  end.
End WithEnv.

Definition start (o : option FnPtr) (l : list Event) : World :=
  {| globals := set_orig_swap o initial; log := l |}.

Definition ping_ok (g : Globals) : Prop :=
  pingPongIndex g = 0 \/ pingPongIndex g = 1.

Definition slot (a : arr2) (i : Z) : GLuint :=
  if i =? 0 then fst a else snd a.

(** The calls of a frame before the accumulation step, in program order. *)
Definition copy_calls (width height : Z) (g : Globals) : list Event :=
  [ glGetIntegerv_FRAMEBUFFER_BINDING;
    glDisable GL_SCISSOR_TEST; glDisable GL_DEPTH_TEST; glDisable GL_BLEND;
    glBindFramebuffer GL_READ_FRAMEBUFFER 0;
    glBindFramebuffer GL_DRAW_FRAMEBUFFER (rawFBO g);
    glBlitFramebuffer 0 0 width height 0 0 (internalW g) (internalH g);
    glBindVertexArray (vao g);
    glViewport 0 0 (internalW g) (internalH g) ].

(** The accumulation step of a first frame: the raw frame drawn into
    the current history slot with the plain draw program. *)
Definition first_frame_calls (g : Globals) (curr : Z) : list Event :=
  [ glBindFramebuffer GL_FRAMEBUFFER (slot (historyFBOs g) curr);
    glUseProgram (drawProgram g);
    glActiveTexture GL_TEXTURE0; glBindTexture (rawTexture g);
    glUniform1i (locTexture g) 0;
    glDrawElements 6 ].

(** The accumulation step of any later frame: the blend program over the
    raw frame and the previous history slot. *)
Definition blend_calls (g : Globals) (curr prev : Z) : list Event :=
  [ glBindFramebuffer GL_FRAMEBUFFER (slot (historyFBOs g) curr);
    glUseProgram (blendProgram g);
    glActiveTexture GL_TEXTURE0; glBindTexture (rawTexture g);
    glUniform1i (locCurrent g) 0;
    glActiveTexture GL_TEXTURE1;
    glBindTexture (slot (historyTextures g) prev);
    glUniform1i (locHistory g) 1;
    glUniform1f (locFactor g) BLUR_STRENGTH;
    glDrawElements 6 ].

Definition output_calls (width height : Z) (g : Globals) (curr : Z)
  : list Event :=
  [ glBindFramebuffer GL_FRAMEBUFFER 0;
    glViewport 0 0 width height;
    glUseProgram (drawProgram g);
    glActiveTexture GL_TEXTURE0;
    glBindTexture (slot (historyTextures g) curr);
    glUniform1i (locTexture g) 0;
    glDrawElements 6;
    glBindVertexArray 0 ].

(** The calls of one frame after the size check, by the first-frame
    flag at that point. *)
Definition frame_calls (width height : Z) (g : Globals) (curr prev : Z)
  : list Event :=
  copy_calls width height g
  ++ (if isFirstFrame g then first_frame_calls g curr
      else blend_calls g curr prev)
  ++ output_calls width height g curr.

Definition checked (env : Env) (w h : Z) (W Wc : World) : Prop :=
  if size_changed (globals W) w h
  then initResources env w h W = Some (tt, Wc)
  else Wc = W.
End SimpleBlend.

(** ** The fragment shaders

    The GLSL of the two passes of [src/main.cpp] and of the simple-blend
    variant, in exact real arithmetic: the rounding of [lowp] and
    [mediump] is left to the implementation by GLSL ES and is not
    modelled. A sampler is the function from a texture coordinate and an
    integer texel offset to the filtered texel. *)
Module Shader.
Local Open Scope R_scope.

Record vec2 := { vx : R; vy : R }.
Record vec3 := { red : R; green : R; blue : R }.
Record vec4 := { rgb : vec3; alpha : R }.

Definition sampler2D := vec2 -> (Z * Z) -> vec4.

Definition textureOffset (t : sampler2D) (v : vec2) (o : Z * Z) : vec4 := t v o.
Definition texture (t : sampler2D) (v : vec2) : vec4 := t v (0%Z, 0%Z).

(** GLSL built-ins. *)
Definition dot (a b : vec3) : R :=
  red a * red b + green a * green b + blue a * blue b.

Definition clamp (x lo hi : R) : R := Rmin (Rmax x lo) hi.

Definition mix (x y a : R) : R := x * (1 - a) + y * a.

Definition mix3 (x y : vec3) (a : R) : vec3 :=
  {| red := mix (red x) (red y) a;
     green := mix (green x) (green y) a;
     blue := mix (blue x) (blue y) a |}.

Definition mix4 (x y : vec4) (a : R) : vec4 :=
  {| rgb := mix3 (rgb x) (rgb y) a; alpha := mix (alpha x) (alpha y) a |}.

Definition smoothstep (e0 e1 x : R) : R :=
  let t := clamp ((x - e0) / (e1 - e0)) 0 1 in
  t * t * (3 - 2 * t).

Definition distance (p q : vec2) : R :=
  sqrt ((vx p - vx q) * (vx p - vx q) + (vy p - vy q) * (vy p - vy q)).

Definition luma_weights : vec3 :=
  {| red := 0.299; green := 0.587; blue := 0.114 |}.

(** [x + s] and [vec3(s)] for a scalar [s]. *)
Definition add_scalar (x : vec3) (s : R) : vec3 :=
  {| red := red x + s; green := green x + s; blue := blue x + s |}.

Definition splat (s : R) : vec3 := {| red := s; green := s; blue := s |}.

(** *** [frag_blur] of [src/main.cpp] *)

(** [mix(0.94, 0.35, smoothstep(0.02, 0.30, diff))] *)
Definition blur_factor (diff : R) : R :=
  mix 0.94 0.35 (smoothstep 0.02 0.30 diff).

(** [smoothstep(0.01, 0.12, distance(v, vec2(0.5)))] *)
Definition center_mask (v : vec2) : R :=
  smoothstep 0.01 0.12 (distance v {| vx := 0.5; vy := 0.5 |}).

Definition frag_blur (c h : sampler2D) (v : vec2) : vec4 :=
  let curr := texture c v in
  let hist := texture h v in
  (* 1. VELOCITY CALCULATOR *)
  let lC := dot (rgb curr) luma_weights in
  let lH := dot (rgb hist) luma_weights in
  let diff := Rabs (lC - lH) in
  let factor := blur_factor diff in
  (* 2. SHADOW PROTECTION *)
  let result := mix4 curr hist factor in
  let result := if Rlt_dec lH lC then mix4 result hist 0.05 else result in
  (* 3. CENTER MASK *)
  mix4 curr result (center_mask v).

(** *** [frag_draw] of [src/main.cpp] *)

(** Step 1, CAS sharpening, up to [col.rgb += (sharpLuma - lC)]. *)
Definition sharp_luma (lC lN lS lE lW : R) : R :=
  let mx := Rmax lC (Rmax (Rmax lN lS) (Rmax lE lW)) in
  let mn := Rmin lC (Rmin (Rmin lN lS) (Rmin lE lW)) in
  let amt := sqrt (clamp (mn / (1.0 - mx + 0.001)) 0.0 1.0) in
  let peak := -1.0 / mix 8.0 5.0 (amt * 0.88) in
  let sharpLuma := lC + (lN + lS + lE + lW) * peak in
  sharpLuma / (1.0 + 4.0 * peak).

Definition sharpen (t : sampler2D) (v : vec2) : vec4 :=
  let col := texture t v in
  let n := textureOffset t v (0, -1)%Z in
  let s := textureOffset t v (0, 1)%Z in
  let e := textureOffset t v (1, 0)%Z in
  let w := textureOffset t v (-1, 0)%Z in
  let lC := dot (rgb col) luma_weights in
  let lN := dot (rgb n) luma_weights in
  let lS := dot (rgb s) luma_weights in
  let lE := dot (rgb e) luma_weights in
  let lW := dot (rgb w) luma_weights in
  let sharpLuma := sharp_luma lC lN lS lE lW in
  {| rgb := add_scalar (rgb col) (sharpLuma - lC); alpha := alpha col |}.

(** Step 2, vibrance. [pow(sat, 0.5)] is the square root on the
    non-negative [sat]. *)
Definition vibrance (col : vec3) : vec3 :=
  let maxRGB := Rmax (red col) (Rmax (green col) (blue col)) in
  let minRGB := Rmin (red col) (Rmin (green col) (blue col)) in
  let sat := maxRGB - minRGB in
  mix3 col (splat maxRGB) ((1.0 - sqrt sat) * -0.2).

(** Step 3, the tone-mapping curve, per component. *)
Definition aces (x : R) : R :=
  clamp ((x * (2.51 * x + 0.03)) / (x * (2.43 * x + 0.59) + 0.14)) 0.0 1.0.

Definition tonemap (x : vec3) : vec3 :=
  {| red := aces (red x); green := aces (green x); blue := aces (blue x) |}.

(** Step 4: [o = vec4(col.rgb, 1.0)]. *)
Definition frag_draw (t : sampler2D) (v : vec2) : vec4 :=
  let col := sharpen t v in
  {| rgb := tonemap (vibrance (rgb col)); alpha := 1.0 |}.

(** *** The shaders of the simple-blend variant *)




Definition drawFragmentShader (uTexture : sampler2D) (vTexCoord : vec2)
  : vec4 :=
  texture uTexture vTexCoord.
End Shader.

(** ** Runs and drivers used in the statements *)

(** The calls logged between [W] and a later [W'], latest first. *)
Definition since {G} (W W' : Exec.World G) : list Event :=
  firstn (List.length (log W') - List.length (log W)) (log W').

(** A driver that hands out the names 1, 2, 3, ... in the order they are
    asked for (the number of the call, so distinct and never 0), reports
    every status as good, and a surface of the requested size: a hook
    invocation that starts at an even call number reads [w] as width and
    [h] as height. *)
Definition driver (w h : Z) : Env :=
  {| gl_name := fun n => Z.of_nat n + 1;
     gl_location := fun n => Z.of_nat n;
     gl_integer := fun _ => 0;
     egl_value := fun n => if Nat.even n then w else h;
     present_result := fun _ => 1;
     framebuffer_complete := fun _ => true;
     program_linked := fun _ => true;
     shader_compiled := fun _ => true |}.



(** An image of one colour, and a mid grey. *)
Definition flat_image (c : Shader.vec4) : Shader.sampler2D := fun _ _ => c.

Definition grey : Shader.vec4 :=
  {| Shader.rgb := {| Shader.red := 0.5; Shader.green := 0.5;
                      Shader.blue := 0.5 |};
     Shader.alpha := 1 |}.

(** A state of the main engine with buffers for a 1920x1080 surface, with
    a made-up name for the raw texture. *)
Definition steady_1080p : Main.World :=
  {| globals := Main.set_rawTex 28
                  (Main.set_sW 1920 (Main.set_sH 1080 Main.initial));
     log := [] |}.

(** ** Observations on a log

    A log holds the latest call first. *)

(** The latest binding of the draw framebuffer. *)
Fixpoint bound_framebuffer (l : list Event) : option GLuint :=
  match l with
  | [] => None
  | glBindFramebuffer GL_FRAMEBUFFER fb :: _ => Some fb
  | glBindFramebuffer GL_DRAW_FRAMEBUFFER fb :: _ => Some fb
  | _ :: r => bound_framebuffer r
  end.

(** The latest viewport. *)
Fixpoint current_viewport (l : list Event) : option (Z * Z * Z * Z) :=
  match l with
  | [] => None
  | glViewport x y w h :: _ => Some (x, y, w, h)
  | _ :: r => current_viewport r
  end.

(** Texture [tx] was attached while framebuffer [fb] had just been bound:
    somewhere in the log [glBindFramebuffer(GL_FRAMEBUFFER, fb)] is
    directly followed by [glFramebufferTexture2D(..., tx, 0)]. *)
Fixpoint attached (fb tx : GLuint) (l : list Event) : bool :=
  match l with
  | [] => false
  | glFramebufferTexture2D t :: r =>
      match r with
      | glBindFramebuffer GL_FRAMEBUFFER f :: _ =>
          ((t =? tx) && (f =? fb)) || attached fb tx r
      | _ => attached fb tx r
      end
  | _ :: r => attached fb tx r
  end.

(** The latest program put in use. *)
Fixpoint program_in_use (l : list Event) : option GLuint :=
  match l with
  | [] => None
  | glUseProgram p :: _ => Some p
  | _ :: r => program_in_use r
  end.

(** The texture unit selected by the latest [glActiveTexture]; GL starts
    with unit 0 selected. *)
Fixpoint active_unit (l : list Event) : TextureUnit :=
  match l with
  | [] => GL_TEXTURE0
  | glActiveTexture u :: _ => u
  | _ :: r => active_unit r
  end.

Definition same_unit (a b : TextureUnit) : bool :=
  match a, b with
  | GL_TEXTURE0, GL_TEXTURE0 | GL_TEXTURE1, GL_TEXTURE1 => true
  | _, _ => false
  end.

(** The latest texture bound while unit [u] was selected. *)
Fixpoint texture_on (u : TextureUnit) (l : list Event) : option GLuint :=
  match l with
  | [] => None
  | glBindTexture tx :: r =>
      if same_unit (active_unit r) u then Some tx else texture_on u r
  | _ :: r => texture_on u r
  end.

(** What a draw call runs with: the framebuffer it writes, the viewport,
    the program, and the textures on the two units. *)
Record Pass := {
  pass_target : option GLuint;
  pass_viewport : option (Z * Z * Z * Z);
  pass_program : option GLuint;
  pass_unit0 : option GLuint;
  pass_unit1 : option GLuint
}.

Definition pass_at (l : list Event) : Pass :=
  {| pass_target := bound_framebuffer l;
     pass_viewport := current_viewport l;
     pass_program := program_in_use l;
     pass_unit0 := texture_on GL_TEXTURE0 l;
     pass_unit1 := texture_on GL_TEXTURE1 l |}.

(** The draw calls of a log, latest first, each with what it runs with. *)
Fixpoint passes (l : list Event) : list Pass :=
  match l with
  | [] => []
  | glDrawElements _ :: r => pass_at r :: passes r
  | _ :: r => passes r
  end.

(** The latest binding of the read framebuffer. *)
Fixpoint bound_read_framebuffer (l : list Event) : option GLuint :=
  match l with
  | [] => None
  | glBindFramebuffer GL_FRAMEBUFFER fb :: _ => Some fb
  | glBindFramebuffer GL_READ_FRAMEBUFFER fb :: _ => Some fb
  | _ :: r => bound_read_framebuffer r
  end.

(** The blits of a log, latest first: from which framebuffer, into which,
    and the two rectangles. *)
Fixpoint blits (l : list Event)
  : list (option GLuint * option GLuint * (Z * Z * Z * Z) * (Z * Z * Z * Z)) :=
  match l with
  | [] => []
  | glBlitFramebuffer sx0 sy0 sx1 sy1 dx0 dy0 dx1 dy1 :: r =>
      (bound_read_framebuffer r, bound_framebuffer r,
       (sx0, sy0, sx1, sy1), (dx0, dy0, dx1, dy1)) :: blits r
  | _ :: r => blits r
  end.

Definition is_call_original (e : Event) : bool :=
  match e with call_original _ _ _ => true | _ => false end.

(** The calls through the saved pointer, in program order. *)
Definition forwarded (l : list Event) : list Event :=
  rev (filter is_call_original l).

(** A sequence of presents through the interceptor of [src/main.cpp], as
    the host makes them. *)
Fixpoint presents (env : Env) (ps : list (EGLDisplay * EGLSurface))
  : Main.M (list EGLBoolean) :=
  match ps with
  | [] => ret []
  | (d, s) :: ps' =>
      bind (Main.hook env d s) (fun r =>
      bind (presents env ps') (fun rs => ret (r :: rs)))
  end.

(** The internal resolution stored is the scaling of the stored size. *)
Definition sized (g : Main.Globals) : Prop :=
  Main.iW g = scaled (Main.sW g) /\ Main.iH g = scaled (Main.sH g).

(** [dot(x.rgb, vec3(0.299, 0.587, 0.114))] *)
Definition luma (x : Shader.vec4) : R :=
  Shader.dot (Shader.rgb x) Shader.luma_weights.


Definition black : Shader.vec4 :=
  {| Shader.rgb := {| Shader.red := 0; Shader.green := 0; Shader.blue := 0 |};
     Shader.alpha := 1 |}.

(** A driver that hands out no names: every object it is asked for is
    named 0, as when object creation fails. Everything else is as in
    [driver]. *)
Definition driver_unnamed (w h : Z) : Env :=
  {| gl_name := fun _ => 0;
     gl_location := gl_location (driver w h);
     gl_integer := gl_integer (driver w h);
     egl_value := egl_value (driver w h);
     present_result := present_result (driver w h);
     framebuffer_complete := framebuffer_complete (driver w h);
     program_linked := program_linked (driver w h);
     shader_compiled := shader_compiled (driver w h) |}.

(** The upload of a [float] uniform: in the simple-blend variant only the
    blend step makes one, of the blend factor. *)
Definition is_float_upload (e : Event) : bool :=
  match e with glUniform1f _ _ => true | _ => false end.

(** ** Double precision, for the clock arithmetic of the haze variants *)
Module Binary64.
Definition prec : Z := 53.
Definition emax : Z := 1024.
Definition double := spec_float.

(** float -> double is exact. *)
Definition of_float (x : Binary32.float) : double :=
match x with
| S754_finite s m e => binary_normalize prec emax (cond_Zopp s (Zpos m)) e s
| _ => x
end.

(** double -> float rounds to nearest even. *)
Definition to_float (x : double) : Binary32.float :=
match x with
| S754_finite s m e =>
    binary_normalize Binary32.prec Binary32.emax (cond_Zopp s (Zpos m)) e s
| _ => x
end.

Definition add (x y : double) : double := SFadd prec emax x y.
Definition div (x y : double) : double := SFdiv prec emax x y.

(** The literal [1e9]. *)
Definition billion : double := binary_normalize prec emax 1000000000 0 false.
End Binary64.

(** ** The heat-haze variant ("Apex")

    The same engine as [src/main.cpp] with the neon accumulation shader,
    a query of the framebuffer binding at the top of each frame, and an
    elapsed-time uniform for the output shader. *)
Module Apex.
Local Open Scope exec_scope.

(** [static const float HAZE_SPEED = 2.8f;]  the binary32 nearest to 2.8
  is 11744051 * 2^-22. *)
Definition HAZE_SPEED : Binary32.float := S754_finite false 11744051 (-22).

(** What [clock_gettime(CLOCK_MONOTONIC, ...)] stores, indexed like the
  answers of the driver. *)
Record Clock := { tv_sec : nat -> Z; tv_nsec : nat -> Z }.

Record Globals := {
rawTex : GLuint;
rawFBO : GLuint;
histTex : arr2;
histFBO : arr2;
vao : GLuint;
progNeon : GLuint;
progDraw : GLuint;
ping : Z;
iW : Z;
iH : Z;
sW : Z;
sH : Z;
orig : option FnPtr
}.

Definition initial : Globals :=
{| rawTex := 0; rawFBO := 0; histTex := (0, 0); histFBO := (0, 0);
   vao := 0; progNeon := 0; progDraw := 0;
   ping := 0; iW := 0; iH := 0; sW := 0; sH := 0; orig := None |}.

Definition set_rawTex (v : GLuint) (g : Globals) : Globals :=
{| rawTex := v;
   rawFBO := rawFBO g;
   histTex := histTex g;
   histFBO := histFBO g;
   vao := vao g;
   progNeon := progNeon g;
   progDraw := progDraw g;
   ping := ping g;
   iW := iW g;
   iH := iH g;
   sW := sW g;
   sH := sH g;
   orig := orig g |}.

Definition set_rawFBO (v : GLuint) (g : Globals) : Globals :=
{| rawTex := rawTex g;
   rawFBO := v;
   histTex := histTex g;
   histFBO := histFBO g;
   vao := vao g;
   progNeon := progNeon g;
   progDraw := progDraw g;
   ping := ping g;
   iW := iW g;
   iH := iH g;
   sW := sW g;
   sH := sH g;
   orig := orig g |}.

Definition set_histTex (v : arr2) (g : Globals) : Globals :=
{| rawTex := rawTex g;
   rawFBO := rawFBO g;
   histTex := v;
   histFBO := histFBO g;
   vao := vao g;
   progNeon := progNeon g;
   progDraw := progDraw g;
   ping := ping g;
   iW := iW g;
   iH := iH g;
   sW := sW g;
   sH := sH g;
   orig := orig g |}.

Definition set_histFBO (v : arr2) (g : Globals) : Globals :=
{| rawTex := rawTex g;
   rawFBO := rawFBO g;
   histTex := histTex g;
   histFBO := v;
   vao := vao g;
   progNeon := progNeon g;
   progDraw := progDraw g;
   ping := ping g;
   iW := iW g;
   iH := iH g;
   sW := sW g;
   sH := sH g;
   orig := orig g |}.

Definition set_vao (v : GLuint) (g : Globals) : Globals :=
{| rawTex := rawTex g;
   rawFBO := rawFBO g;
   histTex := histTex g;
   histFBO := histFBO g;
   vao := v;
   progNeon := progNeon g;
   progDraw := progDraw g;
   ping := ping g;
   iW := iW g;
   iH := iH g;
   sW := sW g;
   sH := sH g;
   orig := orig g |}.

Definition set_progNeon (v : GLuint) (g : Globals) : Globals :=
{| rawTex := rawTex g;
   rawFBO := rawFBO g;
   histTex := histTex g;
   histFBO := histFBO g;
   vao := vao g;
   progNeon := v;
   progDraw := progDraw g;
   ping := ping g;
   iW := iW g;
   iH := iH g;
   sW := sW g;
   sH := sH g;
   orig := orig g |}.

Definition set_progDraw (v : GLuint) (g : Globals) : Globals :=
{| rawTex := rawTex g;
   rawFBO := rawFBO g;
   histTex := histTex g;
   histFBO := histFBO g;
   vao := vao g;
   progNeon := progNeon g;
   progDraw := v;
   ping := ping g;
   iW := iW g;
   iH := iH g;
   sW := sW g;
   sH := sH g;
   orig := orig g |}.

Definition set_ping (v : Z) (g : Globals) : Globals :=
{| rawTex := rawTex g;
   rawFBO := rawFBO g;
   histTex := histTex g;
   histFBO := histFBO g;
   vao := vao g;
   progNeon := progNeon g;
   progDraw := progDraw g;
   ping := v;
   iW := iW g;
   iH := iH g;
   sW := sW g;
   sH := sH g;
   orig := orig g |}.

Definition set_iW (v : Z) (g : Globals) : Globals :=
{| rawTex := rawTex g;
   rawFBO := rawFBO g;
   histTex := histTex g;
   histFBO := histFBO g;
   vao := vao g;
   progNeon := progNeon g;
   progDraw := progDraw g;
   ping := ping g;
   iW := v;
   iH := iH g;
   sW := sW g;
   sH := sH g;
   orig := orig g |}.

Definition set_iH (v : Z) (g : Globals) : Globals :=
{| rawTex := rawTex g;
   rawFBO := rawFBO g;
   histTex := histTex g;
   histFBO := histFBO g;
   vao := vao g;
   progNeon := progNeon g;
   progDraw := progDraw g;
   ping := ping g;
   iW := iW g;
   iH := v;
   sW := sW g;
   sH := sH g;
   orig := orig g |}.

Definition set_sW (v : Z) (g : Globals) : Globals :=
{| rawTex := rawTex g;
   rawFBO := rawFBO g;
   histTex := histTex g;
   histFBO := histFBO g;
   vao := vao g;
   progNeon := progNeon g;
   progDraw := progDraw g;
   ping := ping g;
   iW := iW g;
   iH := iH g;
   sW := v;
   sH := sH g;
   orig := orig g |}.

Definition set_sH (v : Z) (g : Globals) : Globals :=
{| rawTex := rawTex g;
   rawFBO := rawFBO g;
   histTex := histTex g;
   histFBO := histFBO g;
   vao := vao g;
   progNeon := progNeon g;
   progDraw := progDraw g;
   ping := ping g;
   iW := iW g;
   iH := iH g;
   sW := sW g;
   sH := v;
   orig := orig g |}.

Definition set_orig (v : option FnPtr) (g : Globals) : Globals :=
{| rawTex := rawTex g;
   rawFBO := rawFBO g;
   histTex := histTex g;
   histFBO := histFBO g;
   vao := vao g;
   progNeon := progNeon g;
   progDraw := progDraw g;
   ping := ping g;
   iW := iW g;
   iH := iH g;
   sW := sW g;
   sH := sH g;
   orig := v |}.

Definition set_histTex0 (v : GLuint) (g : Globals) : Globals :=
set_histTex (v, snd (histTex g)) g.
Definition set_histTex1 (v : GLuint) (g : Globals) : Globals :=
set_histTex (fst (histTex g), v) g.
Definition set_histFBO0 (v : GLuint) (g : Globals) : Globals :=
set_histFBO (v, snd (histFBO g)) g.
Definition set_histFBO1 (v : GLuint) (g : Globals) : Globals :=
set_histFBO (fst (histFBO g), v) g.

Definition World := Exec.World Globals.
Definition M := Exec.M Globals.

(** [(float)(res.tv_sec) + (float)(res.tv_nsec) / 1e9], returned as
  [float]: the quotient and the sum are computed in [double], because
  [1e9] is a [double], and the result is rounded to [float]. *)
Definition getTime_value (sec nsec : Z) : Binary32.float :=
Binary64.to_float
  (Binary64.add
     (Binary64.of_float (Binary32.of_int sec))
     (Binary64.div (Binary64.of_float (Binary32.of_int nsec))
                   Binary64.billion)).

Section WithEnv.
Variable env : Env.
Variable clock : Clock.

(** C++ leaves open in which order the two arguments of the [glUniform1f]
call of [render] are evaluated: [clock_first] says whether [getTime()]
runs before [glGetUniformLocation]. *)
Variable clock_first : bool.

(** [float getTime()] *)
Definition getTime : M Binary32.float :=
  fun W => Some (getTime_value (tv_sec clock (List.length (log W)))
                           (tv_nsec clock (List.length (log W))), W).

Definition initGL_c (t : ShaderType) (s : string) : M GLuint :=
  x <- ask (gl_name env) (glCreateShader t) ;;
  call (glShaderSource x s) ;;
  call (glCompileShader x) ;;
  ret x.

Definition initGL_t (tx fb : GLuint -> Globals -> Globals) : M unit :=
  x <- ask (gl_name env) glGenTextures ;;
  modify (tx x) ;;
  call (glBindTexture x) ;;
  g <- get ;;
  call (glTexImage2D (iW g) (iH g)) ;;
  call (glTexParameteri GL_TEXTURE_MIN_FILTER GL_LINEAR) ;;
  call (glTexParameteri GL_TEXTURE_MAG_FILTER GL_LINEAR) ;;
  call (glTexParameteri GL_TEXTURE_WRAP_S GL_CLAMP_TO_EDGE) ;;
  call (glTexParameteri GL_TEXTURE_WRAP_T GL_CLAMP_TO_EDGE) ;;
  f <- ask (gl_name env) glGenFramebuffers ;;
  modify (fb f) ;;
  call (glBindFramebuffer GL_FRAMEBUFFER f) ;;
  call (glFramebufferTexture2D x).

Definition initGL (w h : Z) : M unit :=
  (* Cleanup old resources if resolution changed *)
  g <- get ;;
  (if negb (rawTex g =? 0) then
 call (glDeleteTextures [rawTex g]) ;;
 call (glDeleteFramebuffers [rawFBO g]) ;;
 call (glDeleteTextures [fst (histTex g); snd (histTex g)]) ;;
 call (glDeleteFramebuffers [fst (histFBO g); snd (histFBO g)]) ;;
 call (glDeleteVertexArrays [vao g])
   else ret tt) ;;
  (* Calculate Internal Resolution (Downscaled) *)
  modify (set_iW (scaled w)) ;;
  modify (set_iH (scaled h)) ;;
  vs <- initGL_c GL_VERTEX_SHADER "vert" ;;
  fs1 <- initGL_c GL_FRAGMENT_SHADER "frag_neon" ;;
  fs2 <- initGL_c GL_FRAGMENT_SHADER "frag_draw" ;;
  (* Compile Neon Program *)
  pn <- ask (gl_name env) glCreateProgram ;;
  modify (set_progNeon pn) ;;
  call (glAttachShader pn vs) ;;
  call (glAttachShader pn fs1) ;;
  call (glLinkProgram pn) ;;
  call (glUseProgram pn) ;;
  lc <- ask (gl_location env) (glGetUniformLocation pn "c") ;;
  call (glUniform1i lc 0) ;;
  lh <- ask (gl_location env) (glGetUniformLocation pn "h") ;;
  call (glUniform1i lh 1) ;;
  (* Compile Visuals Program *)
  pd <- ask (gl_name env) glCreateProgram ;;
  modify (set_progDraw pd) ;;
  call (glAttachShader pd vs) ;;
  call (glAttachShader pd fs2) ;;
  call (glLinkProgram pd) ;;
  (* Setup Fullscreen Quad *)
  a <- ask (gl_name env) glGenVertexArrays ;;
  modify (set_vao a) ;;
  call (glBindVertexArray a) ;;
  vb <- ask (gl_name env) glGenBuffers ;;
  call (glBindBuffer GL_ARRAY_BUFFER vb) ;;
  call (glBufferData GL_ARRAY_BUFFER 64
      [-1;1;0;1; -1;-1;0;0; 1;-1;1;0; 1;1;1;1]) ;;
  ib <- ask (gl_name env) glGenBuffers ;;
  call (glBindBuffer GL_ELEMENT_ARRAY_BUFFER ib) ;;
  call (glBufferData GL_ELEMENT_ARRAY_BUFFER 12 [0;1;2; 0;2;3]) ;;
  call (glEnableVertexAttribArray 0) ;;
  call (glVertexAttribPointer 0 2 16 0) ;;
  call (glEnableVertexAttribArray 1) ;;
  call (glVertexAttribPointer 1 2 16 8) ;;
  (* Setup Textures (Low Res for performance) *)
  initGL_t set_rawTex set_rawFBO ;;
  initGL_t set_histTex0 set_histFBO0 ;;
  initGL_t set_histTex1 set_histFBO1 ;;
  (* Clear History Buffers *)
  g <- get ;;
  call (glBindFramebuffer GL_FRAMEBUFFER (fst (histFBO g))) ;;
  call (glClearColor 0 0 0 1) ;;
  call glClear ;;
  call (glBindFramebuffer GL_FRAMEBUFFER (snd (histFBO g))) ;;
  call (glClearColor 0 0 0 1) ;;
  call glClear ;;
  modify (set_sW w) ;;
  modify (set_sH h).

Definition size_changed (g : Globals) (w h : Z) : bool :=
  negb (w =? sW g) || negb (h =? sH g) || (rawTex g =? 0).

(** The arguments of
[glUniform1f(glGetUniformLocation(progDraw, "uTime"), getTime() * HAZE_SPEED)],
evaluated in either order. *)
Definition uTime_arguments (p : GLuint) : M (GLint * Binary32.float) :=
  if clock_first
  then t <- getTime ;;
   loc <- ask (gl_location env) (glGetUniformLocation p "uTime") ;;
   ret (loc, Binary32.mul t HAZE_SPEED)
  else loc <- ask (gl_location env) (glGetUniformLocation p "uTime") ;;
   t <- getTime ;;
   ret (loc, Binary32.mul t HAZE_SPEED).

Definition render (w h : Z) : M unit :=
  g <- get ;;
  (if size_changed g w h then initGL w h else ret tt) ;;
  _ <- ask (gl_integer env) glGetIntegerv_FRAMEBUFFER_BINDING ;;
  call (glDisable GL_SCISSOR_TEST) ;;
  call (glDisable GL_DEPTH_TEST) ;;
  call (glDisable GL_BLEND) ;;
  (* 1. FAST COPY (Screen -> LowRes Texture) *)
  g <- get ;;
  call (glBindFramebuffer GL_READ_FRAMEBUFFER 0) ;;
  call (glBindFramebuffer GL_DRAW_FRAMEBUFFER (rawFBO g)) ;;
  call (glBlitFramebuffer 0 0 w h 0 0 (iW g) (iH g)) ;;
  (* 2. PASS 1: NEON ENGINE *)
  let cur := ping g in
  pre <- lift (int_sub 1 (ping g)) ;;
  fb <- lift (arr_get (histFBO g) cur) ;;
  call (glBindFramebuffer GL_FRAMEBUFFER fb) ;;
  call (glViewport 0 0 (iW g) (iH g)) ;;
  call (glBindVertexArray (vao g)) ;;
  call (glUseProgram (progNeon g)) ;;
  call (glActiveTexture GL_TEXTURE0) ;;
  call (glBindTexture (rawTex g)) ;;
  call (glActiveTexture GL_TEXTURE1) ;;
  tp <- lift (arr_get (histTex g) pre) ;;
  call (glBindTexture tp) ;;
  call (glDrawElements 6) ;;
  (* 3. PASS 2: VISUAL ENGINE *)
  call (glBindFramebuffer GL_FRAMEBUFFER 0) ;;
  call (glViewport 0 0 w h) ;;
  call (glUseProgram (progDraw g)) ;;
  a <- uTime_arguments (progDraw g) ;;
  call (glUniform1f (fst a) (snd a)) ;;
  call (glActiveTexture GL_TEXTURE0) ;;
  tc <- lift (arr_get (histTex g) cur) ;;
  call (glBindTexture tc) ;;
  call (glDrawElements 6) ;;
  modify (set_ping pre).

Definition hook (d : EGLDisplay) (s : EGLSurface) : M EGLBoolean :=
  w <- ask (egl_value env) (eglQuerySurface d s EGL_WIDTH) ;;
  h <- ask (egl_value env) (eglQuerySurface d s EGL_HEIGHT) ;;
  (if 100 <? w then render w h else ret tt) ;;
  g <- get ;;
  match orig g with
  | Some f => ask (present_result env) (call_original f d s)
  | None => undefined
  end.

Fixpoint frames (w h : Z) (n : nat) : M unit :=
  match n with
  | O => ret tt
  | S n' => frames w h n' ;; render w h
  end.
End WithEnv.

Definition start (o : option FnPtr) (l : list Event) : World :=
{| globals := set_orig o initial; log := l |}.

Definition ping_ok (g : Globals) : Prop := ping g = 0 \/ ping g = 1.

Definition is_time_upload (e : Event) : bool :=
match e with glUniform1f _ _ => true | _ => false end.

Definition is_location_query (e : Event) : bool :=
match e with glGetUniformLocation _ _ => true | _ => false end.
End Apex.

(** *** The shaders of the heat-haze variant *)
Module ApexShader.
Import Shader.
Local Open Scope R_scope.

Definition scale4 (x : vec4) (s : R) : vec4 :=
{| rgb := {| red := red (rgb x) * s; green := green (rgb x) * s;
             blue := blue (rgb x) * s |};
   alpha := alpha x * s |}.

Definition add4 (x y : vec4) : vec4 :=
{| rgb := {| red := red (rgb x) + red (rgb y);
             green := green (rgb x) + green (rgb y);
             blue := blue (rgb x) + blue (rgb y) |};
   alpha := alpha x + alpha y |}.

Definition div4 (x : vec4) (s : R) : vec4 :=
{| rgb := {| red := red (rgb x) / s; green := green (rgb x) / s;
             blue := blue (rgb x) / s |};
   alpha := alpha x / s |}.

(** [smoothstep(0.12, 0.45, distance(v, vec2(0.5)))] *)
Definition neon_mask (v : vec2) : R :=
smoothstep 0.12 0.45 (distance v {| vx := 0.5; vy := 0.5 |}).

(** [smoothstep(0.4, 0.9, luma) * 0.96] *)
Definition neon_decay (luma : R) : R := smoothstep 0.4 0.9 luma * 0.96.

Definition frag_neon (c h : sampler2D) (v : vec2) : vec4 :=
let curr := texture c v in
(* 1. CENTER MASK *)
let center := {| vx := 0.5; vy := 0.5 |} in
let mask := neon_mask v in
(* 2. WARP TUNNEL *)
let zoomUV := {| vx := (vx v - vx center) * 0.994 + vx center;
                 vy := (vy v - vy center) * 0.994 + vy center |} in
let hist := texture h zoomUV in
(* 3. BRIGHTNESS DECAY *)
let luma := dot (rgb curr) luma_weights in
let decay := neon_decay luma in
(* 4. MIX *)
mix4 curr (scale4 hist 1.01) (decay * mask).

(** Steps 1 and 2 of [frag_draw]: the coordinate the image is read at. *)
Definition finalUV (t : sampler2D) (uTime : R) (v : vec2) : vec2 :=
let rawCol := texture t v in
let luma := dot (rgb rawCol) luma_weights in
let heatMask := smoothstep 0.7 1.0 luma in
let time := uTime in
let ripple := {| vx := sin (vy v * 30.0 + time) * 0.002;
                 vy := cos ((vx v + vy v) * 25.0 + time * 1.3) * 0.002 |} in
{| vx := vx v + vx ripple * heatMask; vy := vy v + vy ripple * heatMask |}.

(** Step 3, CAS sharpening at a given coordinate. *)
Definition cas (t : sampler2D) (uv : vec2) : vec4 :=
let col := texture t uv in
let n := textureOffset t uv (0, -1)%Z in
let s := textureOffset t uv (0, 1)%Z in
let e := textureOffset t uv (1, 0)%Z in
let w := textureOffset t uv (-1, 0)%Z in
let mx := Rmax (green (rgb col))
               (Rmax (Rmax (green (rgb n)) (green (rgb s)))
                     (Rmax (green (rgb e)) (green (rgb w)))) in
let mn := Rmin (green (rgb col))
               (Rmin (Rmin (green (rgb n)) (green (rgb s)))
                     (Rmin (green (rgb e)) (green (rgb w)))) in
let amt := sqrt (clamp (mn / (1.0 - mx + 0.001)) 0.0 1.0) in
let peak := -1.0 / mix 8.0 5.0 (amt * 0.7) in
let sharp := add4 col (scale4 (add4 (add4 (add4 n s) e) w) peak) in
div4 sharp (1.0 + 4.0 * peak).

Definition frag_draw (t : sampler2D) (uTime : R) (v : vec2) : vec4 :=
let rawCol := texture t v in
let luma := dot (rgb rawCol) luma_weights in
let col := cas t (finalUV t uTime v) in
(* 4. DYNAMIC EXPOSURE *)
let rgb4 := add_scalar (rgb col) ((1.0 - smoothstep 0.0 0.4 luma) * 0.12) in
(* 5. ACES TONEMAPPING *)
{| rgb := tonemap rgb4; alpha := alpha col |}.
End ApexShader.

(** ** The sharpening step in rounded arithmetic

    GLSL ES leaves the precision of [lowp] and [mediump] to the
    implementation. [Rounded] transcribes the sharpening lines of
    [frag_draw] of [src/main.cpp] with every operation rounded to nearest
    (ties to even) in the binary format of [prec] significant bits and
    exponent bound [emax]: (24, 128) is binary32, (11, 16) is binary16.
    A decimal literal is the nearest number of the format, [dot] sums its
    products from left to right, and [mix], [clamp], [max] and [min] are the
    expressions by which the GLSL specification defines them. *)
Module Rounded.
Section Format.
Variables prec emax : Z.

Definition num := spec_float.

Definition of_int (n : Z) : num := binary_normalize prec emax n 0 false.

(** The literal [n/d] for integers that the format holds exactly. *)
Definition lit (n d : Z) : num := SFdiv prec emax (of_int n) (of_int d).

Definition add (x y : num) : num := SFadd prec emax x y.
Definition sub (x y : num) : num := SFsub prec emax x y.
Definition mul (x y : num) : num := SFmul prec emax x y.
Definition div (x y : num) : num := SFdiv prec emax x y.
Definition sqrt (x : num) : num := SFsqrt prec emax x.

(** [max(x, y)] returns [y] if [x < y], otherwise [x]; [min(x, y)] returns
[y] if [y < x], otherwise [x]. *)
Definition max (x y : num) : num := if SFltb x y then y else x.
Definition min (x y : num) : num := if SFltb y x then y else x.

Definition clamp (x lo hi : num) : num := min (max x lo) hi.

Definition mix (x y a : num) : num :=
  add (mul x (sub (of_int 1) a)) (mul y a).

Record vec2 := { vx : num; vy : num }.
Record vec3 := { red : num; green : num; blue : num }.
Record vec4 := { rgb : vec3; alpha : num }.

Definition sampler2D := vec2 -> (Z * Z) -> vec4.

Definition textureOffset (t : sampler2D) (v : vec2) (o : Z * Z) : vec4 := t v o.
Definition texture (t : sampler2D) (v : vec2) : vec4 := t v (0, 0).

Definition dot (a b : vec3) : num :=
  add (add (mul (red a) (red b)) (mul (green a) (green b)))
  (mul (blue a) (blue b)).

(** [vec3(0.299, 0.587, 0.114)] *)
Definition luma_weights : vec3 :=
  {| red := lit 299 1000; green := lit 587 1000; blue := lit 114 1000 |}.

(** From [mx] to [sharpLuma /= (1.0 + 4.0 * peak)]. *)
Definition sharp_luma (lC lN lS lE lW : num) : num :=
  let mx := max lC (max (max lN lS) (max lE lW)) in
  let mn := min lC (min (min lN lS) (min lE lW)) in
  let amt := sqrt (clamp (div mn (add (sub (of_int 1) mx) (lit 1 1000)))
                     (of_int 0) (of_int 1)) in
  let peak := div (of_int (-1))
              (mix (of_int 8) (of_int 5) (mul amt (lit 88 100))) in
  let sharpLuma := add lC (mul (add (add (add lN lS) lE) lW) peak) in
  div sharpLuma (add (of_int 1) (mul (of_int 4) peak)).

(** Step 1 of [frag_draw], up to [col.rgb += (sharpLuma - lC)]. *)
Definition sharpen (t : sampler2D) (v : vec2) : vec4 :=
  let col := texture t v in
  let n := textureOffset t v (0, -1) in
  let s := textureOffset t v (0, 1) in
  let e := textureOffset t v (1, 0) in
  let w := textureOffset t v (-1, 0) in
  let lC := dot (rgb col) luma_weights in
  let lN := dot (rgb n) luma_weights in
  let lS := dot (rgb s) luma_weights in
  let lE := dot (rgb e) luma_weights in
  let lW := dot (rgb w) luma_weights in
  let sharpLuma := sharp_luma lC lN lS lE lW in
  let d := sub sharpLuma lC in
  {| rgb := {| red := add (red (rgb col)) d;
           green := add (green (rgb col)) d;
           blue := add (blue (rgb col)) d |};
 alpha := alpha col |}.




End Format.











End Rounded.

(** * Properties *)

(** ** The internal resolution *)

Lemma digits2_pos_log2 (m : positive) :
  Zpos (digits2_pos m) = Z.log2 (Zpos m) + 1.
Proof.
  induction m as [m IH | m IH |]; cbn [digits2_pos]; try reflexivity.
  - rewrite Pos2Z.inj_succ, IH.
    change (Zpos m~1) with (2 * Zpos m + 1).
    rewrite Z.log2_succ_double by lia. lia.
  - rewrite Pos2Z.inj_succ, IH.
    change (Zpos m~0) with (2 * Zpos m).
    rewrite Z.log2_double by lia. lia.
Qed.

Lemma iter_xO_pow2 (m k : positive) :
  Zpos (Pos.iter xO m k) = Zpos m * 2 ^ Zpos k.
Proof.
  rewrite <- Z.shiftl_mul_pow2 by lia.
  unfold Z.shiftl.
  apply (Pos.iter_swap_gen _ _ Zpos xO (Z.mul 2)). intros a. reflexivity.
Qed.

Lemma log2_shift (m : positive) (k : Z) :
  0 <= k -> Z.log2 (Zpos m * 2 ^ k) = Z.log2 (Zpos m) + k.
Proof. intros Hk. rewrite Z.log2_mul_pow2 by lia. lia. Qed.

(** A 24-digit mantissa with an exponent in range is already a binary32
    number: rounding leaves it alone. *)
Lemma round_aux_exact (s : bool) (m : positive) (e : Z) :
  Zpos (digits2_pos m) = 24 -> -149 <= e <= 104 ->
  binary_round_aux 24 128 s (Zpos m) e loc_Exact = S754_finite s m e.
Proof.
  intros Hd He.
  unfold binary_round_aux, shr_fexp, Zdigits2. cbn [shr_record_of_loc].
  rewrite Hd.
  assert (Hz : fexp 24 128 (24 + e) - e = 0).
  { unfold fexp, emin. lia. }
  rewrite Hz.
  cbn [shr shr_m loc_of_shr_record round_nearest_even Zdigits2 shr_record_of_loc].
  rewrite Hd, Hz. cbn [shr shr_m].
  replace (e <=? 128 - 24) with true by (symmetry; apply Z.leb_le; lia).
  reflexivity.
Qed.

(** Below 2^24 the conversion from [int] is exact. *)
Lemma of_int_pos (p : positive) :
  Zpos p < 2 ^ 24 ->
  exists m e, Binary32.of_int (Zpos p) = S754_finite false m e /\
              Zpos (digits2_pos m) = 24 /\ -23 <= e <= 0 /\
              Zpos m = Zpos p * 2 ^ (- e).
Proof.
  intros Hp.
  pose proof (digits2_pos_log2 p) as Hd.
  assert (Hl : 0 <= Z.log2 (Zpos p) < 24).
  { split; [apply Z.log2_nonneg|]. apply Z.log2_lt_pow2; lia. }
  unfold Binary32.of_int, binary_normalize, binary_round, shl_align.
  rewrite Z.add_0_r, Z.sub_0_r.
  assert (Hf : fexp Binary32.prec Binary32.emax (Zpos (digits2_pos p))
               = Zpos (digits2_pos p) - 24).
  { unfold fexp, emin, Binary32.prec, Binary32.emax. lia. }
  rewrite Hf.
  destruct (Zpos (digits2_pos p) - 24) as [| k | k] eqn:Hk; try lia.
  - exists p, 0. split; [apply round_aux_exact; lia|].
    repeat split; try lia.
  - exists (Pos.iter xO p k), (Zneg k).
    assert (Hm : Zpos (digits2_pos (Pos.iter xO p k)) = 24).
    { rewrite digits2_pos_log2, iter_xO_pow2, log2_shift by lia. lia. }
    split; [apply round_aux_exact; lia|].
    repeat split; try lia.
    rewrite iter_xO_pow2. reflexivity.
Qed.

(** Multiplying a normal number of that range by 0.5f lowers the exponent. *)
Lemma mul_SCALE (s : bool) (m : positive) (e : Z) :
  Zpos (digits2_pos m) = 24 -> -23 <= e <= 0 ->
  Binary32.mul (S754_finite s m e) SCALE = S754_finite s m (e - 1).
Proof.
  intros Hd He.
  unfold Binary32.mul, SCALE, SFmul. rewrite xorb_false_r.
  unfold binary_round_aux, shr_fexp, Zdigits2. cbn [shr_record_of_loc].
  assert (Hd2 : Zpos (digits2_pos (m * 8388608)) = 47).
  { rewrite digits2_pos_log2, Pos2Z.inj_mul.
    change (Zpos 8388608) with (2 ^ 23).
    rewrite log2_shift by lia. rewrite digits2_pos_log2 in Hd. lia. }
  rewrite Hd2.
  assert (Hn : fexp Binary32.prec Binary32.emax (47 + (e + -24)) - (e + -24) = 23).
  { unfold fexp, emin, Binary32.prec, Binary32.emax. lia. }
  rewrite Hn. cbn [shr].
  rewrite Pos.mul_comm.
  cbn [Pos.mul SpecFloat.iter_pos shr_1 shr_m loc_of_shr_record round_nearest_even
       orb shr_r shr_s fst snd].
  rewrite Hd.
  assert (Hz : fexp Binary32.prec Binary32.emax (24 + (e + -24 + 23))
               - (e + -24 + 23) = 0).
  { unfold fexp, emin, Binary32.prec, Binary32.emax. lia. }
  rewrite Hz. cbn [shr shr_m].
  replace (e + -24 + 23 <=? Binary32.emax - Binary32.prec) with true
    by (symmetry; apply Z.leb_le; unfold Binary32.prec, Binary32.emax; lia).
  f_equal. lia.
Qed.

Lemma of_int_neg (p : positive) :
  Binary32.of_int (Zneg p) = SFopp (Binary32.of_int (Zpos p)).
Proof.
  unfold Binary32.of_int, binary_normalize, binary_round.
  destruct (shl_align _ _ _) as [mz ez].
  unfold binary_round_aux.
  destruct (shr_fexp _ _ _ _ _) as [mrs e1].
  destruct (shr_fexp _ _ _ _ _) as [mrs2 e2].
  destruct (shr_m mrs2); try reflexivity.
  destruct (e2 <=? _); reflexivity.
Qed.

Lemma halve_shifted (p m : positive) (e : Z) :
  -23 <= e <= 0 -> Zpos m = Zpos p * 2 ^ (- e) ->
  Z.shiftl (Zpos m) (e - 1) = Zpos p / 2.
Proof.
  intros He Hm.
  rewrite Z.shiftl_div_pow2 by lia. rewrite Hm.
  replace (- (e - 1)) with (- e + 1) by lia.
  rewrite Z.pow_add_r by lia. change (2 ^ 1) with 2.
  rewrite <- Z.div_div by lia.
  rewrite Z.div_mul by lia. reflexivity.
Qed.

(** [(int)(w*0.5f)] is [w/2] rounded toward zero for every [w] of
    magnitude below 2^24. *)
Lemma scaled_quot (w : Z) :
  Z.abs w < 2 ^ 24 -> scaled w = Z.quot w 2.
Proof.
  intros Hw. destruct w as [| p | p].
  - reflexivity.
  - destruct (of_int_pos p) as (m & e & Hof & Hd & He & Hm); [lia|].
    unfold scaled. rewrite Hof, (mul_SCALE false m e Hd He).
    cbn [Binary32.to_int cond_Zopp].
    rewrite Z.quot_div_nonneg by lia. apply halve_shifted; assumption.
  - destruct (of_int_pos p) as (m & e & Hof & Hd & He & Hm); [lia|].
    unfold scaled. rewrite of_int_neg, Hof. cbn [SFopp negb].
    rewrite (mul_SCALE true m e Hd He).
    cbn [Binary32.to_int cond_Zopp].
    change (Zneg p) with (- Zpos p). rewrite Z.quot_opp_l by lia.
    rewrite Z.quot_div_nonneg by lia. f_equal.
    apply halve_shifted; assumption.
Qed.

Lemma scaled_floor (w : Z) :
  0 <= w < 2 ^ 24 -> scaled w = w / 2.
Proof.
  intros Hw. rewrite scaled_quot by lia. apply Z.quot_div_nonneg; lia.
Qed.

(** ** Running the engine of [src/main.cpp] *)

Lemma cons_app_split {A} (e : A) (r s l : list A) :
  r = s ++ l -> e :: r = (e :: s) ++ l.
Proof. intros ->. reflexivity. Qed.

Lemma nil_app_split {A} (l : list A) : l = [] ++ l.
Proof. reflexivity. Qed.

(** Splits a log [e1 :: ... :: ek :: l] as [?new ++ l]. *)
Ltac split_log :=
  lazymatch goal with
  | |- ?r = _ ++ ?l =>
      first [ unify r l; exact (nil_app_split l)
            | eapply cons_app_split; split_log ]
  end.

(** Evaluates a run on symbolic inputs; the scaling of an unknown size
    stays folded. *)
Ltac run := lazy -[scaled].

Lemma since_app {G} (W W' : Exec.World G) (new : list Event) :
  log W' = new ++ log W -> since W W' = new.
Proof.
  intros H. unfold since. rewrite H, length_app.
  replace (List.length new + List.length (log W) - List.length (log W))%nat
    with (List.length new + 0)%nat by lia.
  rewrite firstn_app_2. cbn. apply app_nil_r.
Qed.

Lemma count_app (p : Event -> bool) (l1 l2 : list Event) :
  count p (l1 ++ l2) = (count p l1 + count p l2)%nat.
Proof. unfold count. rewrite filter_app, length_app. reflexivity. Qed.

Lemma count_rev (p : Event -> bool) (l : list Event) :
  count p (rev l) = count p l.
Proof.
  unfold count. induction l as [| e l IH]; [reflexivity|].
  cbn [rev]. rewrite filter_app, length_app, IH. cbn.
  destruct (p e); cbn; lia.
Qed.

Section MainProofs.
Import Main.

Lemma initGL_spec env w h W :
  exists Wi setup,
    initGL env w h W = Some (tt, Wi) /\ initialised w h W Wi setup.
Proof.
  destruct W as [[rT rF [hT0 hT1] [hF0 hF1] va pB pD pg iw ih sw sh og] l].
  destruct env as [gn gloc gint ev pr fc pl sc].
  unfold initGL, initialised, bind at 1, get at 1, bind at 1.
  cbn [globals rawTex].
  destruct (rT =? 0) eqn:E.
  - eexists. eexists. split; [run; reflexivity|].
    split; [cbn; split_log|].
    unfold count. cbn. rewrite !Z.eqb_refl. cbn. repeat split; reflexivity.
  - eexists. eexists. split; [run; reflexivity|].
    split; [cbn; split_log|].
    unfold count. cbn. rewrite !Z.eqb_refl. cbn. repeat split; reflexivity.
Qed.

(** One call of [render] with [ping] in range: the size check, then the
    calls of the frame with [cur = ping] and [pre = 1 - ping], then the
    flip. *)
Lemma render_spec env w h W :
  ping_ok (globals W) ->
  exists Wc, checked env w h W Wc /\
    ping (globals Wc) = ping (globals W) /\
    orig (globals Wc) = orig (globals W) /\
    render env w h W =
      Some (tt, {| globals := set_ping (1 - ping (globals W)) (globals Wc);
                   log := rev (frame_calls w h (globals Wc) (ping (globals W))
                                 (1 - ping (globals W))) ++ log Wc |}).
Proof.
  intros Hp.
  unfold render, checked, bind at 1, get at 1, bind at 1.
  destruct (size_changed (globals W) w h) eqn:E.
  - destruct (initGL_spec env w h W) as (Wi & setup & Hi & Hpost).
    exists Wi. split; [exact Hi|].
    rewrite Hi.
    destruct Hpost as (_ & Hping & Horig & _).
    split; [exact Hping|]. split; [exact Horig|].
    unfold ping_ok in Hp. rewrite <- Hping in *. clear Hi Hping Horig E.
    destruct Wi as [[rT rF [hT0 hT1] [hF0 hF1] va pB pD pg iw ih sw sh og] li].
    cbn [globals ping] in *.
    destruct Hp as [Hp | Hp]; rewrite Hp; run; reflexivity.
  - exists W. split; [reflexivity|]. split; [reflexivity|].
    split; [reflexivity|].
    destruct W as [[rT rF [hT0 hT1] [hF0 hF1] va pB pD pg iw ih sw sh og] l].
    unfold ping_ok in Hp. cbn [globals ping] in *.
    destruct Hp as [Hp | Hp]; rewrite Hp; run; reflexivity.
Qed.

Lemma size_unchanged g w h :
  size_changed g w h = false -> sW g = w /\ sH g = h /\ rawTex g <> 0.
Proof.
  unfold size_changed. intros H.
  apply orb_false_iff in H. destruct H as [H Hr].
  apply orb_false_iff in H. destruct H as [Hw Hh].
  apply negb_false_iff in Hw, Hh.
  apply Z.eqb_eq in Hw, Hh. apply Z.eqb_neq in Hr. auto.
Qed.

Lemma size_changed_steady g w h :
  rawTex g <> 0 -> sW g = w -> sH g = h -> size_changed g w h = false.
Proof.
  intros Hr Hw Hh. unfold size_changed. subst.
  rewrite !Z.eqb_refl. cbn. apply Z.eqb_neq. exact Hr.
Qed.

Lemma size_changed_resize g w h :
  w <> sW g \/ h <> sH g -> size_changed g w h = true.
Proof.
  intros [H | H]; unfold size_changed; apply Z.eqb_neq in H; rewrite H;
    [reflexivity | destruct (w =? sW g); reflexivity].
Qed.

Lemma frame_calls_counts w h g cur pre :
  count is_alloc (frame_calls w h g cur pre) = 0%nat /\
  count is_release (frame_calls w h g cur pre) = 0%nat /\
  count is_draw (frame_calls w h g cur pre) = 2%nat /\
  List.length (frame_calls w h g cur pre) = 21%nat.
Proof. repeat split; reflexivity. Qed.

Lemma ping_ok_flip g g' :
  ping_ok g -> ping_ok (set_ping (1 - ping g) g').
Proof. unfold ping_ok, set_ping. cbn [ping]. lia. Qed.

(** After a call of [render] the stored size is the size it was called
    with. *)
Lemma render_stores_size env w h W W' :
  ping_ok (globals W) -> render env w h W = Some (tt, W') ->
  sW (globals W') = w /\ sH (globals W') = h /\ ping_ok (globals W') /\
  ping (globals W') = 1 - ping (globals W) /\
  orig (globals W') = orig (globals W).
Proof.
  intros Hp Hr.
  destruct (render_spec env w h W Hp) as (Wc & Hc & Hping & Horig & Hrun).
  rewrite Hrun in Hr. injection Hr as <-.
  cbn [globals]. unfold checked in Hc.
  assert (Hs : sW (globals Wc) = w /\ sH (globals Wc) = h).
  { destruct (size_changed (globals W) w h) eqn:E.
    - destruct (initGL_spec env w h W) as (Wi & setup & Hi & Hpost).
      rewrite Hi in Hc. injection Hc as <-.
      destruct Hpost as (_ & _ & _ & Hw & Hh & _). auto.
    - subst Wc. apply size_unchanged in E. tauto. }
  destruct Hs as [Hw Hh].
  repeat split; try assumption.
  apply ping_ok_flip; assumption.
Qed.
End MainProofs.

Section MainClaims.
Import Main.

(** *** Frames at a steady size *)

(** [n] frames from a state with [ping] in range all run, and leave
    [ping] advanced by [n] modulo 2. *)
Lemma frames_ping env w h n W :
  ping_ok (globals W) ->
  exists Wn, frames env w h n W = Some (tt, Wn) /\
    ping_ok (globals Wn) /\
    ping (globals Wn) = (ping (globals W) + Z.of_nat n) mod 2 /\
    orig (globals Wn) = orig (globals W).
Proof.
  intros Hp. induction n as [| n IH].
  - exists W. cbn [frames]. unfold ret.
    repeat split; try assumption.
    destruct Hp as [-> | ->]; reflexivity.
  - destruct IH as (Wn & Hf & Hpn & Hv & Ho).
    destruct (render_spec env w h Wn Hpn) as (Wc & Hc & Hping & Horig & Hr).
    eexists. cbn [frames]. unfold bind. rewrite Hf, Hr.
    split; [reflexivity|]. cbn [globals].
    split; [apply ping_ok_flip; assumption|].
    split; [|cbn; congruence].
    unfold set_ping. cbn [ping]. rewrite Hv.
    rewrite Nat2Z.inj_succ.
    replace (ping (globals W) + Z.succ (Z.of_nat n))
      with (ping (globals W) + Z.of_nat n + 1) by lia.
    pose proof (Z.mod_pos_bound (ping (globals W) + Z.of_nat n) 2 ltac:(lia)) as Hb.
    rewrite (Z.add_mod (ping (globals W) + Z.of_nat n) 1 2) by lia.
    set (r := (ping (globals W) + Z.of_nat n) mod 2) in *.
    assert (Hr2 : r = 0 \/ r = 1) by lia.
    destruct Hr2 as [-> | ->]; reflexivity.
Qed.

(** C2. Ping alternation: in the k-th of consecutive frames at one size,
    counted from 0 and starting in the initial state, the blur pass binds
    history slot [k mod 2] as its write target and reads the other slot,
    [1 - k mod 2]; each call of [render] flips [ping] exactly once; and
    the slot read is never the slot written. *)
Theorem C2_ping_alternation env w h o l (k : nat) :
  exists Wk Wc W',
    frames env w h k (start o l) = Some (tt, Wk) /\
    ping (globals Wk) = Z.of_nat k mod 2 /\
    checked env w h Wk Wc /\
    render env w h Wk = Some (tt, W') /\
    log W' = rev (copy_calls w h (globals Wc)
                  ++ blur_calls (globals Wc) (Z.of_nat k mod 2)
                                             (1 - Z.of_nat k mod 2)
                  ++ draw_calls w h (globals Wc) (Z.of_nat k mod 2))
             ++ log Wc /\
    ping (globals W') = 1 - ping (globals Wk) /\
    ping (globals W') = Z.of_nat (S k) mod 2 /\
    Z.of_nat k mod 2 <> 1 - Z.of_nat k mod 2.
Proof.
  assert (Hp0 : ping_ok (globals (start o l))) by (left; reflexivity).
  destruct (frames_ping env w h k (start o l) Hp0) as (Wk & Hf & Hpk & Hv & _).
  change (ping (globals (start o l))) with 0 in Hv. rewrite Z.add_0_l in Hv.
  destruct (render_spec env w h Wk Hpk) as (Wc & Hc & Hping & _ & Hr).
  exists Wk, Wc. eexists.
  split; [exact Hf|]. split; [exact Hv|]. split; [exact Hc|].
  split; [exact Hr|]. cbn [log globals].
  split; [rewrite Hv; reflexivity|].
  split; [reflexivity|].
  split.
  - unfold set_ping. cbn [ping]. rewrite Hv, Nat2Z.inj_succ.
    pose proof (Z.mod_pos_bound (Z.of_nat k) 2 ltac:(lia)) as Hb.
    replace (Z.succ (Z.of_nat k)) with (Z.of_nat k + 1) by lia.
    rewrite (Z.add_mod (Z.of_nat k) 1 2) by lia.
    set (r := Z.of_nat k mod 2) in *.
    assert (Hr2 : r = 0 \/ r = 1) by lia.
    destruct Hr2 as [-> | ->]; reflexivity.
  - lia.
Qed.

(** *** Re-initialisation on a size change *)

(** C3, as the code behaves. After a frame at one size that left a raw
    texture, a frame at another size runs exactly one re-initialisation:
    the five release calls, then a setup with no release in it that
    generates three textures and three framebuffers and allocates three
    images of the new internal resolution; the frame that follows neither
    allocates nor releases. The ping index is not reset: the size check
    leaves it as the first frame left it, and the blur pass of the second
    frame writes that slot. *)
Theorem C3_resize_reinitialises_once env w1 h1 w2 h2 W0 W1 :
  ping_ok (globals W0) ->
  render env w1 h1 W0 = Some (tt, W1) ->
  rawTex (globals W1) <> 0 ->
  w2 <> w1 \/ h2 <> h1 ->
  exists Wc W2 setup,
    initGL env w2 h2 W1 = Some (tt, Wc) /\
    render env w2 h2 W1 = Some (tt, W2) /\
    log Wc = setup ++ rev (release_calls (globals W1)) ++ log W1 /\
    count is_release setup = 0%nat /\
    count is_gen_texture setup = 3%nat /\
    count is_gen_framebuffer setup = 3%nat /\
    count (is_tex_image (scaled w2) (scaled h2)) setup = 3%nat /\
    log W2 = rev (frame_calls w2 h2 (globals Wc) (ping (globals W1))
                    (1 - ping (globals W1))) ++ log Wc /\
    count is_alloc (since Wc W2) = 0%nat /\
    count is_release (since Wc W2) = 0%nat /\
    sW (globals Wc) = w2 /\ sH (globals Wc) = h2 /\
    ping (globals Wc) = ping (globals W1).
Proof.
  intros Hp0 Hr1 Hraw Hne.
  destruct (render_stores_size env w1 h1 W0 W1 Hp0 Hr1)
    as (Hw1 & Hh1 & Hp1 & _ & _).
  assert (Hch : size_changed (globals W1) w2 h2 = true).
  { apply size_changed_resize. rewrite Hw1, Hh1. exact Hne. }
  destruct (render_spec env w2 h2 W1 Hp1) as (Wc & Hc & Hping & _ & Hr2).
  unfold checked in Hc. rewrite Hch in Hc.
  destruct (initGL_spec env w2 h2 W1) as (Wi & setup & Hi & Hpost).
  rewrite Hi in Hc. injection Hc as <-.
  destruct Hpost as (Hlog & _ & _ & Hw & Hh & _ & _ & Hrel & Hgt & Hgf & Hti & _).
  apply Z.eqb_neq in Hraw. rewrite Hraw in Hlog.
  exists Wi. eexists. exists setup.
  split; [exact Hi|]. split; [exact Hr2|].
  split; [exact Hlog|].
  repeat (split; [assumption|]).
  cbn [log].
  split; [reflexivity|].
  erewrite since_app by (cbn [log]; reflexivity).
  rewrite !count_rev.
  destruct (frame_calls_counts w2 h2 (globals Wi) (ping (globals W1))
              (1 - ping (globals W1))) as (Ha & Hr & _).
  auto.
Qed.

(** C5. Idempotence at a steady size: from a state that has buffers and
    whose stored size is the incoming one, any number of frames at that
    size runs without a single allocation or release call, and leaves
    every object name as it was. *)
Theorem C5_steady_size_allocates_nothing env w h W (n : nat) :
  rawTex (globals W) <> 0 ->
  sW (globals W) = w -> sH (globals W) = h ->
  ping_ok (globals W) ->
  exists W',
    frames env w h n W = Some (tt, W') /\
    count is_alloc (log W') = count is_alloc (log W) /\
    count is_release (log W') = count is_release (log W) /\
    rawTex (globals W') = rawTex (globals W) /\
    rawFBO (globals W') = rawFBO (globals W) /\
    histTex (globals W') = histTex (globals W) /\
    histFBO (globals W') = histFBO (globals W) /\
    sW (globals W') = w /\ sH (globals W') = h /\
    ping_ok (globals W').
Proof.
  intros Hraw Hw Hh Hp. induction n as [| n IH].
  - exists W. cbn [frames]. unfold ret. repeat split; auto.
  - destruct IH as (Wn & Hf & Ha & Hr & HrT & HrF & HhT & HhF & Hwn & Hhn & Hpn).
    assert (Hst : size_changed (globals Wn) w h = false).
    { apply size_changed_steady; congruence. }
    destruct (render_spec env w h Wn Hpn) as (Wc & Hc & _ & _ & Hrun).
    unfold checked in Hc. rewrite Hst in Hc. subst Wc.
    eexists. cbn [frames]. unfold bind. rewrite Hf, Hrun.
    split; [reflexivity|]. cbn [log globals].
    rewrite !count_app, !count_rev.
    destruct (frame_calls_counts w h (globals Wn) (ping (globals Wn))
                (1 - ping (globals Wn))) as (Ha0 & Hr0 & _).
    rewrite Ha0, Hr0. cbn [Nat.add].
    repeat split; try assumption.
    apply ping_ok_flip; assumption.
Qed.
End MainClaims.

(** ** Running the simple-blend engine *)

Section SimpleBlendProofs.
Import SimpleBlend.

Lemma initResources_spec env w h W :
  exists Wi new,
    initResources env w h W = Some (tt, Wi) /\
    log Wi = new ++ log W /\
    isFirstFrame (globals Wi) = true /\
    pingPongIndex (globals Wi) = pingPongIndex (globals W) /\
    orig_swap (globals Wi) = orig_swap (globals W) /\
    savedWidth (globals Wi) = w /\ savedHeight (globals Wi) = h /\
    internalW (globals Wi) = scaled w /\ internalH (globals Wi) = scaled h.
Proof.
  destruct W as [[rT rF [hT0 hT1] [hF0 hF1] va vb ib bP dP lC lH lF lT
                  pg ff sw sh iw ih og] l].
  destruct env as [gn gloc gint ev pr fc pl sc].
  unfold initResources, bind at 1, get at 1, bind at 1.
  cbn [globals rawTexture].
  destruct (rT =? 0) eqn:E.
  - eexists. eexists. split; [run; reflexivity|].
    split; [cbn; split_log|]. cbn. repeat split; reflexivity.
  - eexists. eexists. split; [run; reflexivity|].
    split; [cbn; split_log|]. cbn. repeat split; reflexivity.
Qed.

(** One call of [render_effect] with the ping-pong index in range. *)
Lemma render_effect_spec env w h W :
  ping_ok (globals W) ->
  exists Wc, checked env w h W Wc /\
    pingPongIndex (globals Wc) = pingPongIndex (globals W) /\
    orig_swap (globals Wc) = orig_swap (globals W) /\
    render_effect env w h W =
      Some (tt,
            {| globals :=
                 set_pingPongIndex (1 - pingPongIndex (globals W))
                   (if isFirstFrame (globals Wc)
                    then set_isFirstFrame false (globals Wc)
                    else globals Wc);
               log := rev (frame_calls w h (globals Wc)
                             (pingPongIndex (globals W))
                             (1 - pingPongIndex (globals W))) ++ log Wc |}).
Proof.
  intros Hp.
  unfold render_effect, checked, bind at 1, get at 1, bind at 1.
  destruct (size_changed (globals W) w h) eqn:E.
  - destruct (initResources_spec env w h W)
      as (Wi & new & Hi & _ & _ & Hping & Horig & _).
    exists Wi. split; [exact Hi|].
    rewrite Hi.
    split; [exact Hping|]. split; [exact Horig|].
    unfold ping_ok in Hp. rewrite <- Hping in *. clear Hi Hping Horig E.
    destruct Wi as [[rT rF [hT0 hT1] [hF0 hF1] va vb ib bP dP lC lH lF lT
                     pg ff sw sh iw ih og] li].
    destruct env as [gn gloc gint ev pr fc pl sc].
    cbn [globals pingPongIndex] in *.
    destruct Hp as [Hp | Hp]; rewrite Hp; destruct ff; run; reflexivity.
  - exists W. split; [reflexivity|]. split; [reflexivity|].
    split; [reflexivity|].
    destruct W as [[rT rF [hT0 hT1] [hF0 hF1] va vb ib bP dP lC lH lF lT
                    pg ff sw sh iw ih og] l].
    destruct env as [gn gloc gint ev pr fc pl sc].
    unfold ping_ok in Hp. cbn [globals pingPongIndex] in *.
    destruct Hp as [Hp | Hp]; rewrite Hp; destruct ff; run; reflexivity.
Qed.
End SimpleBlendProofs.

(** ** The present interceptor *)

Section HookProofs.

(** [hook] of [src/main.cpp] with [orig] set: two queries, a frame when
    the width exceeds 100, then the call through [orig]. *)
Lemma hook_spec env d s W f :
  Main.orig (globals W) = Some f ->
  Main.ping_ok (globals W) ->
  let n := List.length (log W) in
  let w := egl_value env n in
  let h := egl_value env (S n) in
  let Wq := {| globals := globals W;
               log := eglQuerySurface d s EGL_HEIGHT
                      :: eglQuerySurface d s EGL_WIDTH :: log W |} in
  exists Wr,
    (if 100 <? w then Main.render env w h Wq = Some (tt, Wr) else Wr = Wq) /\
    Main.ping_ok (globals Wr) /\
    Main.orig (globals Wr) = Some f /\
    (exists new, log Wr = new ++ log Wq /\
                 (100 < w -> (21 <= List.length new)%nat) /\
                 (w <= 100 -> new = [])) /\
    Main.hook env d s W =
      Some (present_result env (List.length (log Wr)),
            {| globals := globals Wr;
               log := call_original f d s :: log Wr |}).
Proof.
  intros Ho Hp n w h Wq.
  unfold Main.hook, bind, ask, get. cbn [globals log]. fold n. fold w.
  change (egl_value env (List.length (eglQuerySurface d s EGL_WIDTH :: log W)))
    with h.
  fold Wq.
  destruct (100 <? w) eqn:E.
  - assert (Hpq : Main.ping_ok (globals Wq)) by exact Hp.
    destruct (render_spec env w h Wq Hpq) as (Wc & Hc & Hping & Horig & Hr).
    eexists. split; [exact Hr|]. cbn [globals log].
    split; [apply ping_ok_flip; assumption|].
    split; [unfold Main.set_ping; cbn [Main.orig]; rewrite Horig; exact Ho|].
    split.
    + unfold Main.checked in Hc.
      destruct (Main.size_changed (globals Wq) w h).
      * destruct (initGL_spec env w h Wq) as (Wi & setup & Hi & Hlog & _).
        rewrite Hi in Hc. injection Hc as <-.
        rewrite Hlog. rewrite !app_assoc. eexists. split; [reflexivity|].
        split; [|apply Z.ltb_lt in E; lia].
        intros _. rewrite !length_app, length_rev.
        destruct (frame_calls_counts w h (globals Wi) (Main.ping (globals Wq))
                    (1 - Main.ping (globals Wq))) as (_ & _ & _ & ->).
        lia.
      * subst Wc. eexists. split; [reflexivity|].
        split; [|apply Z.ltb_lt in E; lia].
        intros _. rewrite length_rev.
        destruct (frame_calls_counts w h (globals Wq) (Main.ping (globals Wq))
                    (1 - Main.ping (globals Wq))) as (_ & _ & _ & ->).
        lia.
    + assert (Hof : Main.orig (globals Wc) = Some f)
        by (rewrite Horig; exact Ho).
      rewrite Hr. unfold Main.set_ping. cbn [globals Main.orig].
      rewrite Hof. reflexivity.
  - exists Wq. split; [reflexivity|]. split; [exact Hp|].
    split; [exact Ho|].
    split.
    + exists []. split; [reflexivity|]. split; [|reflexivity].
      apply Z.ltb_ge in E. lia.
    + unfold ret. subst Wq. cbn [globals log]. rewrite Ho. reflexivity.
Qed.

(** The same for [hook_swap] of the simple-blend variant. *)
Lemma hook_swap_spec env d s W f :
  SimpleBlend.orig_swap (globals W) = Some f ->
  SimpleBlend.ping_ok (globals W) ->
  let n := List.length (log W) in
  let w := egl_value env n in
  let h := egl_value env (S n) in
  let Wq := {| globals := globals W;
               log := eglQuerySurface d s EGL_HEIGHT
                      :: eglQuerySurface d s EGL_WIDTH :: log W |} in
  exists Wr,
    (if 100 <? w then SimpleBlend.render_effect env w h Wq = Some (tt, Wr)
     else Wr = Wq) /\
    SimpleBlend.ping_ok (globals Wr) /\
    SimpleBlend.orig_swap (globals Wr) = Some f /\
    (exists new, log Wr = new ++ log Wq /\
                 (100 < w -> new <> []) /\
                 (w <= 100 -> new = [])) /\
    SimpleBlend.hook_swap env d s W =
      Some (present_result env (List.length (log Wr)),
            {| globals := globals Wr;
               log := call_original f d s :: log Wr |}).
Proof.
  intros Ho Hp n w h Wq.
  unfold SimpleBlend.hook_swap, bind at 1, get at 1.
  rewrite Ho.
  unfold bind, ask. cbn [globals log]. fold n. fold w.
  change (egl_value env (List.length (eglQuerySurface d s EGL_WIDTH :: log W)))
    with h.
  fold Wq.
  destruct (100 <? w) eqn:E.
  - assert (Hpq : SimpleBlend.ping_ok (globals Wq)) by exact Hp.
    destruct (render_effect_spec env w h Wq Hpq)
      as (Wc & Hc & Hping & Horig & Hr).
    eexists. split; [exact Hr|]. cbn [globals log].
    split.
    { unfold SimpleBlend.ping_ok, SimpleBlend.set_pingPongIndex.
      cbn [SimpleBlend.pingPongIndex]. unfold SimpleBlend.ping_ok in Hpq. lia. }
    split.
    { unfold SimpleBlend.set_pingPongIndex. cbn [SimpleBlend.orig_swap].
      destruct (SimpleBlend.isFirstFrame (globals Wc));
        unfold SimpleBlend.set_isFirstFrame; cbn [SimpleBlend.orig_swap];
        rewrite Horig; exact Ho. }
    split.
    + unfold SimpleBlend.checked in Hc.
      assert (Hnew : exists new0, log Wc = new0 ++ log Wq).
      { destruct (SimpleBlend.size_changed (globals Wq) w h).
        - destruct (initResources_spec env w h Wq) as (Wi & new & Hi & Hlog & _).
          rewrite Hi in Hc. injection Hc as <-. eauto.
        - subst Wc. exists []. reflexivity. }
      destruct Hnew as (new0 & ->).
      rewrite app_assoc. eexists. split; [reflexivity|].
      split; [|apply Z.ltb_lt in E; lia].
      intros _ Hnil. apply app_eq_nil in Hnil. destruct Hnil as [Hnil _].
      apply (f_equal (@List.length Event)) in Hnil.
      rewrite length_rev in Hnil. unfold SimpleBlend.frame_calls in Hnil.
      rewrite length_app in Hnil. cbn in Hnil. lia.
    + rewrite Hr. reflexivity.
  - exists Wq. split; [reflexivity|]. split; [exact Hp|].
    split; [exact Ho|].
    split.
    + exists []. split; [reflexivity|]. split; [|reflexivity].
      apply Z.ltb_ge in E. lia.
    + reflexivity.
Qed.

(** C1. Every invocation of the installed interceptor, for any display
    and surface and in both variants, queries the surface's width and
    height, runs the render engine exactly when the width left by the
    query exceeds 100 (otherwise it makes no further call and leaves the
    engine state alone), then calls the function saved in [orig] with the
    display and surface it was given, as its last call, and returns what
    that call returned. *)
Theorem C1_interceptor_forwards env d s f
    (W : Main.World) (W' : SimpleBlend.World) :
  Main.orig (globals W) = Some f -> Main.ping_ok (globals W) ->
  SimpleBlend.orig_swap (globals W') = Some f ->
  SimpleBlend.ping_ok (globals W') ->
  (let w := egl_value env (List.length (log W)) in
   let h := egl_value env (S (List.length (log W))) in
   let Wq := {| globals := globals W;
                log := eglQuerySurface d s EGL_HEIGHT
                       :: eglQuerySurface d s EGL_WIDTH :: log W |} in
   exists Wr new,
     (if 100 <? w then Main.render env w h Wq = Some (tt, Wr) else Wr = Wq) /\
     log Wr = new ++ log Wq /\
     (100 < w <-> new <> []) /\
     Main.hook env d s W =
       Some (present_result env (List.length (log Wr)),
             {| globals := globals Wr;
                log := call_original f d s :: log Wr |}))
  /\
  (let w := egl_value env (List.length (log W')) in
   let h := egl_value env (S (List.length (log W'))) in
   let Wq := {| globals := globals W';
                log := eglQuerySurface d s EGL_HEIGHT
                       :: eglQuerySurface d s EGL_WIDTH :: log W' |} in
   exists Wr new,
     (if 100 <? w then SimpleBlend.render_effect env w h Wq = Some (tt, Wr)
      else Wr = Wq) /\
     log Wr = new ++ log Wq /\
     (100 < w <-> new <> []) /\
     SimpleBlend.hook_swap env d s W' =
       Some (present_result env (List.length (log Wr)),
             {| globals := globals Wr;
                log := call_original f d s :: log Wr |})).
Proof.
  intros Ho Hp Ho' Hp'. split.
  - destruct (hook_spec env d s W f Ho Hp)
      as (Wr & Hrun & _ & _ & (new & Hlog & Hpos & Hneg) & Hhook).
    exists Wr, new.
    split; [assumption|]. split; [assumption|]. split; [|assumption].
    split.
    + intros Hw Hnil. specialize (Hpos Hw). subst new. cbn in Hpos. lia.
    + intros Hnew.
      destruct (Z_lt_le_dec 100 (egl_value env (List.length (log W))))
        as [Hlt | Hle]; [exact Hlt|].
      exfalso. apply Hnew. apply Hneg. exact Hle.
  - destruct (hook_swap_spec env d s W' f Ho' Hp')
      as (Wr & Hrun & _ & _ & (new & Hlog & Hpos & Hneg) & Hhook).
    exists Wr, new.
    split; [assumption|]. split; [assumption|]. split; [|assumption].
    split.
    + exact Hpos.
    + intros Hnew.
      destruct (Z_lt_le_dec 100 (egl_value env (List.length (log W'))))
        as [Hlt | Hle]; [exact Hlt|].
      exfalso. apply Hnew. apply Hneg. exact Hle.
Qed.
End HookProofs.

(** ** The ping index *)

Section PingInvariant.
Import Main.

Lemma reachable_inv env W :
  reachable env W -> ping_ok (globals W) /\ exists f, orig (globals W) = Some f.
Proof.
  induction 1 as [f l | W d s r W' Hreach [Hp [f Ho]] Hhook].
  - split; [left; reflexivity | exists f; reflexivity].
  - destruct (hook_spec env d s W f Ho Hp)
      as (Wr & _ & Hpr & Hor & _ & Hrun).
    rewrite Hrun in Hhook. injection Hhook as _ <-.
    cbn [globals]. eauto.
Qed.

(** C9. [ping] starts at 0 and is 0 or 1 in every state the interceptor
    reaches. There [render] runs to its end for any size, so
    [histFBO[cur]], [histTex[pre]] and [histTex[cur]] are all within the
    two-element arrays and [cur] differs from [pre]; it leaves [ping] at
    [1 - ping]; and [initGL] never writes [ping]. *)
Theorem C9_ping_in_range env W :
  reachable env W ->
  (forall o l, ping (globals (start o l)) = 0) /\
  (ping (globals W) = 0 \/ ping (globals W) = 1) /\
  (forall w h, exists W',
      render env w h W = Some (tt, W') /\
      ping (globals W') = 1 - ping (globals W)) /\
  (forall w h, exists Wi,
      initGL env w h W = Some (tt, Wi) /\
      ping (globals Wi) = ping (globals W)) /\
  (exists fb tp tc,
      arr_get (histFBO (globals W)) (ping (globals W)) = Some fb /\
      arr_get (histTex (globals W)) (1 - ping (globals W)) = Some tp /\
      arr_get (histTex (globals W)) (ping (globals W)) = Some tc) /\
  ping (globals W) <> 1 - ping (globals W).
Proof.
  intros Hreach. destruct (reachable_inv env W Hreach) as [Hp _].
  split; [reflexivity|]. split; [exact Hp|].
  split.
  { intros w h.
    destruct (render_spec env w h W Hp) as (Wc & _ & _ & _ & Hr).
    eexists. split; [exact Hr|]. reflexivity. }
  split.
  { intros w h.
    destruct (initGL_spec env w h W) as (Wi & setup & Hi & _ & Hping & _).
    eauto. }
  split.
  { destruct Hp as [Hp | Hp]; rewrite Hp; do 3 eexists;
      repeat split; reflexivity. }
  destruct Hp as [Hp | Hp]; rewrite Hp; lia.
Qed.
End PingInvariant.

(** ** The first frame of the simple-blend variant *)

Section FirstFrame.
Import SimpleBlend.

Lemma size_unchanged_sb g w h :
  size_changed g w h = false ->
  savedWidth g = w /\ savedHeight g = h /\ rawTexture g <> 0.
Proof.
  unfold size_changed. intros H.
  apply orb_false_iff in H. destruct H as [H Hr].
  apply orb_false_iff in H. destruct H as [Hw Hh].
  apply negb_false_iff in Hw, Hh.
  apply Z.eqb_eq in Hw, Hh. apply Z.eqb_neq in Hr. auto.
Qed.

(** Frames that follow a first frame at its size, with buffers in
    place: none re-initialises, and each runs the blend program. *)
Lemma blend_frames env w h W (n : nat) :
  ping_ok (globals W) ->
  size_changed (globals W) w h = false ->
  isFirstFrame (globals W) = false ->
  exists Wn W',
    frames env w h n W = Some (tt, Wn) /\
    ping_ok (globals Wn) /\
    size_changed (globals Wn) w h = false /\
    isFirstFrame (globals Wn) = false /\
    render_effect env w h Wn = Some (tt, W') /\
    log W' = rev (copy_calls w h (globals Wn)
                  ++ blend_calls (globals Wn) (pingPongIndex (globals Wn))
                                 (1 - pingPongIndex (globals Wn))
                  ++ output_calls w h (globals Wn) (pingPongIndex (globals Wn)))
             ++ log Wn /\
    isFirstFrame (globals W') = false.
Proof.
  intros Hp Hs Hf.
  assert (Hstep : forall V, ping_ok (globals V) ->
            size_changed (globals V) w h = false ->
            isFirstFrame (globals V) = false ->
            exists V', render_effect env w h V = Some (tt, V') /\
              ping_ok (globals V') /\
              size_changed (globals V') w h = false /\
              isFirstFrame (globals V') = false /\
              log V' = rev (copy_calls w h (globals V)
                  ++ blend_calls (globals V) (pingPongIndex (globals V))
                                 (1 - pingPongIndex (globals V))
                  ++ output_calls w h (globals V) (pingPongIndex (globals V)))
             ++ log V).
  { intros V HpV HsV HfV.
    destruct (render_effect_spec env w h V HpV) as (Vc & Hc & _ & _ & Hr).
    unfold checked in Hc. rewrite HsV in Hc. subst Vc.
    rewrite HfV in Hr. unfold frame_calls in Hr. rewrite HfV in Hr.
    eexists. split; [exact Hr|]. cbn [globals log].
    split.
    { unfold ping_ok, set_pingPongIndex in *. cbn [pingPongIndex]. lia. }
    split; [exact HsV|]. split; [exact HfV|]. reflexivity. }
  induction n as [| n IH].
  - destruct (Hstep W Hp Hs Hf) as (W' & Hr & _ & _ & Hf' & Hlog).
    exists W, W'. cbn [frames]. unfold ret. repeat split; assumption.
  - destruct IH as (Wn & W1 & Hfr & Hpn & Hsn & Hfn & Hr & Hlog & Hf1).
    destruct (Hstep Wn Hpn Hsn Hfn) as (V1 & Hr1 & Hp1 & Hs1 & Hfl1 & _).
    rewrite Hr in Hr1. injection Hr1 as <-.
    destruct (Hstep W1 Hp1 Hs1 Hfl1) as (W2 & Hr2 & _ & _ & Hf2 & Hlog2).
    exists W1, W2. cbn [frames]. unfold bind. rewrite Hfr, Hr.
    repeat split; assumption.
Qed.

(** C10, the claim as stated fails: that every later call at that size
    uses the blend program needs the raw texture to have got a name.
    With a driver that names every object 0, the frame after the first
    one at 1920x1080 finds [rawTexture == 0], sets everything up again
    (three textures generated) and is a first frame once more: it uploads
    no blend factor, and the flag was cleared in between. *)
Lemma C10_counterexample :
  exists W1 W2,
    render_effect (driver_unnamed 1920 1080) 1920 1080 (start None [])
    = Some (tt, W1) /\
    isFirstFrame (globals W1) = false /\
    savedWidth (globals W1) = 1920 /\ savedHeight (globals W1) = 1080 /\
    render_effect (driver_unnamed 1920 1080) 1920 1080 W1 = Some (tt, W2) /\
    count is_gen_texture (since W1 W2) = 3%nat /\
    count is_float_upload (since W1 W2) = 0%nat.
Proof.
  eexists. eexists.
  split; [lazy; reflexivity|].
  split; [reflexivity|]. split; [reflexivity|]. split; [reflexivity|].
  split; [lazy; reflexivity|].
  split; vm_compute; reflexivity.
Qed.

(** C10. In the simple-blend variant [initResources] sets the
    first-frame flag. The call of [render_effect] that re-initialises
    then draws the raw frame into the current history slot with the plain
    draw program - the blend program is not used and no history texture
    is bound for reading - and clears the flag. Every later call at that
    size, as long as the raw texture exists so that none re-initialises,
    runs the blend program over the raw frame and the previous history
    slot and leaves the flag cleared. *)
Theorem C10_first_frame_bypasses_blend env w h W :
  ping_ok (globals W) ->
  size_changed (globals W) w h = true ->
  exists Wc W1,
    initResources env w h W = Some (tt, Wc) /\
    isFirstFrame (globals Wc) = true /\
    render_effect env w h W = Some (tt, W1) /\
    log W1 = rev (copy_calls w h (globals Wc)
                  ++ first_frame_calls (globals Wc) (pingPongIndex (globals W))
                  ++ output_calls w h (globals Wc) (pingPongIndex (globals W)))
             ++ log Wc /\
    isFirstFrame (globals W1) = false /\
    (rawTexture (globals W1) <> 0 ->
     forall n : nat, exists Wn W',
       frames env w h n W1 = Some (tt, Wn) /\
       isFirstFrame (globals Wn) = false /\
       render_effect env w h Wn = Some (tt, W') /\
       log W' = rev (copy_calls w h (globals Wn)
                     ++ blend_calls (globals Wn) (pingPongIndex (globals Wn))
                                    (1 - pingPongIndex (globals Wn))
                     ++ output_calls w h (globals Wn) (pingPongIndex (globals Wn)))
                ++ log Wn /\
       isFirstFrame (globals W') = false).
Proof.
  intros Hp Hs.
  destruct (render_effect_spec env w h W Hp) as (Wc & Hc & Hping & _ & Hr).
  unfold checked in Hc. rewrite Hs in Hc.
  destruct (initResources_spec env w h W)
    as (Wi & new & Hi & _ & Hff & _ & _ & Hsw & Hsh & _).
  rewrite Hi in Hc. injection Hc as <-.
  rewrite Hff in Hr. unfold frame_calls in Hr. rewrite Hff in Hr.
  exists Wi. eexists.
  split; [exact Hi|]. split; [exact Hff|]. split; [exact Hr|].
  cbn [log globals].
  split; [reflexivity|]. split; [reflexivity|].
  intros Hraw n.
  match goal with
  | |- context [frames env w h n ?V] =>
      destruct (blend_frames env w h V n) as (Wn & W' & H1 & _ & _ & H2 & H3 & H4 & H5)
  end.
  - unfold ping_ok, set_pingPongIndex in *. cbn [globals pingPongIndex]. lia.
  - unfold size_changed, set_pingPongIndex, set_isFirstFrame in *.
    cbn [globals savedWidth savedHeight rawTexture] in *.
    rewrite Hsw, Hsh, !Z.eqb_refl. cbn. apply Z.eqb_neq. exact Hraw.
  - reflexivity.
  - exists Wn, W'. repeat split; assumption.
Qed.
End FirstFrame.

(** ** The internal resolution after (re)initialisation *)

(** Above 2^24 the conversion to [float] rounds, and the result is no
    longer the floor of the half. *)
Example scaled_rounds_above_2p24 :
  scaled 16777219 = 8388610 /\ 16777219 / 2 = 8388609.
Proof. split; reflexivity. Qed.

(** Negative sizes are truncated toward zero, not floored. *)
Example scaled_negative : scaled (-3) = -1 /\ -3 / 2 = -2.
Proof. split; reflexivity. Qed.

(** C4, the claim as stated fails: a surface 200 wide and 1 high passes the
    width test of the interceptor, and [initGL] leaves an internal height
    of 0. Nothing clamps it. *)
Lemma C4_counterexample :
  exists Wi,
    Main.initGL (driver 200 1) 200 1 (Main.start None []) = Some (tt, Wi) /\
    100 < 200 /\
    Main.iW (globals Wi) = 100 /\
    Main.iH (globals Wi) = 0 /\
    ~ (1 <= Main.iH (globals Wi)).
Proof.
  eexists. split; [lazy; reflexivity|].
  cbn [globals Main.iW Main.iH]. repeat split; try reflexivity. lia.
Qed.

(** C4, as the code behaves. For a width above 100 and a height that is
    not negative, both below 2^24, [initGL] sets the internal width and
    height to the floors of half the width and half the height. The
    internal width is then at least 1 (at least 50); the internal height is
    at least 1 exactly when the height is at least 2. *)
Theorem C4_internal_resolution env w h W :
  100 < w < 2 ^ 24 -> 0 <= h < 2 ^ 24 ->
  exists Wi,
    Main.initGL env w h W = Some (tt, Wi) /\
    Main.iW (globals Wi) = w / 2 /\
    Main.iH (globals Wi) = h / 2 /\
    1 <= Main.iW (globals Wi) /\
    (1 <= Main.iH (globals Wi) <-> 2 <= h).
Proof.
  intros Hw Hh.
  destruct (initGL_spec env w h W)
    as (Wi & setup & Hi & _ & _ & _ & _ & _ & HiW & HiH & _).
  exists Wi. split; [exact Hi|].
  rewrite HiW, HiH, !scaled_floor by lia.
  repeat split; try lia.
  - apply Z.div_le_lower_bound; lia.
  - intros H1. destruct (Z_lt_le_dec h 2) as [Hlt | Hge]; [|exact Hge].
    rewrite Z.div_small in H1 by lia. lia.
  - intros H2. apply Z.div_le_lower_bound; lia.
Qed.

Lemma C4_internal_resolution_witness :
  100 < 1920 < 2 ^ 24 /\ 0 <= 1080 < 2 ^ 24 /\
  exists Wi,
    Main.initGL (driver 1920 1080) 1920 1080 (Main.start None []) = Some (tt, Wi) /\
    Main.iW (globals Wi) = 960 /\ Main.iH (globals Wi) = 540.
Proof.
  assert (Hw : 100 < 1920 < 2 ^ 24) by (split; reflexivity).
  assert (Hh : 0 <= 1080 < 2 ^ 24) by (split; [discriminate | reflexivity]).
  split; [exact Hw|]. split; [exact Hh|].
  destruct (C4_internal_resolution (driver 1920 1080) 1920 1080
              (Main.start None []) Hw Hh) as (Wi & Hi & HiW & HiH & _).
  exists Wi. split; [exact Hi|]. split; [exact HiW | exact HiH].
Defined.

(** ** The size change, on a concrete run *)

(** C3, the claim as stated fails on the reset: a first frame at
    1920x1080 from the initial state, then a frame at 1280x720. The size
    check of the second frame re-initialises and leaves [ping] at 1, the
    blur pass of that frame writes [histFBO[1]], and [ping] ends at 0. *)
Lemma C3_counterexample :
  exists W1 Wc W2,
    Main.render (driver 1920 1080) 1920 1080 (Main.start None []) = Some (tt, W1) /\
    (1280, 720) <> (1920, 1080) /\
    Main.initGL (driver 1920 1080) 1280 720 W1 = Some (tt, Wc) /\
    Main.ping (globals Wc) = 1 /\
    Main.ping (globals Wc) <> 0 /\
    Main.render (driver 1920 1080) 1280 720 W1 = Some (tt, W2) /\
    In (glBindFramebuffer GL_FRAMEBUFFER (snd (Main.histFBO (globals Wc))))
       (since Wc W2) /\
    ~ In (glBindFramebuffer GL_FRAMEBUFFER (fst (Main.histFBO (globals Wc))))
         (since Wc W2) /\
    Main.ping (globals W2) = 0.
Proof.
  eexists. eexists. eexists.
  split; [lazy; reflexivity|].
  split; [discriminate|].
  split; [lazy; reflexivity|].
  split; [reflexivity|].
  split; [discriminate|].
  split; [lazy; reflexivity|].
  split; [lazy; tauto|].
  split; [|reflexivity].
  lazy. intros H.
  repeat match type of H with
         | _ \/ _ => destruct H as [H | H]; [discriminate H|]
         end.
  exact H.
Qed.

Lemma C3_resize_reinitialises_once_witness :
  exists W1 Wc W2,
    Main.render (driver 1920 1080) 1920 1080 (Main.start None []) = Some (tt, W1) /\
    Main.rawTex (globals W1) <> 0 /\
    Main.initGL (driver 1920 1080) 1280 720 W1 = Some (tt, Wc) /\
    Main.render (driver 1920 1080) 1280 720 W1 = Some (tt, W2) /\
    Main.ping (globals Wc) = Main.ping (globals W1).
Proof.
  assert (H1 : exists W1,
             Main.render (driver 1920 1080) 1920 1080 (Main.start None [])
             = Some (tt, W1) /\ Main.rawTex (globals W1) <> 0).
  { eexists. split; [lazy; reflexivity | lazy; discriminate]. }
  destruct H1 as (W1 & H1 & Hraw).
  destruct (C3_resize_reinitialises_once (driver 1920 1080)
              1920 1080 1280 720 (Main.start None []) W1
              (or_introl eq_refl) H1 Hraw
              (or_introl (fun H : 1280 = 1920 => ltac:(discriminate H))))
    as (Wc & W2 & setup & Hi & Hr & Hrest).
  exists W1, Wc, W2.
  split; [exact H1|]. split; [exact Hraw|]. split; [exact Hi|].
  split; [exact Hr|].
  apply Hrest.
Defined.

(** ** Failures the driver reports only on request *)

Section StatusBlind.
Import Main.










End StatusBlind.

(** ** The output shader on a flat image *)

Section Sharpening.
Import Shader.
Local Open Scope R_scope.

Lemma clamp_bounds x lo hi : lo <= hi -> lo <= clamp x lo hi <= hi.
Proof.
  intros H. unfold clamp, Rmin, Rmax.
  destruct (Rle_dec x lo); destruct (Rle_dec _ hi); lra.
Qed.

Lemma sqrt_unit x : 0 <= x <= 1 -> 0 <= sqrt x <= 1.
Proof.
  intros [H0 H1]. split; [apply sqrt_pos|].
  rewrite <- sqrt_1. apply sqrt_le_1; lra.
Qed.

(** In exact arithmetic, with the five lumas equal the sharpened luma is
    that luma: the divisor [1 + 4*peak] lies between 0.25 and 0.5
    whatever the contrast term. The shader rounds every operation, and
    then this is no longer so; see the rounded transcription below. *)
Lemma sharp_luma_flat l : sharp_luma l l l l l = l.
Proof.
  unfold sharp_luma.
  set (amt := sqrt _).
  assert (Ha : 0 <= amt <= 1).
  { apply sqrt_unit.
    match goal with
    | |- _ <= clamp ?x ?a ?b <= _ => pose proof (clamp_bounds x a b)
    end. lra. }
  unfold mix.
  assert (Hm : 5.36 <= 8.0 * (1 - amt * 0.88) + 5.0 * (amt * 0.88) <= 8) by lra.
  set (m := 8.0 * (1 - amt * 0.88) + 5.0 * (amt * 0.88)) in *.
  clearbody m. clear Ha amt.
  replace 1.0 with 1 by lra. replace 4.0 with 4 by lra.
  field. repeat split; lra.
Qed.
End Sharpening.

(** ** Sharpening a flat image in rounded arithmetic *)

Section RoundedSharpening.
Import Rounded.








End RoundedSharpening.

(** ** Concrete runs of the statements above *)

Lemma C5_steady_size_allocates_nothing_witness :
  Main.rawTex (globals steady_1080p) <> 0 /\
  Main.sW (globals steady_1080p) = 1920 /\
  Main.sH (globals steady_1080p) = 1080 /\
  Main.ping_ok (globals steady_1080p) /\
  exists W',
    Main.frames (driver 1920 1080) 1920 1080 3 steady_1080p = Some (tt, W') /\
    count is_alloc (log W') = 0%nat.
Proof.
  assert (Hraw : Main.rawTex (globals steady_1080p) <> 0) by discriminate.
  assert (Hp : Main.ping_ok (globals steady_1080p)) by (left; reflexivity).
  split; [exact Hraw|]. split; [reflexivity|]. split; [reflexivity|].
  split; [exact Hp|].
  destruct (C5_steady_size_allocates_nothing (driver 1920 1080) 1920 1080
              steady_1080p 3 Hraw eq_refl eq_refl Hp) as (W' & Hf & Ha & _).
  exists W'. split; [exact Hf | exact Ha].
Defined.

Lemma C1_interceptor_forwards_witness :
  Main.orig (globals (Main.start (Some 7) [])) = Some 7 /\
  Main.ping_ok (globals (Main.start (Some 7) [])) /\
  SimpleBlend.orig_swap (globals (SimpleBlend.start (Some 7) [])) = Some 7 /\
  SimpleBlend.ping_ok (globals (SimpleBlend.start (Some 7) [])) /\
  (exists Wr,
      Main.hook (driver 1920 1080) 1 2 (Main.start (Some 7) []) =
        Some (1, {| globals := globals Wr;
                    log := call_original 7 1 2 :: log Wr |})) /\
  (exists Wr,
      SimpleBlend.hook_swap (driver 1920 1080) 1 2 (SimpleBlend.start (Some 7) []) =
        Some (1, {| globals := globals Wr;
                    log := call_original 7 1 2 :: log Wr |})).
Proof.
  split; [reflexivity|]. split; [left; reflexivity|].
  split; [reflexivity|]. split; [left; reflexivity|].
  destruct (C1_interceptor_forwards (driver 1920 1080) 1 2 7
              (Main.start (Some 7) []) (SimpleBlend.start (Some 7) [])
              eq_refl (or_introl eq_refl) eq_refl (or_introl eq_refl))
    as [(Wr & new & _ & _ & _ & Hh) (Wr' & new' & _ & _ & _ & Hh')].
  split; [exists Wr; exact Hh | exists Wr'; exact Hh'].
Defined.

Lemma C9_ping_in_range_witness :
  exists r W1,
    Main.hook (driver 1920 1080) 1 2 (Main.start (Some 7) []) = Some (r, W1) /\
    Main.reachable (driver 1920 1080) W1 /\
    Main.ping (globals W1) = 1 /\
    exists W2,
      Main.render (driver 1920 1080) 1920 1080 W1 = Some (tt, W2) /\
      Main.ping (globals W2) = 0.
Proof.
  destruct (Main.hook (driver 1920 1080) 1 2 (Main.start (Some 7) []))
    as [[r W1] |] eqn:E; [|lazy in E; discriminate].
  exists r, W1. split; [reflexivity|].
  assert (Hreach : Main.reachable (driver 1920 1080) W1).
  { eapply Main.reach_hook; [apply Main.reach_start | exact E]. }
  assert (H1 : Main.ping (globals W1) = 1).
  { lazy in E. injection E as _ <-. reflexivity. }
  split; [exact Hreach|]. split; [exact H1|].
  destruct (C9_ping_in_range (driver 1920 1080) W1 Hreach)
    as (_ & _ & Hrender & _).
  destruct (Hrender 1920 1080) as (W2 & Hr & Hping).
  exists W2. split; [exact Hr|]. rewrite Hping, H1. reflexivity.
Defined.

Lemma C10_first_frame_bypasses_blend_witness :
  SimpleBlend.ping_ok (globals (SimpleBlend.start None [])) /\
  SimpleBlend.size_changed (globals (SimpleBlend.start None [])) 1920 1080 = true /\
  exists Wc W1 Wn W',
    SimpleBlend.initResources (driver 1920 1080) 1920 1080 (SimpleBlend.start None [])
    = Some (tt, Wc) /\
    SimpleBlend.isFirstFrame (globals Wc) = true /\
    SimpleBlend.render_effect (driver 1920 1080) 1920 1080 (SimpleBlend.start None [])
    = Some (tt, W1) /\
    SimpleBlend.isFirstFrame (globals W1) = false /\
    SimpleBlend.rawTexture (globals W1) <> 0 /\
    SimpleBlend.frames (driver 1920 1080) 1920 1080 2 W1 = Some (tt, Wn) /\
    SimpleBlend.render_effect (driver 1920 1080) 1920 1080 Wn = Some (tt, W') /\
    count is_float_upload (since Wn W') = 1%nat /\
    SimpleBlend.isFirstFrame (globals W') = false.
Proof.
  split; [left; reflexivity|]. split; [reflexivity|].
  destruct (C10_first_frame_bypasses_blend (driver 1920 1080) 1920 1080
              (SimpleBlend.start None []) (or_introl eq_refl) eq_refl)
    as (Wc & W1 & Hi & Hf & Hr & _ & Hf1 & Hlater).
  assert (Hraw : SimpleBlend.rawTexture (globals W1) <> 0).
  { pose proof Hr as Hr'. lazy in Hr'. injection Hr' as <-.
    cbn [globals SimpleBlend.rawTexture]. discriminate. }
  destruct (Hlater Hraw 2%nat) as (Wn & W' & Hfr & _ & Hr2 & Hlog & Hf').
  exists Wc, W1, Wn, W'.
  repeat (split; [assumption|]).
  split; [|exact Hf'].
  erewrite since_app by exact Hlog.
  rewrite count_rev, !count_app. reflexivity.
Defined.

(** * Further properties of the code *)

(** ** The shaders *)

Section ShaderProperties.
Import Shader.
Local Open Scope R_scope.

Lemma clamp_low x lo hi : lo <= hi -> x <= lo -> clamp x lo hi = lo.
Proof.
  intros H Hx. unfold clamp, Rmin, Rmax.
  destruct (Rle_dec x lo); destruct (Rle_dec _ hi); lra.
Qed.


Lemma smoothstep_low e0 e1 x : e0 < e1 -> x <= e0 -> smoothstep e0 e1 x = 0.
Proof.
  intros He Hx. unfold smoothstep.
  rewrite clamp_low; [ring | lra |].
  assert (Hi : 0 < / (e1 - e0)) by (apply Rinv_0_lt_compat; lra).
  unfold Rdiv. nra.
Qed.


Lemma smoothstep_unit e0 e1 x : 0 <= smoothstep e0 e1 x <= 1.
Proof.
  unfold smoothstep.
  pose proof (clamp_bounds ((x - e0) / (e1 - e0)) 0 1 ltac:(lra)) as Ht.
  set (t := clamp _ 0 1) in *. clearbody t.
  assert (H0 : 0 <= t * t * (3 - 2 * t)) by (apply Rmult_le_pos; nra).
  assert (H1 : 0 <= (1 - t) * (1 - t) * (1 + 2 * t))
    by (apply Rmult_le_pos; nra).
  replace (t * t * (3 - 2 * t))
    with (1 - (1 - t) * (1 - t) * (1 + 2 * t)) in * by ring.
  lra.
Qed.

Lemma mix4_zero x y : mix4 x y 0 = x.
Proof.
  destruct x as [[r g b] a]. unfold mix4, mix3, mix. cbn.
  f_equal; [f_equal|]; ring.
Qed.

(** Anchor protection of [frag_blur]: within 0.01 of the screen centre
    the output is the current frame's texel, whatever the history holds. *)
Theorem X_center_is_never_blurred (c h : sampler2D) (v : vec2) :
  distance v {| vx := 0.5; vy := 0.5 |} <= 0.01 ->
  frag_blur c h v = texture c v.
Proof.
  intros Hd. unfold frag_blur, center_mask.
  rewrite smoothstep_low by lra. apply mix4_zero.
Qed.

Lemma X_center_is_never_blurred_witness :
  distance {| vx := 0.5; vy := 0.5 |} {| vx := 0.5; vy := 0.5 |} <= 0.01 /\
  frag_blur (flat_image grey)
            (flat_image {| rgb := {| red := 1; green := 0; blue := 0 |};
                           alpha := 1 |})
            {| vx := 0.5; vy := 0.5 |}
  = grey.
Proof.
  assert (H : distance {| vx := 0.5; vy := 0.5 |} {| vx := 0.5; vy := 0.5 |}
              <= 0.01).
  { unfold distance. cbn [vx vy].
    replace ((0.5 - 0.5) * (0.5 - 0.5) + (0.5 - 0.5) * (0.5 - 0.5)) with 0
      by ring.
    rewrite sqrt_0. lra. }
  split; [exact H|].
  exact (X_center_is_never_blurred (flat_image grey) _ _ H).
Defined.




Lemma mix_within lo hi x y a :
  0 <= a <= 1 -> lo <= x <= hi -> lo <= y <= hi -> lo <= mix x y a <= hi.
Proof. intros Ha Hx Hy. unfold mix. nra. Qed.

(** A channel-wise bound on a colour. *)
Lemma mix4_within lo hi x y a :
  0 <= a <= 1 ->
  (lo <= red (rgb x) <= hi /\ lo <= green (rgb x) <= hi /\
   lo <= blue (rgb x) <= hi /\ lo <= alpha x <= hi) ->
  (lo <= red (rgb y) <= hi /\ lo <= green (rgb y) <= hi /\
   lo <= blue (rgb y) <= hi /\ lo <= alpha y <= hi) ->
  lo <= red (rgb (mix4 x y a)) <= hi /\ lo <= green (rgb (mix4 x y a)) <= hi /\
  lo <= blue (rgb (mix4 x y a)) <= hi /\ lo <= alpha (mix4 x y a) <= hi.
Proof.
  intros Ha (Hr & Hg & Hb & Hal) (Hr' & Hg' & Hb' & Hal').
  unfold mix4, mix3. cbn [rgb red green blue alpha].
  split; [|split; [|split]]; apply mix_within; tauto.
Qed.

(** The output pass always writes an opaque pixel with every colour
    component within [0, 1], for any input texture. *)
Theorem X_frag_draw_opaque_and_in_range (t : sampler2D) (v : vec2) :
  alpha (frag_draw t v) = 1 /\
  0 <= red (rgb (frag_draw t v)) <= 1 /\
  0 <= green (rgb (frag_draw t v)) <= 1 /\
  0 <= blue (rgb (frag_draw t v)) <= 1.
Proof.
  unfold frag_draw, tonemap, aces. cbn [alpha rgb red green blue].
  split; [lra|].
  split; [|split];
    match goal with
    | |- context [clamp ?x ?a ?b] => pose proof (clamp_bounds x a b)
    end; lra.
Qed.


End ShaderProperties.

(** ** The engine of [src/main.cpp] *)

Section EngineProperties.
Import Main.

(** The shape of the calls of [initGL]: nothing but GL calls; each of
    the three framebuffers gets the texture of its own slot; and the
    last six calls clear both history targets to opaque black. *)
Lemma initGL_shape env w h W :
  exists Wi new,
    initGL env w h W = Some (tt, Wi) /\
    log Wi = new ++ log W /\
    filter is_call_original new = [] /\
    attached (rawFBO (globals Wi)) (rawTex (globals Wi)) new = true /\
    attached (fst (histFBO (globals Wi))) (fst (histTex (globals Wi))) new = true /\
    attached (snd (histFBO (globals Wi))) (snd (histTex (globals Wi))) new = true /\
    firstn 6 new =
      rev [ glBindFramebuffer GL_FRAMEBUFFER (fst (histFBO (globals Wi)));
            glClearColor 0 0 0 1; glClear;
            glBindFramebuffer GL_FRAMEBUFFER (snd (histFBO (globals Wi)));
            glClearColor 0 0 0 1; glClear ].
Proof.
  destruct W as [[rT rF [hT0 hT1] [hF0 hF1] va pB pD pg iw ih sw sh og] l].
  destruct env as [gn gloc gint ev pr fc pl sc].
  unfold initGL, bind at 1, get at 1, bind at 1.
  cbn [globals rawTex].
  destruct (rT =? 0) eqn:E.
  - eexists. eexists. split; [run; reflexivity|].
    split; [cbn; split_log|].
    cbn [globals rawTex rawFBO histTex histFBO fst snd].
    split; [reflexivity|].
    cbn [attached].
    repeat (rewrite ?Z.eqb_refl; cbn [andb orb]; rewrite ?orb_true_r).
    repeat split; reflexivity.
  - eexists. eexists. split; [run; reflexivity|].
    split; [cbn; split_log|].
    cbn [globals rawTex rawFBO histTex histFBO fst snd].
    split; [reflexivity|].
    cbn [attached].
    repeat (rewrite ?Z.eqb_refl; cbn [andb orb]; rewrite ?orb_true_r).
    repeat split; reflexivity.
Qed.

(** [initGL] draws nothing, copies nothing and uploads no uniform. *)
Lemma initGL_draws_nothing env w h W :
  exists Wi new,
    initGL env w h W = Some (tt, Wi) /\
    log Wi = new ++ log W /\
    passes new = [] /\ blits new = [].
Proof.
  destruct W as [[rT rF [hT0 hT1] [hF0 hF1] va pB pD pg iw ih sw sh og] l].
  destruct env as [gn gloc gint ev pr fc pl sc].
  unfold initGL, bind at 1, get at 1, bind at 1.
  cbn [globals rawTex].
  destruct (rT =? 0) eqn:E.
  - eexists. eexists. split; [run; reflexivity|].
    split; [cbn; split_log|]. split; reflexivity.
  - eexists. eexists. split; [run; reflexivity|].
    split; [cbn; split_log|]. split; reflexivity.
Qed.

(** The two passes and the copy of one frame, as its calls set them up. *)
Lemma passes_frame w h g cur pre tail :
  passes (rev (frame_calls w h g cur pre) ++ tail)
  = [ {| pass_target := Some 0;
         pass_viewport := Some (0, 0, w, h);
         pass_program := Some (progDraw g);
         pass_unit0 := Some (slot (histTex g) cur);
         pass_unit1 := Some (slot (histTex g) pre) |};
      {| pass_target := Some (slot (histFBO g) cur);
         pass_viewport := Some (0, 0, iW g, iH g);
         pass_program := Some (progBlur g);
         pass_unit0 := Some (rawTex g);
         pass_unit1 := Some (slot (histTex g) pre) |} ] ++ passes tail.
Proof. reflexivity. Qed.

Lemma blits_frame w h g cur pre tail :
  blits (rev (frame_calls w h g cur pre) ++ tail)
  = [ (Some 0, Some (rawFBO g), (0, 0, w, h), (0, 0, iW g, iH g)) ]
    ++ blits tail.
Proof. reflexivity. Qed.

(** Every (re)initialisation pairs each framebuffer with the texture of
    its own slot - raw with raw, history 0 with history 0, history 1 with
    history 1 - and ends by clearing both history targets to opaque
    black, so the first blur pass never samples uninitialised memory. *)
Theorem X_initGL_pairs_and_clears env w h W :
  exists Wi,
    initGL env w h W = Some (tt, Wi) /\
    attached (rawFBO (globals Wi)) (rawTex (globals Wi)) (since W Wi) = true /\
    attached (fst (histFBO (globals Wi))) (fst (histTex (globals Wi)))
             (since W Wi) = true /\
    attached (snd (histFBO (globals Wi))) (snd (histTex (globals Wi)))
             (since W Wi) = true /\
    firstn 6 (log Wi) =
      rev [ glBindFramebuffer GL_FRAMEBUFFER (fst (histFBO (globals Wi)));
            glClearColor 0 0 0 1; glClear;
            glBindFramebuffer GL_FRAMEBUFFER (snd (histFBO (globals Wi)));
            glClearColor 0 0 0 1; glClear ].
Proof.
  destruct (initGL_shape env w h W)
    as (Wi & new & Hi & Hlog & _ & Ha & Hb & Hc & Hclear).
  exists Wi. split; [exact Hi|].
  rewrite (since_app W Wi new Hlog).
  repeat (split; [assumption|]).
  rewrite Hlog.
  assert (Hlen : (6 <= List.length new)%nat).
  { apply (f_equal (@List.length Event)) in Hclear.
    rewrite length_firstn, length_rev in Hclear.
    cbn [List.length] in Hclear. lia. }
  rewrite firstn_app.
  replace (6 - List.length new)%nat with 0%nat by lia.
  cbn [firstn]. rewrite app_nil_r. exact Hclear.
Qed.

(** [render] hands the default framebuffer back: after every frame the
    draw framebuffer bound is 0 and the viewport is the whole surface,
    whatever the host had bound before. *)
Theorem X_render_leaves_default_framebuffer env w h W :
  ping_ok (globals W) ->
  exists W',
    render env w h W = Some (tt, W') /\
    bound_framebuffer (log W') = Some 0 /\
    current_viewport (log W') = Some (0, 0, w, h).
Proof.
  intros Hp.
  destruct (render_spec env w h W Hp) as (Wc & _ & _ & _ & Hr).
  eexists. split; [exact Hr|]. cbn [log]. split; reflexivity.
Qed.

Lemma X_render_leaves_default_framebuffer_witness :
  ping_ok (globals (start None [])) /\
  exists W',
    render (driver 1920 1080) 1920 1080 (start None []) = Some (tt, W') /\
    bound_framebuffer (log W') = Some 0.
Proof.
  split; [left; reflexivity|].
  destruct (X_render_leaves_default_framebuffer (driver 1920 1080) 1920 1080
              (start None []) (or_introl eq_refl)) as (W' & Hr & Hb & _).
  exists W'. split; [exact Hr | exact Hb].
Defined.

Lemma render_sized env w h W W' :
  ping_ok (globals W) -> sized (globals W) ->
  render env w h W = Some (tt, W') ->
  sized (globals W') /\ sW (globals W') = w /\ sH (globals W') = h /\
  exists new, log W' = rev (frame_calls w h (globals W') (ping (globals W))
                              (1 - ping (globals W))) ++ new ++ log W /\
              filter is_call_original new = [] /\
              passes new = [] /\ blits new = [].
Proof.
  intros Hp Hs Hr.
  destruct (render_spec env w h W Hp) as (Wc & Hc & _ & _ & Hrun).
  rewrite Hrun in Hr. injection Hr as <-. cbn [globals log].
  unfold checked in Hc.
  destruct (size_changed (globals W) w h) eqn:E.
  - destruct (initGL_spec env w h W) as (Wi & setup & Hi & Hpost).
    destruct (initGL_shape env w h W) as (Wi' & new & Hi' & Hlog & Hf & _).
    destruct (initGL_draws_nothing env w h W)
      as (Wi'' & new' & Hi'' & Hlog' & Hpass & Hblit).
    rewrite Hi in Hc, Hi', Hi''.
    injection Hc as <-. injection Hi' as <-. injection Hi'' as <-.
    assert (new' = new) as ->.
    { apply app_inv_tail with (l := log W). rewrite <- Hlog, <- Hlog'.
      reflexivity. }
    destruct Hpost as (_ & _ & _ & Hw & Hh & HiW & HiH & _).
    unfold sized, set_ping. cbn [iW iH sW sH].
    rewrite Hw, Hh. repeat split; try assumption.
    exists new. rewrite Hlog. repeat split; try reflexivity; assumption.
  - subst Wc. apply size_unchanged in E. destruct E as (Hw & Hh & _).
    unfold sized, set_ping in *. cbn [iW iH sW sH].
    repeat split; try tauto.
    exists []. repeat split; reflexivity.
Qed.

Lemma reachable_sized env W : reachable env W -> sized (globals W).
Proof.
  induction 1 as [f l | W d s r W' Hreach IH Hhook].
  - split; reflexivity.
  - destruct (reachable_inv env W Hreach) as [Hp [f Ho]].
    destruct (hook_spec env d s W f Ho Hp)
      as (Wr & Hrun & _ & _ & _ & Hh).
    rewrite Hh in Hhook. injection Hhook as _ <-. cbn [globals].
    destruct (100 <? egl_value env (List.length (log W))).
    + eapply render_sized in Hrun; [tauto | exact Hp | exact IH].
    + subst Wr. exact IH.
Qed.

(** In every state the interceptor reaches, a frame for a surface of
    [w] by [h] makes one copy, of the whole surface from framebuffer 0
    into the raw target at exactly the internal resolution of that size,
    and two draw calls: first the blur pass, which writes history slot
    [ping] with the viewport of the internal resolution, the blur program,
    the raw texture on unit 0 and history slot [1 - ping] on unit 1; then
    the output pass, which writes framebuffer 0 with the viewport of the
    surface, the draw program and history slot [ping] on unit 0. The
    internal resolution stays the scaling of the stored size. *)
Theorem X_frame_geometry env w h W :
  reachable env W ->
  exists W',
    render env w h W = Some (tt, W') /\
    blits (since W W')
    = [ (Some 0, Some (rawFBO (globals W')),
         (0, 0, w, h), (0, 0, scaled w, scaled h)) ] /\
    rev (passes (since W W'))
    = [ {| pass_target := Some (slot (histFBO (globals W')) (ping (globals W)));
           pass_viewport := Some (0, 0, scaled w, scaled h);
           pass_program := Some (progBlur (globals W'));
           pass_unit0 := Some (rawTex (globals W'));
           pass_unit1 :=
             Some (slot (histTex (globals W')) (1 - ping (globals W))) |};
        {| pass_target := Some 0;
           pass_viewport := Some (0, 0, w, h);
           pass_program := Some (progDraw (globals W'));
           pass_unit0 := Some (slot (histTex (globals W')) (ping (globals W)));
           pass_unit1 :=
             Some (slot (histTex (globals W')) (1 - ping (globals W))) |} ] /\
    iW (globals W') = scaled (sW (globals W')) /\
    iH (globals W') = scaled (sH (globals W')) /\
    sW (globals W') = w /\ sH (globals W') = h.
Proof.
  intros Hreach.
  destruct (reachable_inv env W Hreach) as [Hp _].
  pose proof (reachable_sized env W Hreach) as Hs.
  destruct (render_spec env w h W Hp) as (Wc & _ & _ & _ & Hr).
  match type of Hr with
  | _ = Some (tt, ?X) => remember X as W' eqn:HW'
  end.
  clear HW'. exists W'. split; [exact Hr|].
  destruct (render_sized env w h W _ Hp Hs Hr)
    as ((HiW & HiH) & Hw & Hh & new & Hlog & _ & Hpass & Hblit).
  rewrite Hw in HiW. rewrite Hh in HiH.
  erewrite since_app by (rewrite Hlog, app_assoc; reflexivity).
  rewrite blits_frame, passes_frame, Hpass, Hblit, HiW, HiH.
  repeat split; try assumption; try congruence.
Qed.

Lemma X_frame_geometry_witness :
  exists r W1 W2,
    hook (driver 1920 1080) 1 2 (start (Some 7) []) = Some (r, W1) /\
    reachable (driver 1920 1080) W1 /\
    render (driver 1920 1080) 1920 1080 W1 = Some (tt, W2) /\
    blits (since W1 W2)
    = [ (Some 0, Some (rawFBO (globals W2)),
         (0, 0, 1920, 1080), (0, 0, 960, 540)) ].
Proof.
  destruct (hook (driver 1920 1080) 1 2 (start (Some 7) []))
    as [[r W1] |] eqn:E; [|lazy in E; discriminate].
  assert (H : reachable (driver 1920 1080) W1).
  { eapply reach_hook; [apply reach_start | exact E]. }
  destruct (X_frame_geometry (driver 1920 1080) 1920 1080 W1 H)
    as (W2 & Hr & Hb & _).
  exists r, W1, W2. repeat split; assumption.
Defined.
End EngineProperties.

(** ** The interceptor over many presents *)

Section Forwarding.
Import Main.

(** [render] makes GL calls only. *)
Lemma render_calls_gl_only env w h W W' :
  ping_ok (globals W) -> render env w h W = Some (tt, W') ->
  exists new, log W' = new ++ log W /\ filter is_call_original new = [].
Proof.
  intros Hp Hr.
  destruct (render_spec env w h W Hp) as (Wc & Hc & _ & _ & Hrun).
  rewrite Hrun in Hr. injection Hr as <-.
  set (fc := frame_calls w h (globals Wc) (ping (globals W))
               (1 - ping (globals W))).
  assert (Hfc : filter is_call_original (rev fc) = []).
  { rewrite filter_rev. reflexivity. }
  change (exists new, rev fc ++ log Wc = new ++ log W
                      /\ filter is_call_original new = []).
  clearbody fc.
  unfold checked in Hc.
  destruct (size_changed (globals W) w h).
  - destruct (initGL_shape env w h W) as (Wi & new & Hi & Hlog & Hf & _).
    rewrite Hi in Hc. injection Hc as <-.
    exists (rev fc ++ new). rewrite Hlog, app_assoc.
    split; [reflexivity|].
    rewrite filter_app, Hf, Hfc. reflexivity.
  - subst Wc. exists (rev fc). split; [reflexivity | exact Hfc].
Qed.

Lemma presents_forwarded env f ps :
  forall W, orig (globals W) = Some f -> ping_ok (globals W) ->
  exists rs W' new,
    presents env ps W = Some (rs, W') /\
    List.length rs = List.length ps /\
    orig (globals W') = Some f /\
    log W' = new ++ log W /\
    forwarded new = map (fun p => call_original f (fst p) (snd p)) ps.
Proof.
  induction ps as [| [d s] ps IH]; intros W Ho Hp.
  - exists [], W, []. repeat split; assumption.
  - destruct (hook_spec env d s W f Ho Hp)
      as (Wr & Hrun & Hpr & Hor & _ & Hh).
    assert (Hnew : exists new0,
               log Wr = new0 ++ log W /\ filter is_call_original new0 = []).
    { destruct (100 <? egl_value env (List.length (log W))).
      - apply render_calls_gl_only in Hrun; [|exact Hp].
        destruct Hrun as (new0 & Hl & Hf). cbn [log] in Hl.
        exists (new0 ++ [eglQuerySurface d s EGL_HEIGHT;
                         eglQuerySurface d s EGL_WIDTH]).
        rewrite Hl, <- app_assoc. split; [reflexivity|].
        rewrite filter_app, Hf. reflexivity.
      - subst Wr. cbn [log].
        exists [eglQuerySurface d s EGL_HEIGHT; eglQuerySurface d s EGL_WIDTH].
        split; reflexivity. }
    destruct Hnew as (new0 & Hl0 & Hf0).
    match type of Hh with
    | _ = Some (_, ?X) => remember X as W1 eqn:HW1
    end.
    assert (Ho1 : orig (globals W1) = Some f) by (subst W1; exact Hor).
    assert (Hp1 : ping_ok (globals W1)) by (subst W1; exact Hpr).
    destruct (IH W1 Ho1 Hp1) as (rs & W' & new & Hps & Hlen & Ho' & Hl & Hfw).
    eexists. exists W'. eexists.
    cbn [presents]. unfold bind. rewrite Hh, Hps. unfold ret.
    split; [reflexivity|].
    split; [cbn [List.length]; congruence|].
    split; [exact Ho'|].
    split.
    + rewrite Hl, HW1. cbn [log]. rewrite Hl0.
      change (call_original f d s :: new0 ++ log W)
        with ((call_original f d s :: new0) ++ log W).
      rewrite app_assoc. reflexivity.
    + unfold forwarded in *. rewrite filter_app. cbn [filter is_call_original].
      rewrite Hf0, rev_app_distr. cbn [rev app map fst snd].
      rewrite Hfw. reflexivity.
Qed.

(** However many frames the host presents, on whatever surfaces, the
    interceptor of [src/main.cpp] forwards each one exactly once, in the
    order received and with its own display and surface, always to the
    function that was installed; and it returns one result per present. *)
Theorem X_every_present_forwarded_in_order env f l
    (ps : list (EGLDisplay * EGLSurface)) :
  exists rs W',
    presents env ps (start (Some f) l) = Some (rs, W') /\
    List.length rs = List.length ps /\
    forwarded (since (start (Some f) l) W')
    = map (fun p => call_original f (fst p) (snd p)) ps /\
    orig (globals W') = Some f.
Proof.
  destruct (presents_forwarded env f ps (start (Some f) l)
              eq_refl (or_introl eq_refl))
    as (rs & W' & new & Hps & Hlen & Ho & Hl & Hfw).
  exists rs, W'. split; [exact Hps|]. split; [exact Hlen|].
  rewrite (since_app _ _ _ Hl). split; assumption.
Qed.

(** With no original function saved: the interceptor of [src/main.cpp]
    calls through the null pointer, which is undefined, while that of the
    simple-blend variant returns [EGL_FALSE] at once, without a query, a
    frame or any other call. *)
Theorem X_null_original env d s (W : Main.World) (W' : SimpleBlend.World) :
  orig (globals W) = None -> ping_ok (globals W) ->
  SimpleBlend.orig_swap (globals W') = None ->
  hook env d s W = None /\
  SimpleBlend.hook_swap env d s W' = Some (EGL_FALSE, W').
Proof.
  intros Ho Hp Ho'. split.
  - unfold hook, bind, ask, get. cbn [globals log].
    destruct (100 <? egl_value env (List.length (log W))).
    + match goal with
      | |- context [render env ?w ?h ?V] =>
          destruct (render_spec env w h V Hp) as (Wc & _ & _ & Horig & Hr)
      end.
      rewrite Hr. unfold set_ping. cbn [globals orig].
      rewrite Horig. cbn [globals]. rewrite Ho. reflexivity.
    + unfold ret. cbn [globals]. rewrite Ho. reflexivity.
  - unfold SimpleBlend.hook_swap, bind, get. rewrite Ho'.
    destruct W'. reflexivity.
Qed.

Lemma X_null_original_witness :
  orig (globals (start None [])) = None /\
  ping_ok (globals (start None [])) /\
  SimpleBlend.orig_swap (globals (SimpleBlend.start None [])) = None /\
  hook (driver 1920 1080) 1 2 (start None []) = None /\
  SimpleBlend.hook_swap (driver 1920 1080) 1 2 (SimpleBlend.start None [])
  = Some (EGL_FALSE, SimpleBlend.start None []).
Proof.
  split; [reflexivity|]. split; [left; reflexivity|]. split; [reflexivity|].
  exact (X_null_original (driver 1920 1080) 1 2 (start None [])
           (SimpleBlend.start None []) eq_refl (or_introl eq_refl) eq_refl).
Defined.
End Forwarding.

(** ** The scaling in both variants *)

(** For a width and a height of magnitude below 2^24, both variants store
    half of each, rounded toward zero, as internal resolution; a negative
    size is not floored. *)
Theorem X_scaling_truncates_toward_zero env w h
    (W : Main.World) (W' : SimpleBlend.World) :
  Z.abs w < 2 ^ 24 -> Z.abs h < 2 ^ 24 ->
  (exists Wi, Main.initGL env w h W = Some (tt, Wi) /\
              Main.iW (globals Wi) = Z.quot w 2 /\
              Main.iH (globals Wi) = Z.quot h 2) /\
  (exists Wi, SimpleBlend.initResources env w h W' = Some (tt, Wi) /\
              SimpleBlend.internalW (globals Wi) = Z.quot w 2 /\
              SimpleBlend.internalH (globals Wi) = Z.quot h 2).
Proof.
  intros Hw Hh. split.
  - destruct (initGL_spec env w h W)
      as (Wi & setup & Hi & _ & _ & _ & _ & _ & HiW & HiH & _).
    exists Wi. rewrite HiW, HiH, !scaled_quot by assumption. auto.
  - destruct (initResources_spec env w h W')
      as (Wi & new & Hi & _ & _ & _ & _ & _ & _ & HiW & HiH).
    exists Wi. rewrite HiW, HiH, !scaled_quot by assumption. auto.
Qed.

Lemma X_scaling_truncates_toward_zero_witness :
  Z.abs 1081 < 2 ^ 24 /\ Z.abs (-3) < 2 ^ 24 /\
  exists Wi, Main.initGL (driver 0 0) 1081 (-3) (Main.start None [])
             = Some (tt, Wi) /\
             Main.iW (globals Wi) = 540 /\ Main.iH (globals Wi) = -1.
Proof.
  assert (Hw : Z.abs 1081 < 2 ^ 24) by reflexivity.
  assert (Hh : Z.abs (-3) < 2 ^ 24) by reflexivity.
  split; [exact Hw|]. split; [exact Hh|].
  destruct (X_scaling_truncates_toward_zero (driver 0 0) 1081 (-3)
              (Main.start None []) (SimpleBlend.start None []) Hw Hh)
    as [(Wi & Hi & HiW & HiH) _].
  exists Wi. split; [exact Hi|]. split; [exact HiW | exact HiH].
Defined.

(** ** The simple-blend engine at a steady size *)

Section SimpleBlendSteady.
Import SimpleBlend.

Lemma frame_calls_counts_sb w h g curr prev :
  count is_alloc (frame_calls w h g curr prev) = 0%nat /\
  count is_release (frame_calls w h g curr prev) = 0%nat /\
  count is_draw (frame_calls w h g curr prev) = 2%nat.
Proof.
  unfold frame_calls. destruct (isFirstFrame g); repeat split; reflexivity.
Qed.

(** In the simple-blend variant too, frames at the stored size with the
    raw texture in place never allocate or release anything, each issues
    exactly two draw calls, every array access stays in bounds, and the
    ping-pong index advances by one modulo 2 per frame. *)
Theorem X_simple_blend_steady_frames env w h W (n : nat) :
  ping_ok (globals W) ->
  size_changed (globals W) w h = false ->
  exists W',
    frames env w h n W = Some (tt, W') /\
    count is_alloc (log W') = count is_alloc (log W) /\
    count is_release (log W') = count is_release (log W) /\
    count is_draw (log W') = (2 * n + count is_draw (log W))%nat /\
    pingPongIndex (globals W')
    = (pingPongIndex (globals W) + Z.of_nat n) mod 2 /\
    size_changed (globals W') w h = false.
Proof.
  intros Hp Hs. induction n as [| n IH].
  - exists W. cbn [frames]. unfold ret.
    repeat split; try reflexivity; try assumption.
    rewrite Z.add_0_r. destruct Hp as [-> | ->]; reflexivity.
  - destruct IH as (Wn & Hf & Ha & Hr & Hd & Hv & Hsn).
    assert (Hpn : ping_ok (globals Wn)).
    { unfold ping_ok. rewrite Hv.
      pose proof (Z.mod_pos_bound (pingPongIndex (globals W) + Z.of_nat n) 2
                    ltac:(lia)). lia. }
    destruct (render_effect_spec env w h Wn Hpn) as (Wc & Hc & _ & _ & Hrun).
    unfold checked in Hc. rewrite Hsn in Hc. subst Wc.
    eexists. cbn [frames]. unfold bind. rewrite Hf, Hrun.
    split; [reflexivity|]. cbn [log globals].
    rewrite !count_app, !count_rev.
    destruct (frame_calls_counts_sb w h (globals Wn) (pingPongIndex (globals Wn))
                (1 - pingPongIndex (globals Wn))) as (Ha0 & Hr0 & Hd0).
    rewrite Ha0, Hr0, Hd0, Ha, Hr, Hd.
    split; [reflexivity|]. split; [reflexivity|]. split; [lia|].
    split.
    + unfold set_pingPongIndex. cbn [pingPongIndex]. rewrite Hv.
      rewrite Nat2Z.inj_succ.
      replace (pingPongIndex (globals W) + Z.succ (Z.of_nat n))
        with (pingPongIndex (globals W) + Z.of_nat n + 1) by lia.
      pose proof (Z.mod_pos_bound (pingPongIndex (globals W) + Z.of_nat n) 2
                    ltac:(lia)) as Hb.
      rewrite (Z.add_mod (pingPongIndex (globals W) + Z.of_nat n) 1 2) by lia.
      set (r := (pingPongIndex (globals W) + Z.of_nat n) mod 2) in *.
      assert (Hr2 : r = 0 \/ r = 1) by lia.
      destruct Hr2 as [-> | ->]; reflexivity.
    + unfold size_changed, set_pingPongIndex, set_isFirstFrame in *.
      destruct (isFirstFrame (globals Wn)); exact Hsn.
Qed.

Lemma X_simple_blend_steady_frames_witness :
  ping_ok (set_rawTexture 5 (set_savedWidth 1920 (set_savedHeight 1080 initial))) /\
  size_changed (set_rawTexture 5 (set_savedWidth 1920 (set_savedHeight 1080 initial)))
               1920 1080 = false /\
  exists W',
    frames (driver 1920 1080) 1920 1080 4
      {| globals := set_rawTexture 5
                      (set_savedWidth 1920 (set_savedHeight 1080 initial));
         log := [] |} = Some (tt, W') /\
    count is_draw (log W') = 8%nat /\
    pingPongIndex (globals W') = 0.
Proof.
  split; [left; reflexivity|]. split; [reflexivity|].
  destruct (X_simple_blend_steady_frames (driver 1920 1080) 1920 1080
              {| globals := set_rawTexture 5
                              (set_savedWidth 1920 (set_savedHeight 1080 initial));
                 log := [] |} 4 (or_introl eq_refl) eq_refl)
    as (W' & Hf & _ & _ & Hd & Hv & _).
  exists W'. split; [exact Hf|]. split; [exact Hd | exact Hv].
Defined.
End SimpleBlendSteady.

(** ** The heat-haze variant *)

Section ApexProperties.
Import Apex.

Ltac run_apex := lazy -[scaled getTime_value Binary32.mul].

Ltac run_apex_lhs :=
  match goal with
  | |- ?L = _ =>
      let L' := eval lazy -[scaled getTime_value Binary32.mul] in L in
      change L with L'
  end.

Lemma apex_initGL_spec env w h W :
  exists Wi new,
    initGL env w h W = Some (tt, Wi) /\
    log Wi = new ++ log W /\
    ping (globals Wi) = ping (globals W) /\
    orig (globals Wi) = orig (globals W) /\
    sW (globals Wi) = w /\ sH (globals Wi) = h /\
    iW (globals Wi) = scaled w /\ iH (globals Wi) = scaled h /\
    count is_draw new = 0%nat /\
    count is_time_upload new = 0%nat.
Proof.
  destruct W as [[rT rF [hT0 hT1] [hF0 hF1] va pB pD pg iw ih sw sh og] l].
  destruct env as [gn gloc gint ev pr fc pl sc].
  unfold initGL, bind at 1, get at 1, bind at 1.
  cbn [globals rawTex].
  destruct (rT =? 0) eqn:E.
  - eexists. eexists. split; [run_apex; reflexivity|].
    split; [cbn; split_log|].
    cbn [globals ping orig sW sH iW iH rawTex gl_name log].
    repeat (split; [reflexivity|]). reflexivity.
  - eexists. eexists. split; [run_apex; reflexivity|].
    split; [cbn; split_log|].
    cbn [globals ping orig sW sH iW iH rawTex gl_name log].
    repeat (split; [reflexivity|]). reflexivity.
Qed.

Lemma apex_render_spec env clock cf w h W :
  ping_ok (globals W) ->
  exists Wc new,
    (if size_changed (globals W) w h
     then initGL env w h W = Some (tt, Wc) else Wc = W) /\
    render env clock cf w h W =
      Some (tt, {| globals := set_ping (1 - ping (globals W)) (globals Wc);
                   log := new ++ log Wc |}) /\
    count is_draw new = 2%nat /\
    count is_alloc new = 0%nat /\
    count is_release new = 0%nat /\
    count is_time_upload new = 1%nat /\
    count is_location_query new = 1%nat /\
    rev (passes new)
    = [ {| pass_target :=
             Some (Main.slot (histFBO (globals Wc)) (ping (globals W)));
           pass_viewport := Some (0, 0, iW (globals Wc), iH (globals Wc));
           pass_program := Some (progNeon (globals Wc));
           pass_unit0 := Some (rawTex (globals Wc));
           pass_unit1 :=
             Some (Main.slot (histTex (globals Wc)) (1 - ping (globals W))) |};
        {| pass_target := Some 0;
           pass_viewport := Some (0, 0, w, h);
           pass_program := Some (progDraw (globals Wc));
           pass_unit0 :=
             Some (Main.slot (histTex (globals Wc)) (ping (globals W)));
           pass_unit1 :=
             Some (Main.slot (histTex (globals Wc)) (1 - ping (globals W))) |} ] /\
    firstn 8 new
    = rev [ glBindFramebuffer GL_FRAMEBUFFER 0;
            glViewport 0 0 w h;
            glUseProgram (progDraw (globals Wc));
            glGetUniformLocation (progDraw (globals Wc)) "uTime";
            glUniform1f
              (gl_location env (List.length (log Wc) + 19))
              (Binary32.mul
                 (getTime_value
                    (tv_sec clock
                       (List.length (log Wc) + (if cf then 19 else 20)))
                    (tv_nsec clock
                       (List.length (log Wc) + (if cf then 19 else 20))))
                 HAZE_SPEED);
            glActiveTexture GL_TEXTURE0;
            glBindTexture
              (Main.slot (histTex (globals Wc)) (ping (globals W)));
            glDrawElements 6 ].
Proof.
  intros Hp.
  unfold render, bind at 1, get at 1, bind at 1.
  destruct (size_changed (globals W) w h) eqn:E.
  - destruct (apex_initGL_spec env w h W)
      as (Wi & new0 & Hi & _ & Hping & _).
    exists Wi. rewrite Hi.
    unfold ping_ok in Hp. rewrite <- Hping in *. clear Hi Hping E.
    destruct Wi as [[rT rF [hT0 hT1] [hF0 hF1] va pB pD pg iw ih sw sh og] li].
    destruct env as [gn gloc gint ev pr fc pl sc].
    destruct clock as [cs cn].
    cbn [globals ping log] in *.
    destruct cf; destruct Hp as [Hp | Hp]; rewrite Hp; eexists;
      (split; [reflexivity|]);
      (split; [run_apex_lhs; cbn [globals log]; apply f_equal, f_equal, f_equal; split_log|]);
      cbn [gl_location tv_sec tv_nsec];
      try (replace (List.length li + 19)%nat
        with (S (S (S (S (S (S (S (S (S (S (S (S (S (S (S (S (S (S (S
               (List.length li)))))))))))))))))))) by lia);
      try (replace (List.length li + 20)%nat
        with (S (S (S (S (S (S (S (S (S (S (S (S (S (S (S (S (S (S (S (S
               (List.length li))))))))))))))))))))) by lia);
      repeat (split; [reflexivity|]); reflexivity.
  - exists W.
    destruct W as [[rT rF [hT0 hT1] [hF0 hF1] va pB pD pg iw ih sw sh og] l].
    destruct env as [gn gloc gint ev pr fc pl sc].
    destruct clock as [cs cn].
    unfold ping_ok in Hp. cbn [globals ping log] in *.
    destruct cf; destruct Hp as [Hp | Hp]; rewrite Hp; eexists;
      (split; [reflexivity|]);
      (split; [run_apex_lhs; cbn [globals log]; apply f_equal, f_equal, f_equal; split_log|]);
      cbn [gl_location tv_sec tv_nsec];
      try (replace (List.length l + 19)%nat
        with (S (S (S (S (S (S (S (S (S (S (S (S (S (S (S (S (S (S (S
               (List.length l)))))))))))))))))))) by lia);
      try (replace (List.length l + 20)%nat
        with (S (S (S (S (S (S (S (S (S (S (S (S (S (S (S (S (S (S (S (S
               (List.length l))))))))))))))))))))) by lia);
      repeat (split; [reflexivity|]); reflexivity.
Qed.

Lemma apex_frames_spec env clock cf w h (n : nat) W :
  ping_ok (globals W) ->
  exists Wn new,
    frames env clock cf w h n W = Some (tt, Wn) /\
    log Wn = new ++ log W /\
    ping_ok (globals Wn) /\
    ping (globals Wn) = (ping (globals W) + Z.of_nat n) mod 2 /\
    count is_draw new = (2 * n)%nat /\
    count is_time_upload new = n /\
    (size_changed (globals W) w h = false ->
     size_changed (globals Wn) w h = false /\
     count is_alloc new = 0%nat /\ count is_release new = 0%nat).
Proof.
  intros Hp. induction n as [| n IH].
  - exists W, []. cbn [frames]. unfold ret.
    repeat split; try reflexivity; try assumption.
    rewrite Z.add_0_r. destruct Hp as [-> | ->]; reflexivity.
  - destruct IH as (Wn & new & Hf & Hl & Hpn & Hv & Hd & Hu & Hsteady).
    destruct (apex_render_spec env clock cf w h Wn Hpn)
      as (Wc & fr & Hc & Hr & Hd1 & Ha1 & Hr1 & Hu1 & _).
    assert (Hinit : exists new0, log Wc = new0 ++ log Wn /\
                      count is_draw new0 = 0%nat /\
                      count is_time_upload new0 = 0%nat /\
                      (size_changed (globals Wn) w h = false -> Wc = Wn)).
    { destruct (size_changed (globals Wn) w h).
      - destruct (apex_initGL_spec env w h Wn)
          as (Wi & new0 & Hi & Hl0 & _ & _ & _ & _ & _ & _ & Hd0 & Hu0).
        rewrite Hi in Hc. injection Hc as <-.
        exists new0. repeat split; try assumption. discriminate.
      - subst Wc. exists []. repeat split; reflexivity. }
    destruct Hinit as (new0 & Hl0 & Hd0 & Hu0 & Hsame).
    eexists. exists (fr ++ new0 ++ new).
    cbn [frames]. unfold bind. rewrite Hf, Hr.
    split; [reflexivity|]. cbn [log globals].
    split; [rewrite Hl0, Hl, !app_assoc; reflexivity|].
    split.
    { unfold ping_ok, set_ping in *. cbn [ping]. lia. }
    split.
    { unfold set_ping. cbn [ping]. rewrite Hv.
      rewrite Nat2Z.inj_succ.
      replace (ping (globals W) + Z.succ (Z.of_nat n))
        with (ping (globals W) + Z.of_nat n + 1) by lia.
      pose proof (Z.mod_pos_bound (ping (globals W) + Z.of_nat n) 2
                    ltac:(lia)) as Hb.
      rewrite (Z.add_mod (ping (globals W) + Z.of_nat n) 1 2) by lia.
      set (r := (ping (globals W) + Z.of_nat n) mod 2) in *.
      assert (Hr2 : r = 0 \/ r = 1) by lia.
      destruct Hr2 as [-> | ->]; reflexivity. }
    rewrite !count_app, Hd1, Hd0, Hd, Hu1, Hu0, Hu.
    split; [lia|]. split; [lia|].
    intros Hs. destruct (Hsteady Hs) as (Hsn & Ha & Hrel).
    rewrite (Hsame Hsn) in *.
    assert (new0 = []) as ->.
    { apply app_inv_tail with (l := log Wn). rewrite <- Hl0. reflexivity. }
    rewrite ?count_app, Ha1, Hr1, Ha, Hrel.
    split; [|split; reflexivity].
    unfold size_changed, set_ping in *.
    cbn [sW sH rawTex]. exact Hsn.
Qed.

(** The heat-haze variant keeps the same discipline as the main
    engine: from a state with the ping index in range any number of
    frames runs with every array access in bounds, the index advances by
    one modulo 2 per frame, each frame issues two draw calls and uploads
    the time uniform once, and at a steady size with buffers in place no
    frame allocates or releases anything. *)
Theorem X_apex_frames env clock cf w h (n : nat) W :
  ping_ok (globals W) ->
  exists W',
    frames env clock cf w h n W = Some (tt, W') /\
    ping (globals W') = (ping (globals W) + Z.of_nat n) mod 2 /\
    count is_draw (since W W') = (2 * n)%nat /\
    count is_time_upload (since W W') = n /\
    (size_changed (globals W) w h = false ->
     count is_alloc (since W W') = 0%nat /\
     count is_release (since W W') = 0%nat).
Proof.
  intros Hp.
  destruct (apex_frames_spec env clock cf w h n W Hp)
    as (Wn & new & Hf & Hl & _ & Hv & Hd & Hu & Hs).
  exists Wn. rewrite (since_app W Wn new Hl).
  repeat (split; [assumption|]).
  intros H. destruct (Hs H) as (_ & Ha & Hr). auto.
Qed.

Lemma X_apex_frames_witness :
  ping_ok (globals (start None [])) /\
  exists W',
    frames (driver 1920 1080) {| tv_sec := fun n => Z.of_nat n;
                                  tv_nsec := fun _ => 0 |}
           false 1920 1080 3 (start None []) = Some (tt, W') /\
    ping (globals W') = 1 /\
    count is_draw (since (start None []) W') = 6%nat.
Proof.
  split; [left; reflexivity|].
  destruct (X_apex_frames (driver 1920 1080)
              {| tv_sec := fun n => Z.of_nat n; tv_nsec := fun _ => 0 |}
              false 1920 1080 3 (start None []) (or_introl eq_refl))
    as (W' & Hf & Hv & Hd & _).
  exists W'. split; [exact Hf|]. split; [exact Hv | exact Hd].
Defined.

(** A frame of the heat-haze variant that does not re-initialise, for
    either order in which the arguments of the [glUniform1f] call are
    evaluated. It makes two draw calls. The neon pass writes history slot
    [ping] at the internal resolution with the neon program, the raw
    texture on unit 0 and history slot [1 - ping] on unit 1. The output
    pass is, call for call: bind framebuffer 0, viewport of the surface,
    use the draw program, query the location of [uTime], upload to that
    location one clock reading times [HAZE_SPEED], bind history slot
    [ping] on unit 0, draw. The clock is read at the call number of the
    query when it is read first, and at the next one otherwise. *)
Theorem X_apex_frame_uploads_time env clock cf w h W :
  ping_ok (globals W) ->
  size_changed (globals W) w h = false ->
  exists W',
    render env clock cf w h W = Some (tt, W') /\
    rev (passes (since W W'))
    = [ {| pass_target :=
             Some (Main.slot (histFBO (globals W)) (ping (globals W)));
           pass_viewport := Some (0, 0, iW (globals W), iH (globals W));
           pass_program := Some (progNeon (globals W));
           pass_unit0 := Some (rawTex (globals W));
           pass_unit1 :=
             Some (Main.slot (histTex (globals W)) (1 - ping (globals W))) |};
        {| pass_target := Some 0;
           pass_viewport := Some (0, 0, w, h);
           pass_program := Some (progDraw (globals W));
           pass_unit0 :=
             Some (Main.slot (histTex (globals W)) (ping (globals W)));
           pass_unit1 :=
             Some (Main.slot (histTex (globals W)) (1 - ping (globals W))) |} ] /\
    firstn 8 (since W W')
    = rev [ glBindFramebuffer GL_FRAMEBUFFER 0;
            glViewport 0 0 w h;
            glUseProgram (progDraw (globals W));
            glGetUniformLocation (progDraw (globals W)) "uTime";
            glUniform1f
              (gl_location env (List.length (log W) + 19))
              (Binary32.mul
                 (getTime_value
                    (tv_sec clock
                       (List.length (log W) + (if cf then 19 else 20)))
                    (tv_nsec clock
                       (List.length (log W) + (if cf then 19 else 20))))
                 HAZE_SPEED);
            glActiveTexture GL_TEXTURE0;
            glBindTexture
              (Main.slot (histTex (globals W)) (ping (globals W)));
            glDrawElements 6 ] /\
    count is_location_query (since W W') = 1%nat /\
    count is_time_upload (since W W') = 1%nat.
Proof.
  intros Hp Hs.
  destruct (apex_render_spec env clock cf w h W Hp)
    as (Wc & fr & Hc & Hr & _ & _ & _ & Hu & Hq & Hpass & Hout).
  rewrite Hs in Hc. subst Wc.
  eexists. split; [exact Hr|].
  erewrite since_app by (cbn [log]; reflexivity).
  repeat split; assumption.
Qed.

Lemma X_apex_frame_uploads_time_witness :
  exists W1 W2,
    render (driver 1920 1080) {| tv_sec := fun _ => 3; tv_nsec := fun _ => 0 |}
           true 1920 1080 (start None []) = Some (tt, W1) /\
    ping_ok (globals W1) /\
    size_changed (globals W1) 1920 1080 = false /\
    render (driver 1920 1080) {| tv_sec := fun _ => 3; tv_nsec := fun _ => 0 |}
           true 1920 1080 W1 = Some (tt, W2) /\
    count is_time_upload (since W1 W2) = 1%nat.
Proof.
  destruct (render (driver 1920 1080)
              {| tv_sec := fun _ => 3; tv_nsec := fun _ => 0 |}
              true 1920 1080 (start None []))
    as [[[] W1] |] eqn:E; [|lazy in E; discriminate].
  assert (HW : ping_ok (globals W1) /\
               size_changed (globals W1) 1920 1080 = false).
  { lazy in E. injection E as <-. split; [right|]; reflexivity. }
  destruct HW as [Hp Hs].
  destruct (X_apex_frame_uploads_time (driver 1920 1080)
              {| tv_sec := fun _ => 3; tv_nsec := fun _ => 0 |} true
              1920 1080 W1 Hp Hs)
    as (W2 & Hr & _ & _ & _ & Hu).
  exists W1, W2. repeat split; assumption.
Defined.
End ApexProperties.

(** ** The clock reading *)

Lemma round_aux_exact64 (s : bool) (m : positive) (e : Z) :
  Zpos (digits2_pos m) = 53 -> -1074 <= e <= 971 ->
  binary_round_aux 53 1024 s (Zpos m) e loc_Exact = S754_finite s m e.
Proof.
  intros Hd He.
  unfold binary_round_aux, shr_fexp, Zdigits2. cbn [shr_record_of_loc].
  rewrite Hd.
  assert (Hz : fexp 53 1024 (53 + e) - e = 0).
  { unfold fexp, emin. lia. }
  rewrite Hz.
  cbn [shr shr_m loc_of_shr_record round_nearest_even Zdigits2 shr_record_of_loc].
  rewrite Hd, Hz. cbn [shr shr_m].
  replace (e <=? 1024 - 53) with true by (symmetry; apply Z.leb_le; lia).
  reflexivity.
Qed.

(** Widening a normal binary32 number appends 29 zero bits. *)
Lemma of_float_normal (m : positive) (e : Z) :
  Zpos (digits2_pos m) = 24 -> -23 <= e <= 0 ->
  Binary64.of_float (S754_finite false m e)
  = S754_finite false (Pos.iter xO m 29) (e - 29).
Proof.
  intros Hd He.
  unfold Binary64.of_float, binary_normalize. cbn [cond_Zopp].
  unfold binary_round, shl_align.
  rewrite Hd.
  assert (Hf : fexp Binary64.prec Binary64.emax (24 + e) = e - 29).
  { unfold fexp, emin, Binary64.prec, Binary64.emax. lia. }
  rewrite Hf.
  replace (e - 29 - e) with (Zneg 29) by lia.
  unfold shift_pos, Binary64.prec, Binary64.emax.
  apply round_aux_exact64; [|lia].
  rewrite digits2_pos_log2, iter_xO_pow2, log2_shift by lia.
  rewrite digits2_pos_log2 in Hd. lia.
Qed.

(** Narrowing it again drops them: nothing is rounded away. *)
Lemma to_float_widened (m : positive) (e : Z) :
  Zpos (digits2_pos m) = 24 -> -23 <= e <= 0 ->
  Binary64.to_float (S754_finite false (Pos.iter xO m 29) (e - 29))
  = S754_finite false m e.
Proof.
  intros Hd He.
  assert (Hd2 : Zpos (digits2_pos (Pos.iter xO m 29)) = 53).
  { rewrite digits2_pos_log2, iter_xO_pow2, log2_shift by lia.
    rewrite digits2_pos_log2 in Hd. lia. }
  unfold Binary64.to_float, binary_normalize. cbn [cond_Zopp].
  unfold binary_round, shl_align.
  rewrite Hd2.
  assert (Hf : fexp Binary32.prec Binary32.emax (53 + (e - 29)) = e).
  { unfold fexp, emin, Binary32.prec, Binary32.emax. lia. }
  rewrite Hf.
  replace (e - (e - 29)) with 29 by lia.
  unfold binary_round_aux, shr_fexp, Zdigits2. cbn [shr_record_of_loc].
  rewrite Hd2, Hf.
  replace (e - (e - 29)) with 29 by lia.
  cbn [shr Pos.iter SpecFloat.iter_pos shr_1 shr_m loc_of_shr_record
       round_nearest_even orb shr_r shr_s fst snd].
  rewrite Hd.
  assert (Hz : fexp Binary32.prec Binary32.emax (24 + (e - 29 + 29))
               - (e - 29 + 29) = 0).
  { unfold fexp, emin, Binary32.prec, Binary32.emax. lia. }
  rewrite Hz. cbn [shr shr_m].
  replace (e - 29 + 29 <=? Binary32.emax - Binary32.prec) with true
    by (symmetry; apply Z.leb_le; unfold Binary32.prec, Binary32.emax; lia).
  f_equal. lia.
Qed.

(** On a whole second the clock reading is exact for the first [2^24]
    seconds of uptime: the detour through [double] (widening, adding a zero
    quotient, narrowing) loses nothing, so [getTime] returns the second
    count itself converted to [float]. *)
Theorem X_getTime_whole_seconds (sec : Z) :
  0 <= sec < 2 ^ 24 ->
  Apex.getTime_value sec 0 = Binary32.of_int sec.
Proof.
  intros Hs. unfold Apex.getTime_value.
  assert (Hq : Binary64.div (Binary64.of_float (Binary32.of_int 0))
                 Binary64.billion = S754_zero false) by reflexivity.
  rewrite Hq.
  destruct sec as [| p | p]; [reflexivity| |lia].
  destruct (of_int_pos p ltac:(lia)) as (m & e & Hi & Hd & He & _).
  rewrite Hi, (of_float_normal m e Hd He).
  unfold Binary64.add. cbn [SFadd].
  apply to_float_widened; assumption.
Qed.

Lemma X_getTime_whole_seconds_witness :
  0 <= 3600 < 2 ^ 24 /\
  Apex.getTime_value 3600 0 = Binary32.of_int 3600.
Proof.
  split; [lia|]. apply (X_getTime_whole_seconds 3600). lia.
Defined.

(** ** The shaders of the heat-haze variant *)

Section ApexShaderProperties.
Import Shader ApexShader.
Local Open Scope R_scope.

(** The accumulation pass of the heat-haze variant keeps no history
    where the current pixel is dark (luma at most 0.4) or within 0.12 of
    the screen centre: the output is the current texel. *)
Theorem X_neon_keeps_dark_and_central_pixels (c h : sampler2D) (v : vec2) :
  dot (rgb (texture c v)) luma_weights <= 0.4 \/
  distance v {| vx := 0.5; vy := 0.5 |} <= 0.12 ->
  frag_neon c h v = texture c v.
Proof.
  intros [H | H]; unfold frag_neon, neon_decay, neon_mask.
  - rewrite (smoothstep_low 0.4 0.9) by lra.
    replace (0 * 0.96 * _) with 0 by ring. apply mix4_zero.
  - rewrite (smoothstep_low 0.12 0.45) by lra.
    rewrite Rmult_0_r. apply mix4_zero.
Qed.

Lemma X_neon_keeps_dark_and_central_pixels_witness :
  frag_neon (flat_image black) (flat_image grey) {| vx := 0; vy := 0 |}
  = black.
Proof.
  apply (X_neon_keeps_dark_and_central_pixels (flat_image black)
           (flat_image grey) {| vx := 0; vy := 0 |}).
  left. unfold texture, flat_image, black, dot, luma_weights.
  cbn [rgb red green blue]. lra.
Defined.

Lemma neon_weight_unit (l : R) (v : vec2) :
  0 <= neon_decay l * neon_mask v <= 0.96.
Proof.
  unfold neon_decay, neon_mask.
  pose proof (smoothstep_unit 0.4 0.9 l) as Hd.
  pose proof (smoothstep_unit 0.12 0.45
                (distance v {| vx := 0.5; vy := 0.5 |})) as Hm.
  nra.
Qed.

(** The history is amplified by 1.01 before it is mixed in, so the
    accumulation pass can overshoot, but by no more than one per cent:
    with every component of the current texel and of the history texel
    read at the zoomed coordinate in [0, m], every component of the
    output is in [0, 1.01 * m]. *)
Theorem X_neon_overshoot_bounded (c h : sampler2D) (v : vec2) (m : R) :
  (forall (t : sampler2D) (u : vec2),
      (t = c \/ t = h) ->
      0 <= red (rgb (texture t u)) <= m /\ 0 <= green (rgb (texture t u)) <= m /\
      0 <= blue (rgb (texture t u)) <= m /\ 0 <= alpha (texture t u) <= m) ->
  0 <= red (rgb (frag_neon c h v)) <= 1.01 * m /\
  0 <= green (rgb (frag_neon c h v)) <= 1.01 * m /\
  0 <= blue (rgb (frag_neon c h v)) <= 1.01 * m /\
  0 <= alpha (frag_neon c h v) <= 1.01 * m.
Proof.
  intros H. unfold frag_neon.
  pose proof (neon_weight_unit (dot (rgb (texture c v)) luma_weights) v) as Ha.
  apply mix4_within.
  - lra.
  - destruct (H c v (or_introl eq_refl)) as (Hr & Hg & Hb & Hal).
    repeat split; lra.
  - match goal with
    | |- context [texture h ?u] =>
        destruct (H h u (or_intror eq_refl)) as (Hr & Hg & Hb & Hal)
    end.
    unfold scale4. cbn [rgb red green blue alpha].
    repeat split; lra.
Qed.

Lemma X_neon_overshoot_bounded_witness :
  0 <= red (rgb (frag_neon (flat_image grey) (flat_image grey)
                           {| vx := 0; vy := 0 |})) <= 1.01 * 1.
Proof.
  refine (proj1 (X_neon_overshoot_bounded (flat_image grey) (flat_image grey)
                   {| vx := 0; vy := 0 |} 1 _)).
  intros t u [-> | ->]; unfold texture, flat_image, grey;
    cbn [rgb red green blue alpha]; repeat split; lra.
Defined.

(** The heat ripple moves the read coordinate by at most 0.002 along
    each axis, whatever the time and the image. *)
Theorem X_haze_displacement_bounded (t : sampler2D) (uTime : R) (v : vec2) :
  Rabs (vx (finalUV t uTime v) - vx v) <= 0.002 /\
  Rabs (vy (finalUV t uTime v) - vy v) <= 0.002.
Proof.
  unfold finalUV. cbn [vx vy].
  pose proof (smoothstep_unit 0.7 1.0
                (dot (rgb (texture t v)) luma_weights)) as Hm.
  set (k := smoothstep _ _ _) in *. clearbody k.
  pose proof (SIN_bound (vy v * 30.0 + uTime)) as Hs.
  pose proof (COS_bound ((vx v + vy v) * 25.0 + uTime * 1.3)) as Hc.
  set (s := sin _) in *. set (c := cos _) in *. clearbody s c.
  split; apply Rabs_le; nra.
Qed.

(** Only hot pixels shimmer: where the undistorted pixel has a luma of
    at most 0.7 the image is read at the pixel's own coordinate and the
    output does not depend on the time uniform. *)
Theorem X_haze_only_on_hot_pixels (t : sampler2D) (time time' : R) (v : vec2) :
  dot (rgb (texture t v)) luma_weights <= 0.7 ->
  finalUV t time v = v /\
  ApexShader.frag_draw t time v = ApexShader.frag_draw t time' v.
Proof.
  intros H.
  assert (Hf : forall u, finalUV t u v = v).
  { intros u. unfold finalUV. rewrite smoothstep_low by lra.
    destruct v as [x y]. cbn [vx vy]. f_equal; ring. }
  split; [apply Hf|].
  unfold ApexShader.frag_draw. rewrite !Hf. reflexivity.
Qed.

Lemma X_haze_only_on_hot_pixels_witness :
  ApexShader.frag_draw (flat_image grey) 0 {| vx := 0; vy := 0 |}
  = ApexShader.frag_draw (flat_image grey) 1 {| vx := 0; vy := 0 |}.
Proof.
  refine (proj2 (X_haze_only_on_hot_pixels (flat_image grey) 0 1
                   {| vx := 0; vy := 0 |} _)).
  unfold texture, flat_image, grey, dot, luma_weights.
  cbn [rgb red green blue]. lra.
Defined.
End ApexShaderProperties.
